(** * IGL: texture row layout and the OpenGL framebuffer state machine

    A shallow embedding of [igl/Texture.h] (format properties, texture ranges)
    and of [igl/opengl/Framebuffer.cpp] (FramebufferBindingGuard, Framebuffer,
    CustomFramebuffer), with the properties the specification states about
    them.

    Unsigned integers of the source ([size_t], [uint32_t], [uint8_t], [GLuint],
    [GLenum], [GLbitfield]) are values of [N]; where the source narrows a value
    the truncation is written out.  [std::shared_ptr<ITexture>] is
    [option Texture], [std::unordered_map<size_t, AttachmentDesc>] is
    [gmap N AttachmentDesc], [std::vector] is [list].  The order in which the
    source iterates an [unordered_map] is not fixed by its keys; the
    embedding iterates in the order of [map_to_list], and a property that
    speaks of the sequence of such an iteration is stated up to
    permutation. *)

From Stdlib Require Import NArith Lia.
From stdpp Require Import gmap strings list sorting pretty.

Local Open Scope N_scope.

(** ** igl/Texture.h *)

Module TextureRangeDesc.
(** [struct TextureRangeDesc], with the default member initialisers. *)
Record t : Type := mk {
  x : N; y : N; z : N;
  width : N; height : N; depth : N;
  layer : N; numLayers : N;
  mipLevel : N; numMipLevels : N;
  face : N; numFaces : N
}.

Definition default : t :=
  {| x := 0; y := 0; z := 0; width := 1; height := 1; depth := 1;
     layer := 0; numLayers := 1; mipLevel := 0; numMipLevels := 1;
     face := 0; numFaces := 1 |}.
End TextureRangeDesc.

Module TextureFormatProperties.
(** [struct TextureFormatProperties]: the layout fields, all [uint8_t] in the
    source.  [format] is the identifier of the [TextureFormat] enumeration,
    which is declared in [igl/TextureFormat.h]. *)
Record t : Type := mk {
  format : N;
  componentsPerPixel : N;
  bytesPerBlock : N;
  blockWidth : N;
  blockHeight : N;
  blockDepth : N;
  minBlocksX : N;
  minBlocksY : N;
  minBlocksZ : N;
  flags : N
}.

(** [enum Flags]. *)
Definition Depth : N := N.shiftl 1 0.
Definition Stencil : N := N.shiftl 1 1.
Definition Compressed : N := N.shiftl 1 2.
Definition sRGB : N := N.shiftl 1 3.
Definition Integer : N := N.shiftl 1 4.

Definition isCompressed (p : t) : bool := negb (N.land (flags p) Compressed =? 0).
Definition isSRGB (p : t) : bool := negb (N.land (flags p) sRGB =? 0).
Definition isDepthOrStencil (p : t) : bool :=
  negb (N.land (flags p) Depth =? 0) || negb (N.land (flags p) Stencil =? 0).

(** Every field is a [uint8_t], and a block is at least one pixel wide. *)
Definition wellFormed (p : t) : Prop :=
  1 <= blockWidth p /\ blockWidth p < 256 /\
  bytesPerBlock p < 256 /\ minBlocksX p < 256.

(** The number of blocks of width [b] needed to cover [a] pixels. *)
Definition ceilDiv (a b : N) : N :=
  if a mod b =? 0 then a / b else a / b + 1.

(** Modelled from the spec: the body of [getBytesPerRow(size_t)], which
    Texture.h only declares.  The specification gives
    [ceil(width / blockWidth) * bytesPerBlock], clamped to at least
    [minBlocksX * bytesPerBlock]; the value is the mathematical one
    ([getBytesPerRow_fits] shows that it is a [size_t] for every width a
    valid range can have). *)
Definition getBytesPerRow (p : t) (texWidth : N) : N :=
  N.max (ceilDiv texWidth (blockWidth p) * bytesPerBlock p)
        (minBlocksX p * bytesPerBlock p).

(** Modelled from the spec: the overload [getBytesPerRow(TextureRangeDesc)]
    is the same computation on [range.width]. *)
Definition getBytesPerRowRange (p : t) (range : TextureRangeDesc.t) : N :=
  getBytesPerRow p (TextureRangeDesc.width range).

(** A four-byte-per-pixel uncompressed format such as RGBA_UNorm8: block
    1x1x1 and the default minimum block counts of the struct. *)
Definition rgba8 : t :=
  {| format := 1; componentsPerPixel := 4; bytesPerBlock := 4;
     blockWidth := 1; blockHeight := 1; blockDepth := 1;
     minBlocksX := 1; minBlocksY := 1; minBlocksZ := 1; flags := 0 |}.

(** A block-compressed format with 4x4 blocks of 8 bytes. *)
Definition bc4x4 : t :=
  {| format := 2; componentsPerPixel := 3; bytesPerBlock := 8;
     blockWidth := 4; blockHeight := 4; blockDepth := 1;
     minBlocksX := 1; minBlocksY := 1; minBlocksZ := 1; flags := Compressed |}.
End TextureFormatProperties.

(** ** The OpenGL names used by Framebuffer.cpp *)

Module GL.
Definition FRAMEBUFFER : N := 0x8D40.
Definition READ_FRAMEBUFFER : N := 0x8CA8.
Definition DRAW_FRAMEBUFFER : N := 0x8CA9.
Definition RENDERBUFFER : N := 0x8D41.
Definition FRAMEBUFFER_BINDING : N := 0x8CA6.
Definition DRAW_FRAMEBUFFER_BINDING : N := 0x8CA6.
Definition READ_FRAMEBUFFER_BINDING : N := 0x8CAA.
Definition RENDERBUFFER_BINDING : N := 0x8CA7.
Definition FRAMEBUFFER_COMPLETE : N := 0x8CD5.
Definition FRAMEBUFFER_INCOMPLETE_ATTACHMENT : N := 0x8CD6.
Definition FRAMEBUFFER_INCOMPLETE_MISSING_ATTACHMENT : N := 0x8CD7.
Definition FRAMEBUFFER_INCOMPLETE_DIMENSIONS : N := 0x8CD9.
Definition FRAMEBUFFER_UNSUPPORTED : N := 0x8CDD.
Definition COLOR_ATTACHMENT0 : N := 0x8CE0.
Definition DEPTH_ATTACHMENT : N := 0x8D00.
Definition STENCIL_ATTACHMENT : N := 0x8D20.
Definition COLOR_BUFFER_BIT : N := 0x4000.
Definition DEPTH_BUFFER_BIT : N := 0x0100.
Definition STENCIL_BUFFER_BIT : N := 0x0400.
Definition STENCIL_TEST : N := 0x0B90.
Definition FRAMEBUFFER_SRGB : N := 0x8DB9.
Definition PACK_ALIGNMENT : N := 0x0D05.
Definition RGBA : N := 0x1908.
Definition RGBA_INTEGER : N := 0x8D99.
Definition UNSIGNED_BYTE : N := 0x1401.
Definition UNSIGNED_INT : N := 0x1405.
End GL.

(** [static_cast<uint32_t>] and [static_cast<GLenum>] of a [size_t]. *)
Definition to_uint32 (n : N) : N := n mod 2 ^ 32.

(** ** Values passed between the caller, the framebuffer and the backend *)

(** [igl::Result], with the codes Framebuffer.cpp produces. *)
Module Result.
Inductive Code : Type := Ok | ArgumentInvalid | RuntimeError | Unimplemented.

Record t : Type := mk { code : Code; message : string }.

Definition isOk (r : t) : bool :=
  match code r with Ok => true | _ => false end.

Definition ok : t := {| code := Ok; message := EmptyString |}.

(** [Result::setResult(outResult, code, message)] and
    [Result::setOk(outResult)]: the out-parameter is written when it is not
    null.  A [Result*] is the [option] of what it points to. *)
Definition setResult (outResult : option t) (c : Code) (msg : string) : option t :=
  match outResult with
  | Some _ => Some {| code := c; message := msg |}
  | None => None
  end.

Definition setOk (outResult : option t) : option t :=
  setResult outResult Ok EmptyString.
End Result.

(** The texture behind an [ITexture] pointer, as far as the framebuffer looks
    at it: its identity, whether its storage is the view's implicit one
    ([opengl::Texture::isImplicitStorage]), and its format properties. *)
Module Texture.
Record t : Type := mk {
  name : N;
  isImplicitStorage : bool;
  properties : TextureFormatProperties.t
}.

Definition getFormat (tex : t) : N :=
  TextureFormatProperties.format (properties tex).

(** [struct Texture::AttachmentParams]. *)
Record AttachmentParams : Type := mkParams {
  face : N; mipLevel : N; layer : N; read : bool; stereo : bool
}.
End Texture.

(** The identifier of [TextureFormat::RGBA_UInt32] (igl/TextureFormat.h). *)
Definition RGBA_UInt32 : N := 32.

Inductive FramebufferMode : Type := Mono | Stereo | Multiview.

Definition isStereo (m : FramebufferMode) : bool :=
  match m with Stereo => true | _ => false end.

Definition isMultiview (m : FramebufferMode) : bool :=
  match m with Multiview => true | _ => false end.

Module FramebufferDesc.
(** [FramebufferDesc::AttachmentDesc]. *)
Record AttachmentDesc : Type := mkAttachment {
  texture : option Texture.t;
  resolveTexture : option Texture.t
}.

Definition noAttachment : AttachmentDesc :=
  {| texture := None; resolveTexture := None |}.

Record t : Type := mk {
  colorAttachments : gmap N AttachmentDesc;
  depthAttachment : AttachmentDesc;
  stencilAttachment : AttachmentDesc;
  mode : FramebufferMode;
  debugName : string
}.

(** A default-constructed descriptor. *)
Definition default : t :=
  {| colorAttachments := ∅; depthAttachment := noAttachment;
     stencilAttachment := noAttachment; mode := Mono;
     debugName := EmptyString |}.
End FramebufferDesc.

Inductive LoadAction : Type := LoadAction_DontCare | LoadAction_Load | LoadAction_Clear.
Inductive StoreAction : Type := StoreAction_DontCare | StoreAction_Store | StoreAction_MsaaResolve.

Definition isClear (a : LoadAction) : bool :=
  match a with LoadAction_Clear => true | _ => false end.

Definition isStore (a : StoreAction) : bool :=
  match a with StoreAction_Store => true | _ => false end.

Module RenderPassDesc.
(** [RenderPassDesc::BaseAttachmentDesc]. *)
Record BaseAttachmentDesc : Type := mkBase {
  loadAction : LoadAction;
  storeAction : StoreAction;
  layer : N;
  face : N;
  mipLevel : N
}.

(** Clear values are carried, never inspected: a colour is four floats,
    kept as their bit patterns. *)
Record Color : Type := mkColor { r : N; g : N; b : N; a : N }.

Record ColorAttachmentDesc : Type := mkColorAttachment {
  colorBase : BaseAttachmentDesc;
  clearColor : Color
}.

Record DepthAttachmentDesc : Type := mkDepthAttachment {
  depthBase : BaseAttachmentDesc;
  clearDepth : N
}.

Record StencilAttachmentDesc : Type := mkStencilAttachment {
  stencilBase : BaseAttachmentDesc;
  clearStencil : N
}.

Record t : Type := mk {
  colorAttachments : list ColorAttachmentDesc;
  depthAttachment : DepthAttachmentDesc;
  stencilAttachment : StencilAttachmentDesc
}.

Definition defaultBase : BaseAttachmentDesc :=
  {| loadAction := LoadAction_Clear; storeAction := StoreAction_DontCare;
     layer := 0; face := 0; mipLevel := 0 |}.

(** A default-constructed render pass. *)
Definition default : t :=
  {| colorAttachments := [];
     depthAttachment := {| depthBase := defaultBase; clearDepth := 0x3F800000 |};
     stencilAttachment := {| stencilBase := defaultBase; clearStencil := 0 |} |}.
End RenderPassDesc.

(** ** The graphics context

    [IContext] is used through the calls below.  Each call the framebuffer code
    makes on the context is recorded, in order, with its arguments; the
    bindings the calls read and write are kept beside the record. *)

Inductive GLCall : Type :=
| GetIntegerv (pname : N)
| CheckFramebufferStatus (target : N)
| BindFramebuffer (target : N) (framebuffer : N)
| BindRenderbuffer (target : N) (renderbuffer : N)
| GenFramebuffers (framebuffer : N)
| DeleteFramebuffers (framebuffer : N)
| ObjectLabel (identifier : N) (name : N) (label : string)
| DrawBuffers (bufs : list N)
| AttachAsColor (tex : Texture.t) (index : N) (params : Texture.AttachmentParams)
| AttachAsDepth (tex : Texture.t) (params : Texture.AttachmentParams)
| AttachAsStencil (tex : Texture.t) (params : Texture.AttachmentParams)
| Enable (cap : N)
| Disable (cap : N)
| ColorMask (red green blue alpha : bool)
| ClearColor (c : RenderPassDesc.Color)
| DepthMask (flag : bool)
| ClearDepthf (d : N)
| StencilMask (mask : N)
| ClearStencil (s : N)
| Clear (mask : N)
| InvalidateFramebuffer (target : N) (attachments : list N)
| PixelStorei (pname : N) (param : N)
| Flush
| ReadPixels (x y width height : N) (format type : N)
| CheckForErrors
| GetLastError.

Record Context : Type := mkContext {
  renderbufferBinding : N;
  readFramebufferBinding : N;
  drawFramebufferBinding : N;
  lastFramebufferName : N;
  calls : list GLCall;
  assertionFailures : list string
}.

(** What the device, the build and the driver decide. *)
Record Env : Type := mkEnv {
  (** [DeviceFeatures::ReadWriteFramebuffer], [DeviceFeatures::SRGB],
      [InternalFeatures::DebugLabel], [InternalFeatures::InvalidateFramebuffer],
      [TextureFeatures::TextureInteger]. *)
  ReadWriteFramebuffer : bool;
  SRGB : bool;
  DebugLabel : bool;
  InvalidateFramebufferFeature : bool;
  TextureInteger : bool;
  (** The preprocessor symbol [IGL_OPENGL_ES]. *)
  IGL_OPENGL_ES : bool;
  (** Whether a failed [IGL_ASSERT] stops the program (a debug build) or
      is passed over (a release build). *)
  assertionsAbort : bool;
  (** The completeness status the driver reports for a framebuffer name, given
      the calls made so far. *)
  framebufferStatus : list GLCall -> N -> N;
  (** [opengl::Texture::getAlignment(bytesPerRow, mipLevel)]. *)
  getAlignment : Texture.t -> N -> N -> N;
  (** The bytes [glReadPixels] delivers, and the error the context holds. *)
  readPixelsData : list GLCall -> list N;
  lastError : list GLCall -> Result.t
}.

(** What ends a run that does not return.  A failed assertion in a build
    where it stops the program, an access outside a vector or through a null
    pointer, and the end of the fuel end the program.  An exception leaves
    the function instead and propagates to its callers; the destructors of
    the blocks it leaves run on the way.  No function of Framebuffer.cpp
    throws, but a block can be left that way by what is called in it. *)
Inductive Fault : Type :=
| AssertionFailure
| UndefinedBehaviour
| OutOfFuel
| Exception (what : string).

(** A run either returns, or stops at a fault; the context is kept in both
    cases. *)
Inductive Outcome (A : Type) : Type :=
| Done (a : A) (c : Context)
| Stopped (f : Fault) (c : Context).
Arguments Done {A} a c.
Arguments Stopped {A} f c.

Definition M (A : Type) : Type := Context -> Outcome A.

#[global] Instance M_ret : MRet M := fun A a c => Done a c.
#[global] Instance M_bind : MBind M := fun A B f m c =>
  match m c with
  | Done a c' => f a c'
  | Stopped k c' => Stopped k c'
  end.

Definition stop {A} (k : Fault) : M A := fun c => Stopped k c.

Definition finalContext {A} (o : Outcome A) : Context :=
  match o with Done _ c => c | Stopped _ c => c end.

(** Leaving a block one of whose locals has the destructor [destructor]: it
    runs after the body has returned, and when an exception propagates out
    of the body, which then propagates further. *)
Definition leaving {A} (body : M A) (destructor : M unit) : M A := fun c =>
  match body c with
  | Done a c' => (destructor;; mret a) c'
  | Stopped (Exception what) c' => (destructor;; stop (Exception what)) c'
  | Stopped k c' => Stopped k c'
  end.

(** [forEach l body]: a range-based [for] over [l]. *)
Fixpoint forEach {A} (l : list A) (body : A -> M unit) : M unit :=
  match l with
  | [] => mret tt
  | x :: l' => body x ;; forEach l' body
  end.

Definition recordCall (e : GLCall) (c : Context) : Context :=
  {| renderbufferBinding := renderbufferBinding c;
     readFramebufferBinding := readFramebufferBinding c;
     drawFramebufferBinding := drawFramebufferBinding c;
     lastFramebufferName := lastFramebufferName c;
     calls := calls c ++ [e];
     assertionFailures := assertionFailures c |}.

Definition recordAssertion (msg : string) (c : Context) : Context :=
  {| renderbufferBinding := renderbufferBinding c;
     readFramebufferBinding := readFramebufferBinding c;
     drawFramebufferBinding := drawFramebufferBinding c;
     lastFramebufferName := lastFramebufferName c;
     calls := calls c;
     assertionFailures := assertionFailures c ++ [msg] |}.

Definition setFramebufferBindings (rd dr : N) (c : Context) : Context :=
  {| renderbufferBinding := renderbufferBinding c;
     readFramebufferBinding := rd;
     drawFramebufferBinding := dr;
     lastFramebufferName := lastFramebufferName c;
     calls := calls c;
     assertionFailures := assertionFailures c |}.

Definition setRenderbufferBinding (rb : N) (c : Context) : Context :=
  {| renderbufferBinding := rb;
     readFramebufferBinding := readFramebufferBinding c;
     drawFramebufferBinding := drawFramebufferBinding c;
     lastFramebufferName := lastFramebufferName c;
     calls := calls c;
     assertionFailures := assertionFailures c |}.

Definition setLastFramebufferName (n : N) (c : Context) : Context :=
  {| renderbufferBinding := renderbufferBinding c;
     readFramebufferBinding := readFramebufferBinding c;
     drawFramebufferBinding := drawFramebufferBinding c;
     lastFramebufferName := n;
     calls := calls c;
     assertionFailures := assertionFailures c |}.

(** The framebuffer bound to a target: [GL_FRAMEBUFFER] stands for the draw
    binding when it is queried. *)
Definition boundFramebuffer (target : N) (c : Context) : N :=
  if target =? GL.READ_FRAMEBUFFER then readFramebufferBinding c
  else drawFramebufferBinding c.

Section Backend.
Variable env : Env.

(** *** The context's calls *)

Definition call (e : GLCall) : M unit := fun c => Done tt (recordCall e c).

Definition getIntegerv (pname : N) : M N := fun c =>
  let v := if pname =? GL.RENDERBUFFER_BINDING then renderbufferBinding c
           else if pname =? GL.READ_FRAMEBUFFER_BINDING then readFramebufferBinding c
           else if pname =? GL.DRAW_FRAMEBUFFER_BINDING then drawFramebufferBinding c
           else 0 in
  Done v (recordCall (GetIntegerv pname) c).

Definition bindFramebuffer (target framebuffer : N) : M unit := fun c =>
  let c' := recordCall (BindFramebuffer target framebuffer) c in
  Done tt
    (if target =? GL.READ_FRAMEBUFFER
     then setFramebufferBindings framebuffer (drawFramebufferBinding c') c'
     else if target =? GL.DRAW_FRAMEBUFFER
     then setFramebufferBindings (readFramebufferBinding c') framebuffer c'
     else setFramebufferBindings framebuffer framebuffer c').

Definition bindRenderbuffer (target renderbuffer : N) : M unit := fun c =>
  Done tt (setRenderbufferBinding renderbuffer
             (recordCall (BindRenderbuffer target renderbuffer) c)).

(** [context.checkFramebufferStatus(target)]. *)
Definition contextCheckFramebufferStatus (target : N) : M N := fun c =>
  Done (framebufferStatus env (calls c) (boundFramebuffer target c))
       (recordCall (CheckFramebufferStatus target) c).

(** [genFramebuffers(1, &id)]: a name not handed out before, never 0. *)
Definition genFramebuffers : M N := fun c =>
  let n := lastFramebufferName c + 1 in
  Done n (setLastFramebufferName n (recordCall (GenFramebuffers n) c)).

(** [deleteFramebuffers(1, &id)]: a binding of the deleted name reverts
    to 0. *)
Definition deleteFramebuffers (framebuffer : N) : M unit := fun c =>
  let c' := recordCall (DeleteFramebuffers framebuffer) c in
  let unbound b := if b =? framebuffer then 0 else b in
  Done tt (setFramebufferBindings (unbound (readFramebufferBinding c'))
                                  (unbound (drawFramebufferBinding c')) c').

Definition readPixels (x y width height format type : N) : M (list N) := fun c =>
  Done (readPixelsData env (calls c))
       (recordCall (ReadPixels x y width height format type) c).

Definition getLastError : M Result.t := fun c =>
  Done (lastError env (calls c)) (recordCall GetLastError c).

(** *** Assertions *)

Definition IGL_ASSERT_MSG (cond : bool) (msg : string) : M unit := fun c =>
  if cond then Done tt c
  else if assertionsAbort env
       then Stopped AssertionFailure (recordAssertion msg c)
       else Done tt (recordAssertion msg c).

Definition IGL_ASSERT (cond : bool) : M unit :=
  IGL_ASSERT_MSG cond "IGL_ASSERT".

Definition IGL_ASSERT_NOT_REACHED : M unit :=
  IGL_ASSERT_MSG false "Code should NOT be reached".

Definition IGL_ASSERT_NOT_IMPLEMENTED : M unit :=
  IGL_ASSERT_MSG false "Code NOT implemented".

(** [IGL_UNEXPECTED(cond)] is used as the condition of an [if]: its value is
    that of [cond]. *)
Definition IGL_UNEXPECTED (cond : bool) : bool := cond.

(** [v[i]] on a [std::vector]: undefined outside the vector. *)
Definition vectorAt {A} (v : list A) (i : N) : M A :=
  match v !! N.to_nat i with
  | Some a => mret a
  | None => stop UndefinedBehaviour
  end.

(** *** Framebuffer.cpp, anonymous namespace *)

Definition framebufferStatusMessage (status : N) : string :=
  if status =? GL.FRAMEBUFFER_INCOMPLETE_ATTACHMENT
  then "GL_FRAMEBUFFER_INCOMPLETE_ATTACHMENT"
  else if status =? GL.FRAMEBUFFER_INCOMPLETE_MISSING_ATTACHMENT
  then "GL_FRAMEBUFFER_INCOMPLETE_MISSING_ATTACHMENT"
  else if status =? GL.FRAMEBUFFER_INCOMPLETE_DIMENSIONS
  then "GL_FRAMEBUFFER_INCOMPLETE_DIMENSIONS"
  else if status =? GL.FRAMEBUFFER_UNSUPPORTED
  then "GL_FRAMEBUFFER_UNSUPPORTED"
  else "GL_FRAMEBUFFER unknown error: " +:+ pretty status.

Definition checkFramebufferStatus (read : bool) : M Result.t :=
  let framebufferTarget :=
    if ReadWriteFramebuffer env
    then (if read then GL.READ_FRAMEBUFFER else GL.DRAW_FRAMEBUFFER)
    else GL.FRAMEBUFFER in
  status ← contextCheckFramebufferStatus framebufferTarget;
  mret (if status =? GL.FRAMEBUFFER_COMPLETE
        then Result.ok
        else {| Result.code := Result.RuntimeError;
                Result.message := framebufferStatusMessage status |}).

Definition attachAsColor (texture : Texture.t) (index : N)
    (params : Texture.AttachmentParams) : M unit :=
  call (AttachAsColor texture index params).

Definition attachAsDepth (texture : Texture.t)
    (params : Texture.AttachmentParams) : M unit :=
  call (AttachAsDepth texture params).

Definition attachAsStencil (texture : Texture.t)
    (params : Texture.AttachmentParams) : M unit :=
  call (AttachAsStencil texture params).

Definition toAttachmentParams (attachment : RenderPassDesc.BaseAttachmentDesc)
    (mode : FramebufferMode) : Texture.AttachmentParams :=
  {| Texture.face := RenderPassDesc.face attachment;
     Texture.mipLevel := RenderPassDesc.mipLevel attachment;
     Texture.layer := RenderPassDesc.layer attachment;
     Texture.read := false;
     Texture.stereo := isStereo mode |}.

Definition defaultWriteAttachmentParams (mode : FramebufferMode)
    : Texture.AttachmentParams :=
  {| Texture.face := 0; Texture.mipLevel := 0; Texture.layer := 0;
     Texture.read := false; Texture.stereo := isStereo mode |}.

Definition toReadAttachmentParams (range : TextureRangeDesc.t)
    (mode : FramebufferMode) : M Texture.AttachmentParams :=
  IGL_ASSERT_MSG (TextureRangeDesc.numLayers range =? 1) "range.numLayers must be 1.";;
  IGL_ASSERT_MSG (TextureRangeDesc.numMipLevels range =? 1) "range.numMipLevels must be 1.";;
  IGL_ASSERT_MSG (TextureRangeDesc.numFaces range =? 1) "range.numFaces must be 1.";;
  mret {| Texture.face := to_uint32 (TextureRangeDesc.face range);
          Texture.mipLevel := to_uint32 (TextureRangeDesc.mipLevel range);
          Texture.layer := to_uint32 (TextureRangeDesc.layer range);
          Texture.read := true;
          Texture.stereo := isStereo mode |}.

(** *** FramebufferBindingGuard *)

Record FramebufferBindingGuard : Type := mkGuard {
  currentRenderbuffer_ : N;
  currentFramebuffer_ : N;
  currentReadFramebuffer_ : N;
  currentDrawFramebuffer_ : N
}.

(** The constructor.  A framebuffer binding is read only when the bound
    framebuffer is complete; the member keeps its initial 0 otherwise. *)
Definition newFramebufferBindingGuard : M FramebufferBindingGuard :=
  renderbuffer ← getIntegerv GL.RENDERBUFFER_BINDING;
  if ReadWriteFramebuffer env then
    readStatus ← checkFramebufferStatus true;
    readFramebuffer ←
      (if Result.isOk readStatus
       then getIntegerv GL.READ_FRAMEBUFFER_BINDING else mret 0);
    drawStatus ← checkFramebufferStatus false;
    drawFramebuffer ←
      (if Result.isOk drawStatus
       then getIntegerv GL.DRAW_FRAMEBUFFER_BINDING else mret 0);
    mret {| currentRenderbuffer_ := renderbuffer;
            currentFramebuffer_ := 0;
            currentReadFramebuffer_ := readFramebuffer;
            currentDrawFramebuffer_ := drawFramebuffer |}
  else
    status ← checkFramebufferStatus false;
    framebuffer ←
      (if Result.isOk status
       then getIntegerv GL.FRAMEBUFFER_BINDING else mret 0);
    mret {| currentRenderbuffer_ := renderbuffer;
            currentFramebuffer_ := framebuffer;
            currentReadFramebuffer_ := 0;
            currentDrawFramebuffer_ := 0 |}.

(** The destructor. *)
Definition deleteFramebufferBindingGuard (g : FramebufferBindingGuard) : M unit :=
  (if ReadWriteFramebuffer env then
     bindFramebuffer GL.READ_FRAMEBUFFER (currentReadFramebuffer_ g);;
     bindFramebuffer GL.DRAW_FRAMEBUFFER (currentDrawFramebuffer_ g)
   else
     bindFramebuffer GL.FRAMEBUFFER (currentFramebuffer_ g));;
  bindRenderbuffer GL.RENDERBUFFER (currentRenderbuffer_ g).

(** A block with a guard as its first local: the destructor runs when the
    block is left, by running to its end or by a [return], whatever the
    value, and when an exception propagates out of it.  A run that ends the
    program has no destructor run. *)
Definition withFramebufferBindingGuard {A} (body : M A) : M A :=
  guard ← newFramebufferBindingGuard;
  leaving body (deleteFramebufferBindingGuard guard).
End Backend.

(** ** CustomFramebuffer *)

(** The members of [CustomFramebuffer] (with those of its base [Framebuffer]).
    [resolveFramebuffer] is the owned child, null until [prepareResource]
    creates it; [renderPass_] is the [mutable] cache written by [bind]. *)
#[warnings="-register-all"]
Inductive CustomFramebuffer : Type := mkCustomFramebuffer {
  frameBufferID_ : N;
  renderTarget_ : FramebufferDesc.t;
  initialized_ : bool;
  renderPass_ : RenderPassDesc.t;
  resolveFramebuffer : option CustomFramebuffer
}.

(** [CustomFramebuffer(context)]: a freshly constructed object. *)
Definition newCustomFramebuffer : CustomFramebuffer :=
  {| frameBufferID_ := 0;
     renderTarget_ := FramebufferDesc.default;
     initialized_ := false;
     renderPass_ := RenderPassDesc.default;
     resolveFramebuffer := None |}.

Definition setFrameBufferID (n : N) (fb : CustomFramebuffer) : CustomFramebuffer :=
  {| frameBufferID_ := n; renderTarget_ := renderTarget_ fb;
     initialized_ := initialized_ fb; renderPass_ := renderPass_ fb;
     resolveFramebuffer := resolveFramebuffer fb |}.

Definition setRenderTarget (d : FramebufferDesc.t) (fb : CustomFramebuffer) : CustomFramebuffer :=
  {| frameBufferID_ := frameBufferID_ fb; renderTarget_ := d;
     initialized_ := initialized_ fb; renderPass_ := renderPass_ fb;
     resolveFramebuffer := resolveFramebuffer fb |}.

Definition setInitialized (b : bool) (fb : CustomFramebuffer) : CustomFramebuffer :=
  {| frameBufferID_ := frameBufferID_ fb; renderTarget_ := renderTarget_ fb;
     initialized_ := b; renderPass_ := renderPass_ fb;
     resolveFramebuffer := resolveFramebuffer fb |}.

Definition setRenderPass (rp : RenderPassDesc.t) (fb : CustomFramebuffer) : CustomFramebuffer :=
  {| frameBufferID_ := frameBufferID_ fb; renderTarget_ := renderTarget_ fb;
     initialized_ := initialized_ fb; renderPass_ := rp;
     resolveFramebuffer := resolveFramebuffer fb |}.

Definition setResolveFramebuffer (child : option CustomFramebuffer)
    (fb : CustomFramebuffer) : CustomFramebuffer :=
  {| frameBufferID_ := frameBufferID_ fb; renderTarget_ := renderTarget_ fb;
     initialized_ := initialized_ fb; renderPass_ := renderPass_ fb;
     resolveFramebuffer := child |}.

Definition withColorAttachments (m : gmap N FramebufferDesc.AttachmentDesc)
    (d : FramebufferDesc.t) : FramebufferDesc.t :=
  {| FramebufferDesc.colorAttachments := m;
     FramebufferDesc.depthAttachment := FramebufferDesc.depthAttachment d;
     FramebufferDesc.stencilAttachment := FramebufferDesc.stencilAttachment d;
     FramebufferDesc.mode := FramebufferDesc.mode d;
     FramebufferDesc.debugName := FramebufferDesc.debugName d |}.

(** [desc.depthAttachment.texture = t] and [desc.stencilAttachment.texture = t]. *)
Definition withDepthTexture (t : option Texture.t) (d : FramebufferDesc.t) : FramebufferDesc.t :=
  {| FramebufferDesc.colorAttachments := FramebufferDesc.colorAttachments d;
     FramebufferDesc.depthAttachment :=
       {| FramebufferDesc.texture := t;
          FramebufferDesc.resolveTexture :=
            FramebufferDesc.resolveTexture (FramebufferDesc.depthAttachment d) |};
     FramebufferDesc.stencilAttachment := FramebufferDesc.stencilAttachment d;
     FramebufferDesc.mode := FramebufferDesc.mode d;
     FramebufferDesc.debugName := FramebufferDesc.debugName d |}.

Definition withStencilTexture (t : option Texture.t) (d : FramebufferDesc.t) : FramebufferDesc.t :=
  {| FramebufferDesc.colorAttachments := FramebufferDesc.colorAttachments d;
     FramebufferDesc.depthAttachment := FramebufferDesc.depthAttachment d;
     FramebufferDesc.stencilAttachment :=
       {| FramebufferDesc.texture := t;
          FramebufferDesc.resolveTexture :=
            FramebufferDesc.resolveTexture (FramebufferDesc.stencilAttachment d) |};
     FramebufferDesc.mode := FramebufferDesc.mode d;
     FramebufferDesc.debugName := FramebufferDesc.debugName d |}.

(** [m.emplace(k, v)]: no effect when the key is present. *)
Definition emplace {V} (k : N) (v : V) (m : gmap N V) : gmap N V :=
  match m !! k with
  | Some _ => m
  | None => <[k := v]> m
  end.

Definition isSome {A} (o : option A) : bool :=
  match o with Some _ => true | None => false end.

Definition getColorAttachment (fb : CustomFramebuffer) (index : N) : option Texture.t :=
  match FramebufferDesc.colorAttachments (renderTarget_ fb) !! index with
  | Some colorAttachment => FramebufferDesc.texture colorAttachment
  | None => None
  end.

Definition getResolveColorAttachment (fb : CustomFramebuffer) (index : N) : option Texture.t :=
  match FramebufferDesc.colorAttachments (renderTarget_ fb) !! index with
  | Some colorAttachment => FramebufferDesc.resolveTexture colorAttachment
  | None => None
  end.

Definition getDepthAttachment (fb : CustomFramebuffer) : option Texture.t :=
  FramebufferDesc.texture (FramebufferDesc.depthAttachment (renderTarget_ fb)).

Definition getResolveDepthAttachment (fb : CustomFramebuffer) : option Texture.t :=
  FramebufferDesc.resolveTexture (FramebufferDesc.depthAttachment (renderTarget_ fb)).

Definition getStencilAttachment (fb : CustomFramebuffer) : option Texture.t :=
  FramebufferDesc.texture (FramebufferDesc.stencilAttachment (renderTarget_ fb)).

Definition getResolveStencilAttachment (fb : CustomFramebuffer) : option Texture.t :=
  FramebufferDesc.resolveTexture (FramebufferDesc.stencilAttachment (renderTarget_ fb)).

Definition getMode (fb : CustomFramebuffer) : FramebufferMode :=
  FramebufferDesc.mode (renderTarget_ fb).

Definition isInitialized (fb : CustomFramebuffer) : bool := initialized_ fb.

Definition hasImplicitColorAttachment (fb : CustomFramebuffer) : bool :=
  if negb (frameBufferID_ fb =? 0) then false
  else match FramebufferDesc.colorAttachments (renderTarget_ fb) !! 0 with
       | Some colorAttachment0 =>
           match FramebufferDesc.texture colorAttachment0 with
           | Some texture => Texture.isImplicitStorage texture
           | None => false
           end
       | None => false
       end.

(** A loop that carries a local: [foldM l body s]. *)
Fixpoint foldM {A S} (l : list A) (body : S -> A -> M S) (s : S) : M S :=
  match l with
  | [] => mret s
  | x :: l' => s' ← body s x; foldM l' body s'
  end.

(** One iteration of the loop of [prepareResource] that looks for resolve
    textures: the locals are [createResolveFramebuffer] and
    [resolveDesc.colorAttachments]. *)
Definition collectResolveStep
    (acc : bool * gmap N FramebufferDesc.AttachmentDesc)
    (colorAttachment : N * FramebufferDesc.AttachmentDesc)
    : bool * gmap N FramebufferDesc.AttachmentDesc :=
  match FramebufferDesc.resolveTexture colorAttachment.2 with
  | Some resolveTexture =>
      (true,
       emplace colorAttachment.1
         {| FramebufferDesc.texture := Some resolveTexture;
            FramebufferDesc.resolveTexture := None |} acc.2)
  | None => acc
  end.

(** The loop, from [false] and an empty descriptor. *)
Definition collectResolve
    (atts : list (N * FramebufferDesc.AttachmentDesc))
    : bool * gmap N FramebufferDesc.AttachmentDesc :=
  foldl collectResolveStep (false, ∅) atts.

Section CustomFramebufferMethods.
Variable env : Env.

Definition bindBuffer (fb : CustomFramebuffer) : M unit :=
  bindFramebuffer GL.FRAMEBUFFER (frameBufferID_ fb).

Definition bindBufferForRead (fb : CustomFramebuffer) : M unit :=
  if ReadWriteFramebuffer env
  then bindFramebuffer GL.READ_FRAMEBUFFER (frameBufferID_ fb)
  else bindBuffer fb.

(** The body of [~CustomFramebuffer()].  The destruction of the members that
    follows it, and with them of an owned resolve framebuffer, is in
    [destroyCustomFramebuffer]. *)
Definition deleteCustomFramebuffer (fb : CustomFramebuffer) : M unit :=
  if negb (frameBufferID_ fb =? 0)
  then deleteFramebuffers (frameBufferID_ fb)
  else mret tt.

(** [prepareResource], with the [initialize] it calls on the child as a
    parameter. *)
Definition prepareResource
    (initializeChild : FramebufferDesc.t -> option Result.t -> CustomFramebuffer ->
                       M (option Result.t * CustomFramebuffer))
    (outResult : option Result.t) (fb : CustomFramebuffer)
    : M (option Result.t * CustomFramebuffer) :=
  id ← genFramebuffers;
  let fb := setFrameBufferID id fb in
  bindBuffer fb;;
  let attachmentParams :=
    defaultWriteAttachmentParams (FramebufferDesc.mode (renderTarget_ fb)) in
  let colorAttachments :=
    map_to_list (FramebufferDesc.colorAttachments (renderTarget_ fb)) in
  drawBuffers ←
    foldM colorAttachments
      (fun drawBuffers colorAttachment =>
         match FramebufferDesc.texture colorAttachment.2 with
         | Some colorAttachmentTexture =>
             let index := colorAttachment.1 in
             attachAsColor colorAttachmentTexture (to_uint32 index) attachmentParams;;
             mret (drawBuffers ++ [to_uint32 (GL.COLOR_ATTACHMENT0 + index)])
         | None => mret drawBuffers
         end) [];
  let drawBuffers := merge_sort N.le drawBuffers in
  (if (1 <? length drawBuffers)%nat then call (DrawBuffers drawBuffers) else mret tt);;
  match FramebufferDesc.texture (FramebufferDesc.depthAttachment (renderTarget_ fb)) with
  | Some texture => attachAsDepth texture attachmentParams
  | None => mret tt
  end;;
  match FramebufferDesc.texture (FramebufferDesc.stencilAttachment (renderTarget_ fb)) with
  | Some texture => attachAsStencil texture attachmentParams
  | None => mret tt
  end;;
  result ← checkFramebufferStatus env false;
  IGL_ASSERT_MSG env (Result.isOk result) (Result.message result);;
  let outResult := match outResult with Some _ => Some result | None => None end in
  if negb (Result.isOk result) then mret (outResult, fb)
  else
    let '(createResolveFramebuffer, resolveColorAttachments) :=
      collectResolve colorAttachments in
    let resolveDesc :=
      withColorAttachments resolveColorAttachments FramebufferDesc.default in
    if createResolveFramebuffer &&
       negb (size resolveColorAttachments
             =? size (FramebufferDesc.colorAttachments (renderTarget_ fb)))%nat
    then
      IGL_ASSERT_NOT_REACHED env;;
      mret (match outResult with
            | Some _ =>
                Some {| Result.code := Result.ArgumentInvalid;
                        Result.message :=
                          "If resolve texture is specified on a color attachment it must be specified on all of them" |}
            | None => None
            end, fb)
    else
      let depthResolve :=
        FramebufferDesc.resolveTexture (FramebufferDesc.depthAttachment (renderTarget_ fb)) in
      let stencilResolve :=
        FramebufferDesc.resolveTexture (FramebufferDesc.stencilAttachment (renderTarget_ fb)) in
      let createResolveFramebuffer :=
        if isSome depthResolve then true else createResolveFramebuffer in
      let resolveDesc :=
        if isSome depthResolve then withDepthTexture depthResolve resolveDesc
        else resolveDesc in
      let createResolveFramebuffer :=
        if isSome stencilResolve then true else createResolveFramebuffer in
      let resolveDesc :=
        if isSome stencilResolve then withStencilTexture stencilResolve resolveDesc
        else resolveDesc in
      if createResolveFramebuffer then
        '(childResult, cfb) ← initializeChild resolveDesc (Some result) newCustomFramebuffer;
        let result := default result childResult in
        mret (match outResult with Some _ => Some result | None => None end,
              setResolveFramebuffer (Some cfb) fb)
      else mret (outResult, fb).

(** [initialize]: the call on the child is one level of recursion; [fuel]
    bounds the depth ([initialize_fuel] shows that 2 is always enough). *)
Fixpoint initializeFuel (fuel : nat) (desc : FramebufferDesc.t)
    (outResult : option Result.t) (fb : CustomFramebuffer)
    : M (option Result.t * CustomFramebuffer) :=
  match fuel with
  | O => stop OutOfFuel
  | S fuel' =>
      if IGL_UNEXPECTED (isInitialized fb) then
        mret (Result.setResult outResult Result.RuntimeError
                "Framebuffer already initialized.", fb)
      else
        let fb := setInitialized true fb in
        let fb := setRenderTarget desc fb in
        withFramebufferBindingGuard env
          ((if negb (String.eqb (FramebufferDesc.debugName desc) EmptyString)
               && DebugLabel env
            then call (ObjectLabel GL.FRAMEBUFFER (frameBufferID_ fb)
                         (FramebufferDesc.debugName desc))
            else mret tt);;
           if hasImplicitColorAttachment fb
           then mret (Result.setOk outResult, fb)
           else prepareResource (initializeFuel fuel') outResult fb)
  end.

Definition initialize : FramebufferDesc.t -> option Result.t -> CustomFramebuffer ->
                        M (option Result.t * CustomFramebuffer) :=
  initializeFuel 2.

(** [needsToBeReattached], the same expression for colour and depth. *)
Definition needsToBeReattached (mode : FramebufferMode)
    (renderPassAttachment : RenderPassDesc.BaseAttachmentDesc) : bool :=
  isStereo mode
  || (0 <? RenderPassDesc.layer renderPassAttachment)
  || (0 <? RenderPassDesc.face renderPassAttachment)
  || (0 <? RenderPassDesc.mipLevel renderPassAttachment).

(** The body of the colour loop of [bind], for one entry of the map. *)
Definition bindColorAttachment (mode : FramebufferMode)
    (renderPass : RenderPassDesc.t)
    (colorAttachment : N * FramebufferDesc.AttachmentDesc) : M unit :=
  match FramebufferDesc.texture colorAttachment.2 with
  | None => mret tt
  | Some colorAttachmentTexture =>
      (if negb (IGL_OPENGL_ES env) && SRGB env then
         if TextureFormatProperties.isSRGB (Texture.properties colorAttachmentTexture)
         then call (Enable GL.FRAMEBUFFER_SRGB)
         else call (Disable GL.FRAMEBUFFER_SRGB)
       else mret tt);;
      let index := colorAttachment.1 in
      IGL_ASSERT env
        (N.to_nat index <? length (RenderPassDesc.colorAttachments renderPass))%nat;;
      renderPassAttachment ← vectorAt (RenderPassDesc.colorAttachments renderPass) index;
      if needsToBeReattached mode (RenderPassDesc.colorBase renderPassAttachment)
      then attachAsColor colorAttachmentTexture (to_uint32 index)
             (toAttachmentParams (RenderPassDesc.colorBase renderPassAttachment) mode)
      else mret tt
  end.

(** [bind]: a [const] method, which writes the [mutable] member
    [renderPass_]; the object after the call is returned. *)
Definition bind (renderPass : RenderPassDesc.t) (fb : CustomFramebuffer)
    : M CustomFramebuffer :=
  let fb := setRenderPass renderPass fb in
  let renderTarget := renderTarget_ fb in
  let mode := FramebufferDesc.mode renderTarget in
  IGL_ASSERT_MSG env (negb (isMultiview mode))
    "FramebufferMode::Multiview not supported";;
  bindBuffer fb;;
  forEach (map_to_list (FramebufferDesc.colorAttachments renderTarget))
    (bindColorAttachment mode renderPass);;
  match FramebufferDesc.texture (FramebufferDesc.depthAttachment renderTarget) with
  | Some depthTexture =>
      let renderPassAttachment :=
        RenderPassDesc.depthBase (RenderPassDesc.depthAttachment renderPass) in
      if needsToBeReattached mode renderPassAttachment
      then attachAsDepth depthTexture (toAttachmentParams renderPassAttachment mode)
      else mret tt
  | None => mret tt
  end;;
  let clearMask := 0 in
  clearMask ←
    match FramebufferDesc.colorAttachments renderTarget !! 0 with
    | Some colorAttachment0 =>
        if isSome (FramebufferDesc.texture colorAttachment0) then
          attachment0 ← vectorAt (RenderPassDesc.colorAttachments (renderPass_ fb)) 0;
          if isClear (RenderPassDesc.loadAction (RenderPassDesc.colorBase attachment0))
          then
            call (ColorMask true true true true);;
            call (ClearColor (RenderPassDesc.clearColor attachment0));;
            mret (N.lor clearMask GL.COLOR_BUFFER_BIT)
          else mret clearMask
        else mret clearMask
    | None => mret clearMask
    end;
  clearMask ←
    (if isSome (FramebufferDesc.texture (FramebufferDesc.depthAttachment renderTarget)) then
       let depth := RenderPassDesc.depthAttachment (renderPass_ fb) in
       if isClear (RenderPassDesc.loadAction (RenderPassDesc.depthBase depth))
       then
         call (DepthMask true);;
         call (ClearDepthf (RenderPassDesc.clearDepth depth));;
         mret (N.lor clearMask GL.DEPTH_BUFFER_BIT)
       else mret clearMask
     else mret clearMask);
  clearMask ←
    (if isSome (FramebufferDesc.texture (FramebufferDesc.stencilAttachment renderTarget)) then
       call (Enable GL.STENCIL_TEST);;
       let stencil := RenderPassDesc.stencilAttachment (renderPass_ fb) in
       if isClear (RenderPassDesc.loadAction (RenderPassDesc.stencilBase stencil))
       then
         call (StencilMask 0xFF);;
         call (ClearStencil (RenderPassDesc.clearStencil stencil));;
         mret (N.lor clearMask GL.STENCIL_BUFFER_BIT)
       else mret clearMask
     else mret clearMask);
  (if negb (clearMask =? 0) then call (Clear clearMask) else mret tt);;
  mret fb.

(** [unbind]: [attachments] and [numAttachments] are the list of the
    entries written so far. *)
Definition unbind (fb : CustomFramebuffer) : M unit :=
  let renderTarget := renderTarget_ fb in
  let attachments : list N := [] in
  attachments ←
    match FramebufferDesc.colorAttachments renderTarget !! 0 with
    | Some colorAttachment0 =>
        if isSome (FramebufferDesc.texture colorAttachment0) then
          attachment0 ← vectorAt (RenderPassDesc.colorAttachments (renderPass_ fb)) 0;
          if negb (isStore (RenderPassDesc.storeAction (RenderPassDesc.colorBase attachment0)))
          then mret (attachments ++ [GL.COLOR_ATTACHMENT0])
          else mret attachments
        else mret attachments
    | None => mret attachments
    end;
  let attachments :=
    if isSome (FramebufferDesc.texture (FramebufferDesc.depthAttachment renderTarget)) then
      if negb (isStore (RenderPassDesc.storeAction
                          (RenderPassDesc.depthBase
                             (RenderPassDesc.depthAttachment (renderPass_ fb)))))
      then attachments ++ [GL.DEPTH_ATTACHMENT]
      else attachments
    else attachments in
  attachments ←
    (if isSome (FramebufferDesc.texture (FramebufferDesc.stencilAttachment renderTarget)) then
       call (Disable GL.STENCIL_TEST);;
       if negb (isStore (RenderPassDesc.storeAction
                           (RenderPassDesc.stencilBase
                              (RenderPassDesc.stencilAttachment (renderPass_ fb)))))
       then mret (attachments ++ [GL.STENCIL_ATTACHMENT])
       else mret attachments
     else mret attachments);
  if (0 <? length attachments)%nat then
    if InvalidateFramebufferFeature env
    then call (InvalidateFramebuffer GL.FRAMEBUFFER attachments)
    else mret tt
  else mret tt.

(** [Framebuffer::copyBytesColorAttachment], on a [CustomFramebuffer].
    [pixelBytes] is the caller's buffer; its content after the call is
    returned. *)
Definition copyBytesColorAttachment (fb : CustomFramebuffer) (index : N)
    (pixelBytes : list N) (range : TextureRangeDesc.t) (bytesPerRow : N)
    : M (list N) :=
  if negb (index =? 0) then
    IGL_ASSERT_MSG env false "Invalid index: %d";;
    mret pixelBytes
  else
    IGL_ASSERT_MSG env (TextureRangeDesc.numFaces range =? 1) "range.numFaces MUST be 1";;
    IGL_ASSERT_MSG env (TextureRangeDesc.numLayers range =? 1) "range.numLayers MUST be 1";;
    IGL_ASSERT_MSG env (TextureRangeDesc.numMipLevels range =? 1) "range.numMipLevels MUST be 1";;
    match getColorAttachment fb index with
    | Some itexture =>
        guard ← newFramebufferBindingGuard env;
        let extraFramebuffer := newCustomFramebuffer in
        let desc :=
          withColorAttachments
            {[ 0 := {| FramebufferDesc.texture := Some itexture;
                       FramebufferDesc.resolveTexture := None |} ]}
            FramebufferDesc.default in
        '(ret, extraFramebuffer) ← initialize desc (Some Result.ok) extraFramebuffer;
        let ret := default Result.ok ret in
        IGL_ASSERT_MSG env (Result.isOk ret) (Result.message ret);;
        bindBufferForRead extraFramebuffer;;
        params ← toReadAttachmentParams env range Mono;
        attachAsColor itexture 0 params;;
        _ ← checkFramebufferStatus env true;
        let bytesPerRow :=
          if bytesPerRow =? 0
          then TextureFormatProperties.getBytesPerRowRange (Texture.properties itexture) range
          else bytesPerRow in
        call (PixelStorei GL.PACK_ALIGNMENT
                (getAlignment env itexture bytesPerRow (TextureRangeDesc.mipLevel range)));;
        call Flush;;
        pixelBytes ←
          (if Texture.getFormat itexture =? RGBA_UInt32 then
             if TextureInteger env then
               readPixels env (to_uint32 (TextureRangeDesc.x range))
                 (to_uint32 (TextureRangeDesc.y range))
                 (to_uint32 (TextureRangeDesc.width range))
                 (to_uint32 (TextureRangeDesc.height range))
                 GL.RGBA_INTEGER GL.UNSIGNED_INT
             else IGL_ASSERT_NOT_IMPLEMENTED env;; mret pixelBytes
           else
             readPixels env (to_uint32 (TextureRangeDesc.x range))
               (to_uint32 (TextureRangeDesc.y range))
               (to_uint32 (TextureRangeDesc.width range))
               (to_uint32 (TextureRangeDesc.height range))
               GL.RGBA GL.UNSIGNED_BYTE);
        call CheckForErrors;;
        error ← getLastError env;
        IGL_ASSERT_MSG env (Result.isOk error) (Result.message error);;
        deleteCustomFramebuffer extraFramebuffer;;
        deleteFramebufferBindingGuard env guard;;
        mret pixelBytes
    | None =>
        IGL_ASSERT_NOT_IMPLEMENTED env;;
        mret pixelBytes
    end.
End CustomFramebufferMethods.

(** ** Concrete devices, contexts and descriptors *)

(** A desktop release build whose driver reports every framebuffer
    complete. *)
Definition releaseEnv : Env :=
  {| ReadWriteFramebuffer := true; SRGB := true; DebugLabel := true;
     InvalidateFramebufferFeature := true; TextureInteger := true;
     IGL_OPENGL_ES := false; assertionsAbort := false;
     framebufferStatus := fun _ _ => GL.FRAMEBUFFER_COMPLETE;
     getAlignment := fun _ _ _ => 4;
     readPixelsData := fun _ => [];
     lastError := fun _ => Result.ok |}.

(** The same device in a debug build: a failed assertion stops the run. *)
Definition debugEnv : Env :=
  {| ReadWriteFramebuffer := true; SRGB := true; DebugLabel := true;
     InvalidateFramebufferFeature := true; TextureInteger := true;
     IGL_OPENGL_ES := false; assertionsAbort := true;
     framebufferStatus := fun _ _ => GL.FRAMEBUFFER_COMPLETE;
     getAlignment := fun _ _ _ => 4;
     readPixelsData := fun _ => [];
     lastError := fun _ => Result.ok |}.

(** An OpenGL ES 2 release build (one framebuffer binding, no invalidate)
    whose driver reports every framebuffer other than the default one as
    unsupported. *)
Definition es2IncompleteEnv : Env :=
  {| ReadWriteFramebuffer := false; SRGB := false; DebugLabel := false;
     InvalidateFramebufferFeature := false; TextureInteger := false;
     IGL_OPENGL_ES := true; assertionsAbort := false;
     framebufferStatus := fun _ name =>
       if name =? 0 then GL.FRAMEBUFFER_COMPLETE else GL.FRAMEBUFFER_UNSUPPORTED;
     getAlignment := fun _ _ _ => 4;
     readPixelsData := fun _ => [];
     lastError := fun _ => Result.ok |}.

(** A context in which framebuffer 5 and renderbuffer 7 are bound. *)
Definition someContext : Context :=
  {| renderbufferBinding := 7; readFramebufferBinding := 5;
     drawFramebufferBinding := 5; lastFramebufferName := 5;
     calls := []; assertionFailures := [] |}.

Definition rgbaTexture (name : N) : Texture.t :=
  {| Texture.name := name; Texture.isImplicitStorage := false;
     Texture.properties := TextureFormatProperties.rgba8 |}.

(** The colour texture of a view: its storage is the implicit one. *)
Definition viewTexture (name : N) : Texture.t :=
  {| Texture.name := name; Texture.isImplicitStorage := true;
     Texture.properties := TextureFormatProperties.rgba8 |}.

Definition attachment (texture resolveTexture : option Texture.t)
    : FramebufferDesc.AttachmentDesc :=
  {| FramebufferDesc.texture := texture;
     FramebufferDesc.resolveTexture := resolveTexture |}.

(** Two colour attachments, the first with a resolve texture, the second
    without. *)
Definition mismatchedDesc : FramebufferDesc.t :=
  withColorAttachments
    (<[1 := attachment (Some (rgbaTexture 12)) None]>
       {[ 0 := attachment (Some (rgbaTexture 10)) (Some (rgbaTexture 11)) ]})
    FramebufferDesc.default.

(** The same, with the view's texture at index 0. *)
Definition mismatchedViewDesc : FramebufferDesc.t :=
  withColorAttachments
    (<[1 := attachment (Some (rgbaTexture 12)) None]>
       {[ 0 := attachment (Some (viewTexture 10)) (Some (rgbaTexture 11)) ]})
    FramebufferDesc.default.

(** Colour 0 with a resolve texture, depth without. *)
Definition resolveDesc0 : FramebufferDesc.t :=
  withDepthTexture (Some (rgbaTexture 13))
    (withColorAttachments
       {[ 0 := attachment (Some (rgbaTexture 10)) (Some (rgbaTexture 11)) ]}
       FramebufferDesc.default).

(** The same, with the view's texture at index 0. *)
Definition resolveViewDesc0 : FramebufferDesc.t :=
  withDepthTexture (Some (rgbaTexture 13))
    (withColorAttachments
       {[ 0 := attachment (Some (viewTexture 10)) (Some (rgbaTexture 11)) ]}
       FramebufferDesc.default).

(** ** Predicates of the statements *)

(** A descriptor none of whose attachments has a resolve texture. *)
Definition noResolveTextures (d : FramebufferDesc.t) : Prop :=
  (forall k a, FramebufferDesc.colorAttachments d !! k = Some a ->
               FramebufferDesc.resolveTexture a = None) /\
  FramebufferDesc.resolveTexture (FramebufferDesc.depthAttachment d) = None /\
  FramebufferDesc.resolveTexture (FramebufferDesc.stencilAttachment d) = None.

(** [m] never stops for lack of fuel. *)
Definition fuelSafe {A} (m : M A) : Prop :=
  forall c c', m c <> Stopped OutOfFuel c'.

(** [m] returns from every context, with a value that satisfies [Q]. *)
Definition returns {A} (m : M A) (Q : A -> Prop) : Prop :=
  forall c, exists a c', m c = Done a c' /\ Q a.

(** The driver reports every framebuffer complete, whenever it is asked. *)
Definition backendComplete (env : Env) : Prop :=
  forall l name, framebufferStatus env l name = GL.FRAMEBUFFER_COMPLETE.

(** Some colour attachment has a resolve texture and some has none. *)
Definition mismatchedResolve (d : FramebufferDesc.t) : Prop :=
  (exists k a, FramebufferDesc.colorAttachments d !! k = Some a /\
               isSome (FramebufferDesc.resolveTexture a) = true) /\
  (exists k a, FramebufferDesc.colorAttachments d !! k = Some a /\
               FramebufferDesc.resolveTexture a = None).

Definition argumentInvalidResult : Result.t :=
  {| Result.code := Result.ArgumentInvalid;
     Result.message :=
       "If resolve texture is specified on a color attachment it must be specified on all of them" |}.

Definition alreadyInitializedResult : Result.t :=
  {| Result.code := Result.RuntimeError;
     Result.message := "Framebuffer already initialized." |}.

(** Whether the constructor of the guard finds the framebuffer bound for
    reading complete: the driver is asked after the renderbuffer query. *)
Definition guardReadComplete (env : Env) (c : Context) : bool :=
  framebufferStatus env (calls c ++ [GetIntegerv GL.RENDERBUFFER_BINDING])
    (readFramebufferBinding c)
  =? GL.FRAMEBUFFER_COMPLETE.

(** The same for the framebuffer bound for drawing (the only one, without
    separate read and draw targets), asked after the calls made for the read
    binding. *)
Definition guardDrawComplete (env : Env) (c : Context) : bool :=
  framebufferStatus env
    (calls c ++ [GetIntegerv GL.RENDERBUFFER_BINDING] ++
     (if ReadWriteFramebuffer env
      then [CheckFramebufferStatus GL.READ_FRAMEBUFFER] ++
           (if guardReadComplete env c
            then [GetIntegerv GL.READ_FRAMEBUFFER_BINDING] else [])
      else []))
    (drawFramebufferBinding c)
  =? GL.FRAMEBUFFER_COMPLETE.

(** What the block of C8's witness does inside the guard: it binds other
    objects and reports an error. *)
Definition rebindAndFail : M Result.t :=
  bindFramebuffer GL.FRAMEBUFFER 9;;
  bindRenderbuffer GL.RENDERBUFFER 3;;
  mret {| Result.code := Result.RuntimeError; Result.message := "failed" |}.

(** The ways a block is left: by running to its end or by a [return], with
    a value, or by an exception that propagates out of it. *)
Inductive Exit (A : Type) : Type :=
| Returns (a : A)
| Throws (what : string).
Arguments Returns {A} a.
Arguments Throws {A} what.

(** The outcome of a run that leaves by [x], in context [c]. *)
Definition exit {A} (x : Exit A) (c : Context) : Outcome A :=
  match x with
  | Returns a => Done a c
  | Throws what => Stopped (Exception what) c
  end.

(** The same block, left by an exception instead. *)
Definition rebindAndThrow : M Result.t :=
  bindFramebuffer GL.FRAMEBUFFER 9;;
  bindRenderbuffer GL.RENDERBUFFER 3;;
  stop (Exception "failed").

(** [m] returns [a] from every context, and the calls it records are [es]. *)
Definition issues {A} (m : M A) (a : A) (es : list GLCall) : Prop :=
  forall c, exists c', m c = Done a c' /\ calls c' = calls c ++ es.

(** Every colour attachment that has a texture has an entry in the render
    pass: what [bind] asserts in its loop before it indexes the vector. *)
Definition renderPassCovers (rp : RenderPassDesc.t) (rt : FramebufferDesc.t) : bool :=
  forallb
    (fun colorAttachment : N * FramebufferDesc.AttachmentDesc =>
       if isSome (FramebufferDesc.texture colorAttachment.2)
       then (N.to_nat colorAttachment.1
             <? length (RenderPassDesc.colorAttachments rp))%nat
       else true)
    (map_to_list (FramebufferDesc.colorAttachments rt)).

(** The render pass asks for something other than layer 0, face 0, mip
    level 0. *)
Definition requestsNonDefault (a : RenderPassDesc.BaseAttachmentDesc) : Prop :=
  RenderPassDesc.layer a <> 0 \/ RenderPassDesc.face a <> 0 \/
  RenderPassDesc.mipLevel a <> 0.

(** The calls of one iteration of the colour loop of [bind]. *)
Definition bindColorCalls (env : Env) (mode : FramebufferMode)
    (rp : RenderPassDesc.t) (colorAttachment : N * FramebufferDesc.AttachmentDesc)
    : list GLCall :=
  match FramebufferDesc.texture colorAttachment.2 with
  | None => []
  | Some tex =>
      (if negb (IGL_OPENGL_ES env) && SRGB env then
         [if TextureFormatProperties.isSRGB (Texture.properties tex)
          then Enable GL.FRAMEBUFFER_SRGB else Disable GL.FRAMEBUFFER_SRGB]
       else []) ++
      match RenderPassDesc.colorAttachments rp !! N.to_nat colorAttachment.1 with
      | Some a =>
          if needsToBeReattached mode (RenderPassDesc.colorBase a)
          then [AttachAsColor tex (to_uint32 colorAttachment.1)
                  (toAttachmentParams (RenderPassDesc.colorBase a) mode)]
          else []
      | None => []
      end
  end.

Definition bindDepthCalls (mode : FramebufferMode) (rp : RenderPassDesc.t)
    (rt : FramebufferDesc.t) : list GLCall :=
  match FramebufferDesc.texture (FramebufferDesc.depthAttachment rt) with
  | Some tex =>
      let a := RenderPassDesc.depthBase (RenderPassDesc.depthAttachment rp) in
      if needsToBeReattached mode a
      then [AttachAsDepth tex (toAttachmentParams a mode)] else []
  | None => []
  end.

(** The render-pass entry that [bind] and [unbind] look at for colour
    attachment 0: there is one when attachment 0 exists with a texture and the
    render pass has an entry 0. *)
Definition colorAttachment0Pass (rp : RenderPassDesc.t) (rt : FramebufferDesc.t)
    : option RenderPassDesc.ColorAttachmentDesc :=
  match FramebufferDesc.colorAttachments rt !! 0 with
  | Some att =>
      if isSome (FramebufferDesc.texture att)
      then RenderPassDesc.colorAttachments rp !! 0%nat
      else None
  | None => None
  end.

Definition colorCleared (rp : RenderPassDesc.t) (rt : FramebufferDesc.t) : bool :=
  match colorAttachment0Pass rp rt with
  | Some a0 => isClear (RenderPassDesc.loadAction (RenderPassDesc.colorBase a0))
  | None => false
  end.

Definition depthCleared (rp : RenderPassDesc.t) (rt : FramebufferDesc.t) : bool :=
  isSome (FramebufferDesc.texture (FramebufferDesc.depthAttachment rt))
  && isClear (RenderPassDesc.loadAction
                (RenderPassDesc.depthBase (RenderPassDesc.depthAttachment rp))).

Definition stencilCleared (rp : RenderPassDesc.t) (rt : FramebufferDesc.t) : bool :=
  isSome (FramebufferDesc.texture (FramebufferDesc.stencilAttachment rt))
  && isClear (RenderPassDesc.loadAction
                (RenderPassDesc.stencilBase (RenderPassDesc.stencilAttachment rp))).

(** The value of [clearMask] at the end of [bind]. *)
Definition bindClearMask (rp : RenderPassDesc.t) (rt : FramebufferDesc.t) : N :=
  let clearMask := 0 in
  let clearMask :=
    if colorCleared rp rt then N.lor clearMask GL.COLOR_BUFFER_BIT else clearMask in
  let clearMask :=
    if depthCleared rp rt then N.lor clearMask GL.DEPTH_BUFFER_BIT else clearMask in
  if stencilCleared rp rt then N.lor clearMask GL.STENCIL_BUFFER_BIT else clearMask.

(** The calls of [bind] that prepare the clear, before [clear] itself. *)
Definition bindClearSetupCalls (rp : RenderPassDesc.t) (rt : FramebufferDesc.t)
    : list GLCall :=
  match colorAttachment0Pass rp rt with
  | Some a0 =>
      if isClear (RenderPassDesc.loadAction (RenderPassDesc.colorBase a0))
      then [ColorMask true true true true; ClearColor (RenderPassDesc.clearColor a0)]
      else []
  | None => []
  end ++
  (if depthCleared rp rt
   then [DepthMask true;
         ClearDepthf (RenderPassDesc.clearDepth (RenderPassDesc.depthAttachment rp))]
   else []) ++
  (if isSome (FramebufferDesc.texture (FramebufferDesc.stencilAttachment rt))
   then Enable GL.STENCIL_TEST ::
        (if stencilCleared rp rt
         then [StencilMask 0xFF;
               ClearStencil
                 (RenderPassDesc.clearStencil (RenderPassDesc.stencilAttachment rp))]
         else [])
   else []).

(** All the calls of [bind] before [clear]. *)
Definition bindSetupCalls (env : Env) (rp : RenderPassDesc.t) (fb : CustomFramebuffer)
    : list GLCall :=
  let rt := renderTarget_ fb in
  [BindFramebuffer GL.FRAMEBUFFER (frameBufferID_ fb)] ++
  (map_to_list (FramebufferDesc.colorAttachments rt)
     ≫= bindColorCalls env (FramebufferDesc.mode rt) rp) ++
  bindDepthCalls (FramebufferDesc.mode rt) rp rt ++
  bindClearSetupCalls rp rt.

(** The [clear] call of [bind], if any. *)
Definition bindClearCall (rp : RenderPassDesc.t) (rt : FramebufferDesc.t)
    : list GLCall :=
  if negb (bindClearMask rp rt =? 0) then [Clear (bindClearMask rp rt)] else [].

(** The entries [unbind] writes to [attachments]. *)
Definition invalidateEntries (rp : RenderPassDesc.t) (rt : FramebufferDesc.t)
    : list N :=
  match colorAttachment0Pass rp rt with
  | Some a0 =>
      if negb (isStore (RenderPassDesc.storeAction (RenderPassDesc.colorBase a0)))
      then [GL.COLOR_ATTACHMENT0] else []
  | None => []
  end ++
  (if isSome (FramebufferDesc.texture (FramebufferDesc.depthAttachment rt))
      && negb (isStore (RenderPassDesc.storeAction
                          (RenderPassDesc.depthBase (RenderPassDesc.depthAttachment rp))))
   then [GL.DEPTH_ATTACHMENT] else []) ++
  (if isSome (FramebufferDesc.texture (FramebufferDesc.stencilAttachment rt))
      && negb (isStore (RenderPassDesc.storeAction
                          (RenderPassDesc.stencilBase (RenderPassDesc.stencilAttachment rp))))
   then [GL.STENCIL_ATTACHMENT] else []).

(** The calls of [unbind]. *)
Definition unbindCalls (env : Env) (rp : RenderPassDesc.t) (rt : FramebufferDesc.t)
    : list GLCall :=
  (if isSome (FramebufferDesc.texture (FramebufferDesc.stencilAttachment rt))
   then [Disable GL.STENCIL_TEST] else []) ++
  (if InvalidateFramebufferFeature env && (0 <? length (invalidateEntries rp rt))%nat
   then [InvalidateFramebuffer GL.FRAMEBUFFER (invalidateEntries rp rt)] else []).

Definition baseAttachment (load : LoadAction) (store : StoreAction)
    (layer face mipLevel : N) : RenderPassDesc.BaseAttachmentDesc :=
  {| RenderPassDesc.loadAction := load; RenderPassDesc.storeAction := store;
     RenderPassDesc.layer := layer; RenderPassDesc.face := face;
     RenderPassDesc.mipLevel := mipLevel |}.

Definition black : RenderPassDesc.Color :=
  {| RenderPassDesc.r := 0; RenderPassDesc.g := 0; RenderPassDesc.b := 0;
     RenderPassDesc.a := 0x3F800000 |}.

(** A render pass for two colour attachments: the first is cleared and
    stored, the second is loaded, discarded, and drawn into layer 2; depth is
    cleared and discarded at mip level 1; stencil is loaded and stored. *)
Definition someRenderPass : RenderPassDesc.t :=
  {| RenderPassDesc.colorAttachments :=
       [ {| RenderPassDesc.colorBase :=
              baseAttachment LoadAction_Clear StoreAction_Store 0 0 0;
            RenderPassDesc.clearColor := black |};
         {| RenderPassDesc.colorBase :=
              baseAttachment LoadAction_Load StoreAction_DontCare 2 0 0;
            RenderPassDesc.clearColor := black |} ];
     RenderPassDesc.depthAttachment :=
       {| RenderPassDesc.depthBase :=
            baseAttachment LoadAction_Clear StoreAction_DontCare 0 0 1;
          RenderPassDesc.clearDepth := 0x3F800000 |};
     RenderPassDesc.stencilAttachment :=
       {| RenderPassDesc.stencilBase :=
            baseAttachment LoadAction_Load StoreAction_Store 0 0 0;
          RenderPassDesc.clearStencil := 0 |} |}.

Definition withMode (m : FramebufferMode) (d : FramebufferDesc.t) : FramebufferDesc.t :=
  {| FramebufferDesc.colorAttachments := FramebufferDesc.colorAttachments d;
     FramebufferDesc.depthAttachment := FramebufferDesc.depthAttachment d;
     FramebufferDesc.stencilAttachment := FramebufferDesc.stencilAttachment d;
     FramebufferDesc.mode := m;
     FramebufferDesc.debugName := FramebufferDesc.debugName d |}.

(** Two colour attachments, depth and stencil, none with a resolve
    texture. *)
Definition fullDesc : FramebufferDesc.t :=
  withStencilTexture (Some (rgbaTexture 14))
    (withDepthTexture (Some (rgbaTexture 13))
       (withColorAttachments
          (<[1 := attachment (Some (rgbaTexture 12)) None]>
             {[ 0 := attachment (Some (rgbaTexture 10)) None ]})
          FramebufferDesc.default)).

(** An initialized framebuffer over [fullDesc], with native name 6. *)
Definition someFramebuffer : CustomFramebuffer :=
  {| frameBufferID_ := 6; renderTarget_ := fullDesc; initialized_ := true;
     renderPass_ := RenderPassDesc.default; resolveFramebuffer := None |}.

(** The same in Multiview mode. *)
Definition multiviewFramebuffer : CustomFramebuffer :=
  {| frameBufferID_ := 6; renderTarget_ := withMode Multiview fullDesc;
     initialized_ := true; renderPass_ := RenderPassDesc.default;
     resolveFramebuffer := None |}.

(** The context [bind] leaves on the ES 2 device, from [someContext]. *)
Definition es2ContextAfterBind : Context :=
  Eval vm_compute in
    finalContext (bind es2IncompleteEnv someRenderPass someFramebuffer someContext).

(** [m] only adds to the record of failed assertions. *)
Definition logGrows {A} (m : M A) : Prop :=
  forall c, exists rest,
    assertionFailures (finalContext (m c)) = assertionFailures c ++ rest.

(** ** More of igl/Texture.h *)

(** [TextureFormatProperties::isDepthOnly] and [isStencilOnly]. *)
Definition isDepthOnly (p : TextureFormatProperties.t) : bool :=
  negb (N.land (TextureFormatProperties.flags p) TextureFormatProperties.Depth =? 0)
  && (N.land (TextureFormatProperties.flags p) TextureFormatProperties.Stencil =? 0).

Definition isStencilOnly (p : TextureFormatProperties.t) : bool :=
  (N.land (TextureFormatProperties.flags p) TextureFormatProperties.Depth =? 0)
  && negb (N.land (TextureFormatProperties.flags p) TextureFormatProperties.Stencil =? 0).

(** [TextureDesc::TextureUsageBits]. *)
Module TextureUsageBits.
Definition Sampled : N := N.shiftl 1 0.
Definition Storage : N := N.shiftl 1 1.
Definition Attachment : N := N.shiftl 1 2.
End TextureUsageBits.

(** [ITexture::supportsUpload], on the value of [getUsage()] and the format
    properties of the texture. *)
Definition supportsUpload (usage : N) (p : TextureFormatProperties.t) : bool :=
  negb (N.land usage (N.lor TextureUsageBits.Sampled TextureUsageBits.Storage) =? 0)
  && negb (TextureFormatProperties.isDepthOrStencil p).

(** ** More of Framebuffer.cpp *)

(** [CustomFramebuffer::getColorAttachmentIndices]: the keys of the map, in
    the order of its iteration. *)
Definition getColorAttachmentIndices (fb : CustomFramebuffer) : list N :=
  (map_to_list (FramebufferDesc.colorAttachments (renderTarget_ fb))).*1.

(** [Framebuffer::copyBytesDepthAttachment] and
    [Framebuffer::copyBytesStencilAttachment]: the caller's buffer after the
    call is returned. *)
Definition copyBytesDepthAttachment (env : Env) (pixelBytes : list N)
    (range : TextureRangeDesc.t) (bytesPerRow : N) : M (list N) :=
  IGL_ASSERT_NOT_IMPLEMENTED env;;
  mret pixelBytes.

Definition copyBytesStencilAttachment (env : Env) (pixelBytes : list N)
    (range : TextureRangeDesc.t) (bytesPerRow : N) : M (list N) :=
  IGL_ASSERT_NOT_IMPLEMENTED env;;
  mret pixelBytes.

(** [igl::Viewport], as far as [getViewport] fills it: the four floats are
    carried as the values they are converted from. *)
Record Viewport : Type := mkViewport {
  viewportX : N; viewportY : N; viewportWidth : N; viewportHeight : N
}.

(** [CustomFramebuffer::getViewport].  [getSize] is [ITexture::getSize], the
    width and height of a texture. *)
Definition getViewport (env : Env) (getSize : Texture.t -> N * N)
    (fb : CustomFramebuffer) : M Viewport :=
  let texture := getColorAttachment fb 0 in
  let texture := if isSome texture then texture else getDepthAttachment fb in
  match texture with
  | None =>
      IGL_ASSERT_MSG env false "No color/depth attachments in CustomFrameBuffer at index 0";;
      mret {| viewportX := 0; viewportY := 0; viewportWidth := 0; viewportHeight := 0 |}
  | Some texture =>
      let size := getSize texture in
      mret {| viewportX := 0; viewportY := 0;
              viewportWidth := size.1; viewportHeight := size.2 |}
  end.

(** *** CurrentFramebuffer *)

(** The members of [CurrentFramebuffer]: the name of the framebuffer that was
    bound when it was constructed, the viewport of that time, and the dummy
    texture that stands for its colour attachment. *)
Record CurrentFramebuffer : Type := mkCurrentFramebuffer {
  currentFrameBufferID_ : N;
  viewport_ : Viewport;
  colorAttachment_ : Texture.t
}.

(** [CurrentFramebuffer::getColorAttachmentIndices]. *)
Definition currentGetColorAttachmentIndices (fb : CurrentFramebuffer) : list N := [0].

(** [CurrentFramebuffer::getColorAttachment] and
    [getResolveColorAttachment]: the same body. *)
Definition currentGetColorAttachment (env : Env) (fb : CurrentFramebuffer)
    (index : N) : M (option Texture.t) :=
  (if negb (index =? 0) then IGL_ASSERT_NOT_REACHED env else mret tt);;
  mret (Some (colorAttachment_ fb)).

Definition currentGetResolveColorAttachment (env : Env) (fb : CurrentFramebuffer)
    (index : N) : M (option Texture.t) :=
  (if negb (index =? 0) then IGL_ASSERT_NOT_REACHED env else mret tt);;
  mret (Some (colorAttachment_ fb)).

(** [CurrentFramebuffer::updateDrawable], both overloads: the object is not
    written. *)
Definition currentUpdateDrawable (env : Env) (fb : CurrentFramebuffer)
    : M CurrentFramebuffer :=
  IGL_ASSERT_NOT_REACHED env;;
  mret fb.

Definition currentGetViewport (fb : CurrentFramebuffer) : Viewport := viewport_ fb.

(** [CurrentFramebuffer::bind]. *)
Definition currentBind (env : Env) (renderPass : RenderPassDesc.t)
    (fb : CurrentFramebuffer) : M unit :=
  bindFramebuffer GL.FRAMEBUFFER (currentFrameBufferID_ fb);;
  (if negb (IGL_OPENGL_ES env) then
     colorAttach ← currentGetResolveColorAttachment env fb 0;
     if SRGB env then
       match colorAttach with
       | Some texture =>
           if TextureFormatProperties.isSRGB (Texture.properties texture)
           then call (Enable GL.FRAMEBUFFER_SRGB)
           else call (Disable GL.FRAMEBUFFER_SRGB)
       | None => call (Disable GL.FRAMEBUFFER_SRGB)
       end
     else mret tt
   else mret tt);;
  let clearMask := 0 in
  attachment0 ← vectorAt (RenderPassDesc.colorAttachments renderPass) 0;
  clearMask ←
    (if negb (match RenderPassDesc.loadAction (RenderPassDesc.colorBase attachment0) with
              | LoadAction_Load => true | _ => false end)
     then
       call (ColorMask true true true true);;
       call (ClearColor (RenderPassDesc.clearColor attachment0));;
       mret (N.lor clearMask GL.COLOR_BUFFER_BIT)
     else mret clearMask);
  clearMask ←
    (let depth := RenderPassDesc.depthAttachment renderPass in
     if negb (match RenderPassDesc.loadAction (RenderPassDesc.depthBase depth) with
              | LoadAction_Load => true | _ => false end)
     then
       call (DepthMask true);;
       call (ClearDepthf (RenderPassDesc.clearDepth depth));;
       mret (N.lor clearMask GL.DEPTH_BUFFER_BIT)
     else mret clearMask);
  clearMask ←
    (let stencil := RenderPassDesc.stencilAttachment renderPass in
     if negb (match RenderPassDesc.loadAction (RenderPassDesc.stencilBase stencil) with
              | LoadAction_Load => true | _ => false end)
     then
       call (StencilMask 0xFF);;
       call (ClearStencil (RenderPassDesc.clearStencil stencil));;
       mret (N.lor clearMask GL.STENCIL_BUFFER_BIT)
     else mret clearMask);
  if negb (clearMask =? 0) then call (Clear clearMask) else mret tt.

(** [CurrentFramebuffer::unbind]: no-op. *)
Definition currentUnbind (fb : CurrentFramebuffer) : M unit := mret tt.

Definition currentGetMode (fb : CurrentFramebuffer) : FramebufferMode := Mono.

(** *** Calls on textures

    [updateDrawable] and [copyTextureColorAttachment] also call the textures
    themselves ([detachAsColor], [detachAsDepth], [bind]) and
    [copyTexSubImage2D].  These calls are recorded in a second list, each
    with the number of context calls made before it. *)

Inductive TextureCall : Type :=
| DetachAsColor (tex : Texture.t) (index : N) (read : bool)
| DetachAsDepth (tex : Texture.t) (read : bool)
| BindTexture (tex : Texture.t)
| CopyTexSubImage2D (target level xoffset yoffset x y width height : N).

Definition MX (A : Type) : Type :=
  list (nat * TextureCall) -> M (A * list (nat * TextureCall)).

#[global] Instance MX_ret : MRet MX := fun A a log c => Done (a, log) c.
#[global] Instance MX_bind : MBind MX := fun A B f m log c =>
  match m log c with
  | Done (a, log') c' => f a log' c'
  | Stopped k c' => Stopped k c'
  end.

Definition liftM {A} (m : M A) : MX A := fun log c =>
  match m c with
  | Done a c' => Done (a, log) c'
  | Stopped k c' => Stopped k c'
  end.

Definition textureCall (e : TextureCall) : MX unit := fun log c =>
  Done (tt, log ++ [(length (calls c), e)]) c.

(** [*p] on a [shared_ptr]: undefined when it is null. *)
Definition deref {A} (p : option A) : MX A :=
  match p with
  | Some a => mret a
  | None => liftM (stop UndefinedBehaviour)
  end.

#[global] Instance TextureFormatProperties_eq_dec : EqDecision TextureFormatProperties.t.
Proof. solve_decision. Defined.

#[global] Instance Texture_eq_dec : EqDecision Texture.t.
Proof. solve_decision. Defined.

(** [struct SurfaceTextures]. *)
Record SurfaceTextures : Type := mkSurfaceTextures {
  color : option Texture.t;
  depth : option Texture.t
}.

(** [p != q] on two [shared_ptr<ITexture>]: they differ unless both are null
    or both point to the same texture. *)
Definition differ (p q : option Texture.t) : bool := negb (bool_decide (p = q)).

(** [renderTarget_.colorAttachments[0].texture = t]: [operator[]] inserts a
    default entry when there is none. *)
Definition setColorAttachment0Texture (t : option Texture.t)
    (fb : CustomFramebuffer) : CustomFramebuffer :=
  let colorAttachments := FramebufferDesc.colorAttachments (renderTarget_ fb) in
  let entry := default FramebufferDesc.noAttachment (colorAttachments !! 0) in
  setRenderTarget
    (withColorAttachments
       (<[0 := {| FramebufferDesc.texture := t;
                  FramebufferDesc.resolveTexture := FramebufferDesc.resolveTexture entry |}]>
          colorAttachments)
       (renderTarget_ fb)) fb.

(** [renderTarget_.colorAttachments.erase(0)]. *)
Definition eraseColorAttachment0 (fb : CustomFramebuffer) : CustomFramebuffer :=
  setRenderTarget
    (withColorAttachments
       (delete 0 (FramebufferDesc.colorAttachments (renderTarget_ fb)))
       (renderTarget_ fb)) fb.

(** [renderTarget_.depthAttachment.texture = t]. *)
Definition setDepthAttachmentTexture (t : option Texture.t)
    (fb : CustomFramebuffer) : CustomFramebuffer :=
  setRenderTarget (withDepthTexture t (renderTarget_ fb)) fb.

(** [CustomFramebuffer::updateDrawableInternal]. *)
Definition updateDrawableInternal (env : Env) (surfaceTextures : SurfaceTextures)
    (updateDepth : bool) (fb : CustomFramebuffer) : MX CustomFramebuffer :=
  let colorAttachment0 := getColorAttachment fb 0 in
  let depthAttachment := if updateDepth then getDepthAttachment fb else None in
  let updateColor := differ colorAttachment0 (color surfaceTextures) in
  let updateDepth := updateDepth && differ depthAttachment (depth surfaceTextures) in
  if updateColor || updateDepth then
    guard ← liftM (newFramebufferBindingGuard env);
    liftM (bindBuffer fb);;
    fb ←
      (if updateColor then
         match color surfaceTextures with
         | None =>
             old ← deref colorAttachment0;
             textureCall (DetachAsColor old 0 false);;
             mret (eraseColorAttachment0 fb)
         | Some newColor =>
             liftM (attachAsColor newColor 0
                      (defaultWriteAttachmentParams
                         (FramebufferDesc.mode (renderTarget_ fb))));;
             mret (setColorAttachment0Texture (Some newColor) fb)
         end
       else mret fb);
    fb ←
      (if updateDepth then
         match depth surfaceTextures with
         | None =>
             old ← deref colorAttachment0;
             textureCall (DetachAsDepth old false);;
             mret (setDepthAttachmentTexture None fb)
         | Some newDepth =>
             liftM (attachAsDepth newDepth
                      (defaultWriteAttachmentParams
                         (FramebufferDesc.mode (renderTarget_ fb))));;
             mret (setDepthAttachmentTexture (Some newDepth) fb)
         end
       else mret fb);
    liftM (deleteFramebufferBindingGuard env guard);;
    mret fb
  else mret fb.

(** [updateDrawable(std::shared_ptr<ITexture>)] and
    [updateDrawable(SurfaceTextures)]. *)
Definition updateDrawable (env : Env) (texture : option Texture.t)
    (fb : CustomFramebuffer) : MX CustomFramebuffer :=
  updateDrawableInternal env {| color := texture; depth := None |} false fb.

Definition updateDrawableSurface (env : Env) (surfaceTextures : SurfaceTextures)
    (fb : CustomFramebuffer) : MX CustomFramebuffer :=
  updateDrawableInternal env surfaceTextures true fb.

Definition GL_TEXTURE_2D : N := 0x0DE1.

(** [Framebuffer::copyTextureColorAttachment], on a [CustomFramebuffer]. *)
Definition copyTextureColorAttachment (env : Env) (fb : CustomFramebuffer)
    (index : N) (destTexture : option Texture.t) (range : TextureRangeDesc.t)
    : MX unit :=
  if negb (index =? 0) || negb (isSome (getColorAttachment fb index)) then
    liftM (IGL_ASSERT_MSG env false "Invalid index: %d");;
    mret tt
  else
    guard ← liftM (newFramebufferBindingGuard env);
    liftM (bindBufferForRead env fb);;
    dest ← deref destTexture;
    textureCall (BindTexture dest);;
    textureCall (CopyTexSubImage2D GL_TEXTURE_2D 0 0 0
                   (to_uint32 (TextureRangeDesc.x range))
                   (to_uint32 (TextureRangeDesc.y range))
                   (to_uint32 (TextureRangeDesc.width range))
                   (to_uint32 (TextureRangeDesc.height range)));;
    liftM (deleteFramebufferBindingGuard env guard);;
    mret tt.

(** A window's textures. *)
Definition someSurface : SurfaceTextures :=
  {| color := Some (rgbaTexture 20); depth := Some (rgbaTexture 21) |}.

(** Depth only: no colour attachment. *)
Definition depthOnlyFramebuffer : CustomFramebuffer :=
  {| frameBufferID_ := 6;
     renderTarget_ := withDepthTexture (Some (rgbaTexture 13)) FramebufferDesc.default;
     initialized_ := true; renderPass_ := RenderPassDesc.default;
     resolveFramebuffer := None |}.

(** ** Predicates of the further statements *)

(** Whatever [m] does, the context calls it records are added at the end of
    the record, and each of them satisfies [P]. *)
Definition emits {A} (P : GLCall -> Prop) (m : M A) : Prop :=
  forall c, exists new,
    calls (finalContext (m c)) = calls c ++ new /\ Forall P new.

(** The calls of a binding guard, and the label call. *)
Definition isBindingCall (e : GLCall) : Prop :=
  match e with
  | GetIntegerv _ | CheckFramebufferStatus _ | BindFramebuffer _ _
  | BindRenderbuffer _ _ | ObjectLabel _ _ _ => True
  | _ => False
  end.

(** The calls [initialize] can make: those of the guard and the label, the
    generation of a name, attach calls, and [drawBuffers] calls that pass at
    least two buffers, in ascending order. *)
Definition initializeCall (e : GLCall) : Prop :=
  match e with
  | GetIntegerv _ | CheckFramebufferStatus _ | BindFramebuffer _ _
  | BindRenderbuffer _ _ | ObjectLabel _ _ _ | GenFramebuffers _
  | AttachAsColor _ _ _ | AttachAsDepth _ _ | AttachAsStencil _ _ => True
  | DrawBuffers bufs => Sorted N.le bufs /\ (1 < length bufs)%nat
  | _ => False
  end.

(** The buffers [prepareResource] collects: one for each colour attachment
    that has a texture, in the order of the map's iteration. *)
Definition colorDrawBuffers (l : list (N * FramebufferDesc.AttachmentDesc)) : list N :=
  l ≫= (fun colorAttachment =>
          if isSome (FramebufferDesc.texture colorAttachment.2)
          then [to_uint32 (GL.COLOR_ATTACHMENT0 + colorAttachment.1)] else []).

(** Two runs of [initialize] that differ in the result pointer only. *)
Definition sameEffects
    (o1 o2 : Outcome (option Result.t * CustomFramebuffer)) : Prop :=
  match o1, o2 with
  | Done (_, fb1) c1, Done (_, fb2) c2 => fb1 = fb2 /\ c1 = c2
  | Stopped k1 c1, Stopped k2 c2 => k1 = k2 /\ c1 = c2
  | _, _ => False
  end.

(** The attach calls of the first loop of [prepareResource]. *)
Definition colorAttachCalls (params : Texture.AttachmentParams)
    (l : list (N * FramebufferDesc.AttachmentDesc)) : list GLCall :=
  l ≫= (fun colorAttachment =>
          match FramebufferDesc.texture colorAttachment.2 with
          | Some texture => [AttachAsColor texture (to_uint32 colorAttachment.1) params]
          | None => []
          end).

(** The record of a run starts with the calls made before, followed by
    [prefix]. *)
Definition startsWith {A} (m : M A) (c : Context) (prefix : list GLCall) : Prop :=
  exists rest, calls (finalContext (m c)) = calls c ++ prefix ++ rest.

Definition anyCall (e : GLCall) : Prop := True.

(** An [MX] run returns from every context and every record of texture
    calls; [Q] holds of the value and of the texture calls it adds. *)
Definition yieldsX {A} (m : MX A) (Q : A -> list TextureCall -> Prop) : Prop :=
  forall log c, exists a new c',
    m log c = Done (a, log ++ new) c' /\ Q a new.*2.

(** An [MX] run stops at fault [k], from every context. *)
Definition stopsX {A} (m : MX A) (k : Fault) : Prop :=
  forall log c, exists c', m log c = Stopped k c'.

(** The objects [updateDrawableInternal] leaves, and the texture calls it
    makes, when it returns. *)
Definition updatedColor (surfaceTextures : SurfaceTextures) (fb : CustomFramebuffer)
    : CustomFramebuffer :=
  if differ (getColorAttachment fb 0) (color surfaceTextures)
  then match color surfaceTextures with
       | None => eraseColorAttachment0 fb
       | Some newColor => setColorAttachment0Texture (Some newColor) fb
       end
  else fb.

Definition updatedDepth (surfaceTextures : SurfaceTextures) (updateDepth : bool)
    (fb : CustomFramebuffer) : CustomFramebuffer :=
  if updateDepth && differ (getDepthAttachment fb) (depth surfaceTextures)
  then setDepthAttachmentTexture (depth surfaceTextures) (updatedColor surfaceTextures fb)
  else updatedColor surfaceTextures fb.

Definition detachCalls (surfaceTextures : SurfaceTextures) (updateDepth : bool)
    (fb : CustomFramebuffer) : list TextureCall :=
  match getColorAttachment fb 0 with
  | Some old =>
      (if differ (getColorAttachment fb 0) (color surfaceTextures)
          && negb (isSome (color surfaceTextures))
       then [DetachAsColor old 0 false] else [])
      ++ (if updateDepth && differ (getDepthAttachment fb) (depth surfaceTextures)
             && negb (isSome (depth surfaceTextures))
          then [DetachAsDepth old false] else [])
  | None => []
  end.

(** The load action is not [Load]. *)
Definition notLoad (a : LoadAction) : bool :=
  match a with LoadAction_Load => false | _ => true end.

(** The mask [CurrentFramebuffer::bind] clears with, and the calls it makes
    between the binding and the [clear]. *)
Definition currentClearMask (rp : RenderPassDesc.t)
    (attachment0 : RenderPassDesc.ColorAttachmentDesc) : N :=
  N.lor
    (N.lor
       (if notLoad (RenderPassDesc.loadAction (RenderPassDesc.colorBase attachment0))
        then GL.COLOR_BUFFER_BIT else 0)
       (if notLoad (RenderPassDesc.loadAction
                      (RenderPassDesc.depthBase (RenderPassDesc.depthAttachment rp)))
        then GL.DEPTH_BUFFER_BIT else 0))
    (if notLoad (RenderPassDesc.loadAction
                   (RenderPassDesc.stencilBase (RenderPassDesc.stencilAttachment rp)))
     then GL.STENCIL_BUFFER_BIT else 0).

Definition currentBindSetupCalls (env : Env) (rp : RenderPassDesc.t)
    (fb : CurrentFramebuffer) (attachment0 : RenderPassDesc.ColorAttachmentDesc)
    : list GLCall :=
  (if negb (IGL_OPENGL_ES env) && SRGB env
   then [if TextureFormatProperties.isSRGB (Texture.properties (colorAttachment_ fb))
         then Enable GL.FRAMEBUFFER_SRGB else Disable GL.FRAMEBUFFER_SRGB]
   else [])
  ++ (if notLoad (RenderPassDesc.loadAction (RenderPassDesc.colorBase attachment0))
      then [ColorMask true true true true;
            ClearColor (RenderPassDesc.clearColor attachment0)]
      else [])
  ++ (if notLoad (RenderPassDesc.loadAction
                    (RenderPassDesc.depthBase (RenderPassDesc.depthAttachment rp)))
      then [DepthMask true;
            ClearDepthf (RenderPassDesc.clearDepth (RenderPassDesc.depthAttachment rp))]
      else [])
  ++ (if notLoad (RenderPassDesc.loadAction
                    (RenderPassDesc.stencilBase (RenderPassDesc.stencilAttachment rp)))
      then [StencilMask 0xFF;
            ClearStencil (RenderPassDesc.clearStencil (RenderPassDesc.stencilAttachment rp))]
      else []).

(** A run that stops stops at a failed assertion, in a build where failed
    assertions stop the program: it makes no access outside a vector or
    through a null pointer, and does not run out of fuel. *)
Definition assertsOnly {A} (env : Env) (m : M A) : Prop :=
  forall c k c', m c = Stopped k c' -> k = AssertionFailure /\ assertionsAbort env = true.

(** A failed assertion in a function that then returns [a]: the failure is
    recorded, and the run stops there in a build where failed assertions stop
    the program. *)
Definition asserted {A} (env : Env) (a : A) (msg : string) (c : Context) : Outcome A :=
  if assertionsAbort env then Stopped AssertionFailure (recordAssertion msg c)
  else Done a (recordAssertion msg c).

(** Four colour attachments, at indices 0 to 3. *)
Definition fourColorDesc : FramebufferDesc.t :=
  withColorAttachments
    (<[3 := attachment (Some (rgbaTexture 13)) None]>
       (<[2 := attachment (Some (rgbaTexture 12)) None]>
          (<[1 := attachment (Some (rgbaTexture 11)) None]>
             {[ 0 := attachment (Some (rgbaTexture 10)) None ]})))
    FramebufferDesc.default.

(** The destruction of a [CustomFramebuffer] that is the only owner of its
    resolve framebuffer: the body of the destructor runs, then the members
    are destroyed, and with [resolveFramebuffer] the child, in the same
    way. *)
Fixpoint destroyCustomFramebuffer (fb : CustomFramebuffer) : M unit :=
  match fb with
  | mkCustomFramebuffer _ _ _ _ child =>
      deleteCustomFramebuffer fb;;
      match child with
      | Some cfb => destroyCustomFramebuffer cfb
      | None => mret tt
      end
  end.

(** The framebuffer names an object and the resolve framebuffers below it
    hold, the object's first. *)
Fixpoint ownedNames (fb : CustomFramebuffer) : list N :=
  match fb with
  | mkCustomFramebuffer id _ _ _ child =>
      (if id =? 0 then [] else [id])
      ++ match child with
         | Some cfb => ownedNames cfb
         | None => []
         end
  end.

(** The framebuffer names generated by the calls of a record, in order. *)
Definition generatedNames (l : list GLCall) : list N :=
  l ≫= (fun e => match e with GenFramebuffers n => [n] | _ => [] end).

Definition notGenFramebuffers (e : GLCall) : Prop :=
  match e with GenFramebuffers _ => False | _ => True end.

(** * Properties *)

(** ** Row sizes *)

Section TextureLayout.
Implicit Types (p : TextureFormatProperties.t) (a b w : N).

(** Quotient and remainder, named: the arithmetic below is linear in them. *)
Lemma ceilDiv_unfold a b :
  1 <= b ->
  exists d r, a = d * b + r /\ r < b /\
              TextureFormatProperties.ceilDiv a b = if r =? 0 then d else d + 1.
Proof.
  intros Hb. exists (a / b), (a mod b). split; [|split].
  - rewrite (N.mul_comm (a / b) b). apply N.div_mod. lia.
  - apply N.mod_lt. lia.
  - reflexivity.
Qed.

Lemma ceilDiv_upper a b : 1 <= b -> a <= TextureFormatProperties.ceilDiv a b * b.
Proof.
  intros Hb. destruct (ceilDiv_unfold a b Hb) as (d & r & Ha & Hr & ->).
  destruct (N.eqb_spec r 0) as [E|E]; nia.
Qed.

Lemma ceilDiv_least a b q :
  1 <= b -> a <= q * b -> TextureFormatProperties.ceilDiv a b <= q.
Proof.
  intros Hb Hq. destruct (ceilDiv_unfold a b Hb) as (d & r & Ha & Hr & ->).
  destruct (N.eqb_spec r 0) as [E|E].
  - destruct (N.le_gt_cases d q) as [Hle|Hgt]; [done|].
    pose proof (N.mul_le_mono_r (q + 1) d b ltac:(lia)). lia.
  - destruct (N.le_gt_cases (d + 1) q) as [Hle|Hgt]; [done|].
    pose proof (N.mul_le_mono_r q d b ltac:(lia)). lia.
Qed.

Lemma ceilDiv_mono a1 a2 b :
  1 <= b -> a1 <= a2 ->
  TextureFormatProperties.ceilDiv a1 b <= TextureFormatProperties.ceilDiv a2 b.
Proof.
  intros Hb Hle. apply ceilDiv_least; [done|].
  pose proof (ceilDiv_upper a2 b Hb). lia.
Qed.

Lemma ceilDiv_1 a : TextureFormatProperties.ceilDiv a 1 = a.
Proof.
  unfold TextureFormatProperties.ceilDiv. rewrite N.mod_1_r, N.div_1_r. reflexivity.
Qed.

Lemma ceilDiv_le a b : 1 <= b -> TextureFormatProperties.ceilDiv a b <= a.
Proof. intros Hb. apply ceilDiv_least; [done|]. nia. Qed.

Lemma getBytesPerRow_mono p w1 w2 :
  1 <= TextureFormatProperties.blockWidth p -> w1 <= w2 ->
  TextureFormatProperties.getBytesPerRow p w1 <= TextureFormatProperties.getBytesPerRow p w2.
Proof.
  intros Hb Hle. unfold TextureFormatProperties.getBytesPerRow.
  pose proof (ceilDiv_mono w1 w2 _ Hb Hle) as Hc.
  apply N.max_le_compat_r. apply N.mul_le_mono_r. exact Hc.
Qed.

Lemma getBytesPerRow_pixel4 p w :
  TextureFormatProperties.bytesPerBlock p = 4 ->
  TextureFormatProperties.blockWidth p = 1 ->
  TextureFormatProperties.getBytesPerRow p w
  = 4 * N.max w (TextureFormatProperties.minBlocksX p).
Proof.
  intros Hbpb Hbw. unfold TextureFormatProperties.getBytesPerRow.
  rewrite Hbpb, Hbw, ceilDiv_1. lia.
Qed.

(** For a width that passes [TextureRangeDesc::validate] (at most
    [UINT32_MAX]) the row size is below [2^40]: no [size_t] of 64 bits
    wraps. *)
Lemma getBytesPerRow_fits p w :
  TextureFormatProperties.wellFormed p -> w <= 4294967295 ->
  TextureFormatProperties.getBytesPerRow p w < 2 ^ 40.
Proof.
  intros (Hb1 & Hb2 & Hbpb & Hmin) Hw. unfold TextureFormatProperties.getBytesPerRow.
  pose proof (ceilDiv_le w _ Hb1) as Hc.
  change (2 ^ 40) with 1099511627776.
  apply N.max_lub_lt; nia.
Qed.

(** The scenario of the specification: a row of 256 RGBA8 pixels. *)
Example getBytesPerRow_rgba8_256 :
  TextureFormatProperties.getBytesPerRow TextureFormatProperties.rgba8 256 = 1024.
Proof. reflexivity. Qed.

Example getBytesPerRow_bc4x4_9 :
  TextureFormatProperties.getBytesPerRow TextureFormatProperties.bc4x4 9 = 24.
Proof. reflexivity. Qed.

(** C9, as stated, fails: a row of width 0 in a four-byte-per-pixel format
    whose minimum block count is 1 is clamped to one block, 4 bytes, and not
    [4 * 0]. *)
Lemma C9_width_zero_is_clamped :
  TextureFormatProperties.bytesPerBlock TextureFormatProperties.rgba8 = 4 /\
  TextureFormatProperties.blockWidth TextureFormatProperties.rgba8 = 1 /\
  TextureFormatProperties.getBytesPerRow TextureFormatProperties.rgba8 0 = 4 /\
  TextureFormatProperties.getBytesPerRow TextureFormatProperties.rgba8 0 <> 4 * 0.
Proof. repeat split; done. Qed.

(** C9, amended: for a fixed format (blocks at least one pixel wide)
    [getBytesPerRow] is monotonically non-decreasing in the width; and for a
    format with [bytesPerBlock = 4] and [blockWidth = 1] it equals
    [4 * max(width, minBlocksX)], hence [4 * width] for every width that is
    at least [minBlocksX]. *)
Theorem C9_getBytesPerRow_monotone_and_pixel4 p :
  1 <= TextureFormatProperties.blockWidth p ->
  (forall w1 w2, w1 <= w2 ->
     TextureFormatProperties.getBytesPerRow p w1
     <= TextureFormatProperties.getBytesPerRow p w2) /\
  (TextureFormatProperties.bytesPerBlock p = 4 ->
   TextureFormatProperties.blockWidth p = 1 ->
   forall w,
     TextureFormatProperties.getBytesPerRow p w
     = 4 * N.max w (TextureFormatProperties.minBlocksX p) /\
     (TextureFormatProperties.minBlocksX p <= w ->
      TextureFormatProperties.getBytesPerRow p w = 4 * w)).
Proof.
  intros Hb. split.
  - intros w1 w2 Hle. by apply getBytesPerRow_mono.
  - intros Hbpb Hbw w. rewrite (getBytesPerRow_pixel4 p w Hbpb Hbw).
    split; [done|]. intros Hw. f_equal. lia.
Qed.

Lemma C9_witness :
  (forall w1 w2, w1 <= w2 ->
     TextureFormatProperties.getBytesPerRow TextureFormatProperties.rgba8 w1
     <= TextureFormatProperties.getBytesPerRow TextureFormatProperties.rgba8 w2) /\
  TextureFormatProperties.getBytesPerRow TextureFormatProperties.rgba8 256 = 4 * 256.
Proof.
  destruct (C9_getBytesPerRow_monotone_and_pixel4 TextureFormatProperties.rgba8)
    as [Hmono Hpix]; [simpl; lia|].
  split; [exact Hmono|].
  apply (Hpix eq_refl eq_refl 256). simpl. lia.
Defined.
End TextureLayout.

(** ** Runs *)

Section Runs.
Context {A B : Type}.

Lemma run_bind (m : M A) (f : A -> M B) c :
  (m ≫= f) c = match m c with
               | Done a c' => f a c'
               | Stopped k c' => Stopped k c'
               end.
Proof. reflexivity. Qed.

Lemma bind_Done_inv (m : M A) (f : A -> M B) c b c' :
  (m ≫= f) c = Done b c' ->
  exists a c1, m c = Done a c1 /\ f a c1 = Done b c'.
Proof.
  rewrite run_bind. destruct (m c) as [a c1|k c1]; [eauto|discriminate].
Qed.

Lemma bind_Done (m : M A) (f : A -> M B) c a c1 :
  m c = Done a c1 -> (m ≫= f) c = f a c1.
Proof. intros H. rewrite run_bind, H. reflexivity. Qed.

Lemma bind_ext (m : M A) (f g : A -> M B) c :
  (forall a c1, m c = Done a c1 -> f a c1 = g a c1) ->
  (m ≫= f) c = (m ≫= g) c.
Proof.
  intros H. rewrite !run_bind. destruct (m c) as [a c1|k c1]; [auto|reflexivity].
Qed.
Lemma bind_ext_l (m m' : M A) (f : A -> M B) c :
  m c = m' c -> (m ≫= f) c = (m' ≫= f) c.
Proof. intros H. by rewrite !run_bind, H. Qed.
End Runs.

(** [m] returns from every context. *)
Definition total {A} (m : M A) : Prop :=
  forall c, exists a c', m c = Done a c'.

Lemma total_ret {A} (a : A) : total (mret a).
Proof. intros c. by exists a, c. Qed.

Lemma total_bind {A B} (m : M A) (f : A -> M B) :
  total m -> (forall a, total (f a)) -> total (m ≫= f).
Proof.
  intros Hm Hf c. destruct (Hm c) as (a & c1 & E).
  rewrite (bind_Done _ _ _ _ _ E). apply Hf.
Qed.

Lemma total_call e : total (call e).
Proof. intros c. by eexists _, _. Qed.

Lemma total_getIntegerv pname : total (getIntegerv pname).
Proof. intros c. by eexists _, _. Qed.

Lemma total_bindFramebuffer target fb : total (bindFramebuffer target fb).
Proof. intros c. by eexists _, _. Qed.

Lemma total_bindRenderbuffer target rb : total (bindRenderbuffer target rb).
Proof. intros c. by eexists _, _. Qed.

Lemma total_checkFramebufferStatus env read : total (checkFramebufferStatus env read).
Proof. intros c. by eexists _, _. Qed.

Lemma total_if {A} (b : bool) (m1 m2 : M A) :
  total m1 -> total m2 -> total (if b then m1 else m2).
Proof. by destruct b. Qed.

(** Unfolds the sequencing of a run of context calls. *)
Ltac run_calls :=
  cbv [mbind M_bind mret M_ret call getIntegerv bindFramebuffer bindRenderbuffer
       contextCheckFramebufferStatus checkFramebufferStatus genFramebuffers
       deleteFramebuffers readPixels getLastError stop
       attachAsColor attachAsDepth attachAsStencil].

Lemma total_newFramebufferBindingGuard env : total (newFramebufferBindingGuard env).
Proof.
  intros c. unfold newFramebufferBindingGuard. run_calls.
  destruct (ReadWriteFramebuffer env);
    repeat (match goal with
            | |- context [if Result.isOk ?b then _ else _] => destruct (Result.isOk b)
            end); eauto.
Qed.

Lemma total_deleteFramebufferBindingGuard env g :
  total (deleteFramebufferBindingGuard env g).
Proof.
  intros c. unfold deleteFramebufferBindingGuard. run_calls.
  destruct (ReadWriteFramebuffer env); eauto.
Qed.

(** *** Leaving a block *)

Lemma leaving_Done {A} (body : M A) d c a c1 :
  body c = Done a c1 -> leaving body d c = (d;; mret a) c1.
Proof. unfold leaving. by intros ->. Qed.

Lemma leaving_Exception {A} (body : M A) d c what c1 :
  body c = Stopped (Exception what) c1 ->
  leaving body d c = (d;; stop (Exception what)) c1.
Proof. unfold leaving. by intros ->. Qed.

Lemma leaving_ext {A} (body1 body2 : M A) d c :
  body1 c = body2 c -> leaving body1 d c = leaving body2 d c.
Proof. unfold leaving. by intros ->. Qed.

Lemma leaving_Done_inv {A} (body : M A) d c a c' :
  leaving body d c = Done a c' ->
  exists c2, body c = Done a c2 /\ d c2 = Done tt c'.
Proof.
  unfold leaving. destruct (body c) as [a' c2|k c2].
  - rewrite run_bind. destruct (d c2) as [[] c3|k c3] eqn:Hd; [|discriminate].
    intros [= -> ->]. eauto.
  - destruct k; try discriminate. rewrite run_bind. by destruct (d c2).
Qed.

Lemma total_leaving {A} (body : M A) d : total body -> total d -> total (leaving body d).
Proof.
  intros Hb Hd c. destruct (Hb c) as (a & c1 & Hrun). rewrite (leaving_Done _ _ _ _ _ Hrun).
  destruct (Hd c1) as ([] & c2 & Hrun2). rewrite (bind_Done _ _ _ _ _ Hrun2). by eexists _, _.
Qed.

(** A guarded block returns whenever its body does. *)
Lemma total_withFramebufferBindingGuard {A} env (body : M A) :
  total body -> total (withFramebufferBindingGuard env body).
Proof.
  intros Hb. unfold withFramebufferBindingGuard.
  apply total_bind; [apply total_newFramebufferBindingGuard|intros g].
  apply total_leaving; [exact Hb|apply total_deleteFramebufferBindingGuard].
Qed.

Lemma withFramebufferBindingGuard_Done_inv {A} env (body : M A) c a c' :
  withFramebufferBindingGuard env body c = Done a c' ->
  exists g c1 c2, newFramebufferBindingGuard env c = Done g c1 /\
                  body c1 = Done a c2 /\
                  deleteFramebufferBindingGuard env g c2 = Done tt c'.
Proof.
  unfold withFramebufferBindingGuard. intros H.
  apply bind_Done_inv in H as (g & c1 & Hg & H).
  apply leaving_Done_inv in H as (c2 & Hb & Hd). eauto 10.
Qed.

(** ** initialize *)

Ltac inv_bind H :=
  let a := fresh "a" in
  let c := fresh "c" in
  let Hm := fresh "Hm" in
  apply bind_Done_inv in H as (a & c & Hm & H).

Lemma initializeFuel_again env fuel desc outResult fb c :
  isInitialized fb = true ->
  initializeFuel env (S fuel) desc outResult fb c
  = Done (Result.setResult outResult Result.RuntimeError
            "Framebuffer already initialized.", fb) c.
Proof.
  intros H. cbn. unfold IGL_UNEXPECTED. rewrite H. reflexivity.
Qed.

(** [prepareResource] writes [frameBufferID_] and [resolveFramebuffer] only. *)
Lemma prepareResource_members env f outResult fb c r fb' c' :
  prepareResource env f outResult fb c = Done (r, fb') c' ->
  initialized_ fb' = initialized_ fb /\ renderTarget_ fb' = renderTarget_ fb /\
  renderPass_ fb' = renderPass_ fb.
Proof.
  unfold prepareResource. intros H.
  do 8 inv_bind H.
  destruct (negb (Result.isOk a5)).
  { cbv [mret M_ret] in H. by simplify_eq. }
  destruct (collectResolve _) as [createResolveFramebuffer resolveColorAttachments].
  destruct (createResolveFramebuffer && _).
  { inv_bind H. cbv [mret M_ret] in H. by simplify_eq. }
  match type of H with (if ?b then _ else _) _ = _ => destruct b end.
  - inv_bind H. destruct a7 as [childResult cfb].
    cbv [mret M_ret] in H. by simplify_eq.
  - cbv [mret M_ret] in H. by simplify_eq.
Qed.

(** Whatever [initialize] returns, the object it returns is initialized. *)
Lemma initializeFuel_initialized env fuel desc outResult fb c r fb' c' :
  initializeFuel env fuel desc outResult fb c = Done (r, fb') c' ->
  isInitialized fb' = true.
Proof.
  destruct fuel as [|fuel]; [discriminate|]. cbn. unfold IGL_UNEXPECTED, isInitialized.
  destruct (initialized_ fb) eqn:E.
  { cbv [mret M_ret]. intros H. by simplify_eq. }
  intros H. apply withFramebufferBindingGuard_Done_inv in H
    as (g & c1 & c2 & _ & H & _).
  inv_bind H.
  destruct (hasImplicitColorAttachment _).
  { cbv [mret M_ret] in H. by simplify_eq. }
  apply prepareResource_members in H as (-> & _). reflexivity.
Qed.

(** *** The resolve descriptor *)

Lemma lookup_emplace {V} (k k' : N) (v : V) (m : gmap N V) x :
  emplace k v m !! k' = Some x -> m !! k' = Some x \/ (k' = k /\ x = v).
Proof.
  unfold emplace. destruct (m !! k) eqn:E; [by left|].
  destruct (decide (k = k')) as [->|Hne].
  - rewrite lookup_insert_eq. intros [= <-]. by right.
  - rewrite lookup_insert_ne by done. by left.
Qed.

Lemma size_emplace {V} (k : N) (v : V) (m : gmap N V) :
  (size (emplace k v m) <= S (size m))%nat.
Proof.
  unfold emplace. destruct (m !! k) eqn:E; [lia|].
  rewrite map_size_insert_None by done. lia.
Qed.

Section CollectResolve.
Implicit Types (l : list (N * FramebufferDesc.AttachmentDesc))
               (acc : bool * gmap N FramebufferDesc.AttachmentDesc).

Lemma collectResolve_foldl l :
  collectResolve l = foldl collectResolveStep (false, ∅) l.
Proof. reflexivity. Qed.

Lemma foldl_step_values l acc :
  (forall k a, acc.2 !! k = Some a -> FramebufferDesc.resolveTexture a = None) ->
  forall k a, (foldl collectResolveStep acc l).2 !! k = Some a ->
              FramebufferDesc.resolveTexture a = None.
Proof.
  revert acc. induction l as [|x l IH]; intros acc Hacc; [exact Hacc|].
  cbn [foldl]. apply IH. unfold collectResolveStep.
  destruct (FramebufferDesc.resolveTexture x.2) as [t|]; [|exact Hacc].
  intros k a Hk. apply lookup_emplace in Hk as [Hk|[_ ->]]; [eauto|reflexivity].
Qed.

Lemma foldl_step_none l acc :
  (forall x, x ∈ l -> FramebufferDesc.resolveTexture x.2 = None) ->
  foldl collectResolveStep acc l = acc.
Proof.
  revert acc. induction l as [|x l IH]; intros acc Hl; [reflexivity|].
  cbn [foldl]. unfold collectResolveStep at 2. rewrite (Hl x) by left.
  apply IH. intros y Hy. apply Hl. by right.
Qed.

Lemma foldl_step_flag l acc :
  (foldl collectResolveStep acc l).1 = true <->
  acc.1 = true \/ exists x, x ∈ l /\ isSome (FramebufferDesc.resolveTexture x.2) = true.
Proof.
  revert acc. induction l as [|x l IH]; intros acc; cbn [foldl].
  - split; [by left|]. intros [H|(x & Hx & _)]; [done|]. by apply elem_of_nil in Hx.
  - rewrite IH. unfold collectResolveStep.
    destruct (FramebufferDesc.resolveTexture x.2) as [t|] eqn:E; cbn.
    + split; [|by left]. intros _. right. exists x. rewrite E. split; [left|done].
    + split.
      * intros [H|(y & Hy & H)]; [by left|]. right. exists y. split; [by right|done].
      * intros [H|(y & Hy & H)]; [by left|].
        apply elem_of_cons in Hy as [->|Hy]; [by rewrite E in H|].
        right. by exists y.
Qed.

Lemma foldl_step_size_le l acc :
  (size (foldl collectResolveStep acc l).2 <= size acc.2 + length l)%nat.
Proof.
  revert acc. induction l as [|x l IH]; intros acc; cbn [foldl length]; [lia|].
  etrans; [apply IH|]. unfold collectResolveStep.
  destruct (FramebufferDesc.resolveTexture x.2) as [t|]; cbn; [|lia].
  pose proof (size_emplace x.1
    {| FramebufferDesc.texture := Some t; FramebufferDesc.resolveTexture := None |}
    acc.2). lia.
Qed.

Lemma foldl_step_size_lt l acc :
  (exists x, x ∈ l /\ FramebufferDesc.resolveTexture x.2 = None) ->
  (size (foldl collectResolveStep acc l).2 < size acc.2 + length l)%nat.
Proof.
  revert acc. induction l as [|x l IH]; intros acc (y & Hy & Hnone).
  { by apply elem_of_nil in Hy. }
  cbn [foldl length]. apply elem_of_cons in Hy as [->|Hy].
  - unfold collectResolveStep at 2. rewrite Hnone.
    pose proof (foldl_step_size_le l acc). lia.
  - assert (size (collectResolveStep acc x).2 <= S (size acc.2))%nat as Hs.
    { unfold collectResolveStep. destruct (FramebufferDesc.resolveTexture x.2) as [t|]; cbn; [|lia].
      apply size_emplace. }
    pose proof (IH (collectResolveStep acc x) (ex_intro _ y (conj Hy Hnone))). lia.
Qed.

(** Without resolve textures the loop leaves both locals as they were. *)
Lemma collectResolve_none l :
  (forall x, x ∈ l -> FramebufferDesc.resolveTexture x.2 = None) ->
  collectResolve l = (false, ∅).
Proof. intros H. rewrite collectResolve_foldl. by apply foldl_step_none. Qed.

(** The attachments of the resolve descriptor have no resolve texture of
    their own. *)
Lemma collectResolve_values l k a :
  (collectResolve l).2 !! k = Some a -> FramebufferDesc.resolveTexture a = None.
Proof.
  rewrite collectResolve_foldl. apply foldl_step_values.
  intros k' a' H. cbn in H. by rewrite lookup_empty in H.
Qed.

Lemma collectResolve_flag l :
  (collectResolve l).1 = true <->
  exists x, x ∈ l /\ isSome (FramebufferDesc.resolveTexture x.2) = true.
Proof.
  rewrite collectResolve_foldl, foldl_step_flag. cbn.
  split; [intros [H|H]; done|intros H; by right].
Qed.

(** One attachment without a resolve texture makes the resolve descriptor
    smaller than the map it was collected from. *)
Lemma collectResolve_size_lt (m : gmap N FramebufferDesc.AttachmentDesc) k a :
  m !! k = Some a -> FramebufferDesc.resolveTexture a = None ->
  (size (collectResolve (map_to_list m)).2 < size m)%nat.
Proof.
  intros Hk Hnone. rewrite collectResolve_foldl.
  pose proof (foldl_step_size_lt (map_to_list m) (false, ∅)) as H.
  rewrite length_map_to_list in H. cbn in H. rewrite map_size_empty in H.
  apply H. exists (k, a). split; [by apply elem_of_map_to_list|done].
Qed.
End CollectResolve.

(** *** The depth of the recursion *)

Lemma noResolveTextures_resolveDesc l depthResolve stencilResolve :
  noResolveTextures
    (if isSome stencilResolve
     then withStencilTexture stencilResolve
            (if isSome depthResolve
             then withDepthTexture depthResolve
                    (withColorAttachments (collectResolve l).2 FramebufferDesc.default)
             else withColorAttachments (collectResolve l).2 FramebufferDesc.default)
     else if isSome depthResolve
          then withDepthTexture depthResolve
                 (withColorAttachments (collectResolve l).2 FramebufferDesc.default)
          else withColorAttachments (collectResolve l).2 FramebufferDesc.default).
Proof.
  destruct (isSome stencilResolve), (isSome depthResolve);
    (split; [|split; reflexivity]); cbn; apply collectResolve_values.
Qed.

(** [prepareResource] calls the child's [initialize] on a fresh object and a
    descriptor without resolve textures, if at all. *)
Lemma prepareResource_ext env f g outResult fb c :
  (forall d r c1, noResolveTextures d ->
     f d r newCustomFramebuffer c1 = g d r newCustomFramebuffer c1) ->
  prepareResource env f outResult fb c = prepareResource env g outResult fb c.
Proof.
  intros Hfg. unfold prepareResource.
  do 8 (cbv zeta; apply bind_ext; intros ? ? _).
  cbv zeta. destruct (negb (Result.isOk a5)); [reflexivity|].
  pose proof (noResolveTextures_resolveDesc
    (map_to_list (FramebufferDesc.colorAttachments (renderTarget_ (setFrameBufferID a fb))))
    (FramebufferDesc.resolveTexture
       (FramebufferDesc.depthAttachment (renderTarget_ (setFrameBufferID a fb))))
    (FramebufferDesc.resolveTexture
       (FramebufferDesc.stencilAttachment (renderTarget_ (setFrameBufferID a fb)))))
    as Hno.
  destruct (collectResolve _) as [createResolveFramebuffer resolveColorAttachments].
  destruct (createResolveFramebuffer && _); [reflexivity|].
  match goal with |- (if ?b then _ else _) _ = _ => destruct b end; [|reflexivity].
  apply bind_ext_l. apply Hfg. exact Hno.
Qed.

Lemma prepareResource_noResolve env f g outResult fb c :
  noResolveTextures (renderTarget_ fb) ->
  prepareResource env f outResult fb c = prepareResource env g outResult fb c.
Proof.
  intros (Hcolor & Hdepth & Hstencil). unfold prepareResource.
  do 8 (cbv zeta; apply bind_ext; intros ? ? _).
  cbv zeta. destruct (negb (Result.isOk a5)); [reflexivity|].
  change (renderTarget_ (setFrameBufferID a fb)) with (renderTarget_ fb).
  rewrite collectResolve_none, Hdepth, Hstencil; [reflexivity|].
  intros [k x] Hx. apply elem_of_map_to_list in Hx. eauto.
Qed.

Lemma initializeFuel_S env fuel desc outResult fb c :
  initializeFuel env (S fuel) desc outResult fb c
  = (if IGL_UNEXPECTED (isInitialized fb) then
       mret (Result.setResult outResult Result.RuntimeError
               "Framebuffer already initialized.", fb)
     else
       withFramebufferBindingGuard env
         ((if negb (String.eqb (FramebufferDesc.debugName desc) EmptyString)
              && DebugLabel env
           then call (ObjectLabel GL.FRAMEBUFFER
                        (frameBufferID_ (setRenderTarget desc (setInitialized true fb)))
                        (FramebufferDesc.debugName desc))
           else mret tt);;
          if hasImplicitColorAttachment (setRenderTarget desc (setInitialized true fb))
          then mret (Result.setOk outResult,
                     setRenderTarget desc (setInitialized true fb))
          else prepareResource env (initializeFuel env fuel) outResult
                 (setRenderTarget desc (setInitialized true fb)))) c.
Proof. reflexivity. Qed.

Lemma initializeFuel_noResolve env fuel desc outResult fb c :
  noResolveTextures desc ->
  initializeFuel env (S fuel) desc outResult fb c
  = initializeFuel env 1 desc outResult fb c.
Proof.
  intros Hno. rewrite !initializeFuel_S.
  destruct (IGL_UNEXPECTED (isInitialized fb)); [reflexivity|].
  unfold withFramebufferBindingGuard.
  apply bind_ext; intros g c1 _. apply leaving_ext.
  apply bind_ext; intros [] c2 _.
  destruct (hasImplicitColorAttachment _); [reflexivity|].
  by apply prepareResource_noResolve.
Qed.

(** Two levels are enough: more fuel changes nothing. *)
Lemma initialize_fuel env fuel desc outResult fb c :
  initializeFuel env (S (S fuel)) desc outResult fb c
  = initialize env desc outResult fb c.
Proof.
  unfold initialize. rewrite !initializeFuel_S.
  destruct (IGL_UNEXPECTED (isInitialized fb)); [reflexivity|].
  unfold withFramebufferBindingGuard.
  apply bind_ext; intros g c1 _. apply leaving_ext.
  apply bind_ext; intros [] c2 _.
  destruct (hasImplicitColorAttachment _); [reflexivity|].
  apply prepareResource_ext. intros d r c3 Hno.
  by rewrite (initializeFuel_noResolve env fuel d r newCustomFramebuffer c3 Hno).
Qed.

Lemma fuelSafe_total {A} (m : M A) : total m -> fuelSafe m.
Proof. intros H c c' E. destruct (H c) as (a & c1 & E'). congruence. Qed.

Lemma fuelSafe_bind {A B} (m : M A) (f : A -> M B) :
  fuelSafe m -> (forall a, fuelSafe (f a)) -> fuelSafe (m ≫= f).
Proof.
  intros Hm Hf c c'. rewrite run_bind.
  destruct (m c) as [a c1|k c1] eqn:E; [apply Hf|].
  intros [= -> ->]. by apply Hm in E.
Qed.

Lemma fuelSafe_ret {A} (a : A) : fuelSafe (mret a).
Proof. apply fuelSafe_total, total_ret. Qed.

Lemma fuelSafe_IGL_ASSERT_MSG env cond msg : fuelSafe (IGL_ASSERT_MSG env cond msg).
Proof.
  intros c c'. unfold IGL_ASSERT_MSG.
  destruct cond, (assertionsAbort env); discriminate.
Qed.

Lemma fuelSafe_foldM {A S} (l : list A) (body : S -> A -> M S) s :
  (forall s x, fuelSafe (body s x)) -> fuelSafe (foldM l body s).
Proof.
  intros Hb. revert s. induction l as [|x l IH]; intros s; cbn [foldM].
  - apply fuelSafe_ret.
  - apply fuelSafe_bind; [apply Hb|apply IH].
Qed.

Lemma fuelSafe_leaving {A} (body : M A) d :
  fuelSafe body -> total d -> fuelSafe (leaving body d).
Proof.
  intros Hb Hd c c'. unfold leaving.
  destruct (body c) as [a c1|k c1] eqn:E.
  - destruct (Hd c1) as ([] & c2 & Hrun). by rewrite (bind_Done _ _ _ _ _ Hrun).
  - destruct k; try discriminate.
    + intros [= ->]. by apply Hb in E.
    + destruct (Hd c1) as ([] & c2 & Hrun). by rewrite (bind_Done _ _ _ _ _ Hrun).
Qed.

Lemma fuelSafe_withFramebufferBindingGuard {A} env (body : M A) :
  fuelSafe body -> fuelSafe (withFramebufferBindingGuard env body).
Proof.
  intros Hb. unfold withFramebufferBindingGuard.
  apply fuelSafe_bind; [apply fuelSafe_total, total_newFramebufferBindingGuard|intros g].
  apply fuelSafe_leaving; [exact Hb|apply total_deleteFramebufferBindingGuard].
Qed.

Ltac fuelSafe_step :=
  first
    [ apply fuelSafe_ret
    | apply fuelSafe_IGL_ASSERT_MSG
    | apply fuelSafe_total, total_call
    | apply fuelSafe_total, total_checkFramebufferStatus
    | apply fuelSafe_total, total_bindFramebuffer
    | apply fuelSafe_bind; [|intros ?] ].

Lemma fuelSafe_prepareResource env f outResult fb :
  (forall d r, noResolveTextures d -> fuelSafe (f d r newCustomFramebuffer)) ->
  fuelSafe (prepareResource env f outResult fb).
Proof.
  intros Hf. unfold prepareResource.
  apply fuelSafe_bind; [by apply fuelSafe_total; intros c; eexists _, _|intros id].
  cbv zeta. apply fuelSafe_bind; [apply fuelSafe_total, total_bindFramebuffer|intros _].
  apply fuelSafe_bind.
  { apply fuelSafe_foldM. intros s [k a]. cbn.
    destruct (FramebufferDesc.texture a); repeat fuelSafe_step. }
  intros drawBuffers.
  apply fuelSafe_bind; [destruct (_ <? _)%nat; repeat fuelSafe_step|intros _].
  apply fuelSafe_bind.
  { destruct (FramebufferDesc.texture _); repeat fuelSafe_step. }
  intros _. apply fuelSafe_bind.
  { destruct (FramebufferDesc.texture _); repeat fuelSafe_step. }
  intros _. apply fuelSafe_bind; [repeat fuelSafe_step|intros result].
  apply fuelSafe_bind; [repeat fuelSafe_step|intros _].
  destruct (negb (Result.isOk result)); [apply fuelSafe_ret|].
  pose proof (noResolveTextures_resolveDesc
    (map_to_list (FramebufferDesc.colorAttachments (renderTarget_ (setFrameBufferID id fb))))
    (FramebufferDesc.resolveTexture
       (FramebufferDesc.depthAttachment (renderTarget_ (setFrameBufferID id fb))))
    (FramebufferDesc.resolveTexture
       (FramebufferDesc.stencilAttachment (renderTarget_ (setFrameBufferID id fb)))))
    as Hno.
  destruct (collectResolve _) as [createResolveFramebuffer resolveColorAttachments].
  destruct (createResolveFramebuffer && _).
  { unfold IGL_ASSERT_NOT_REACHED. repeat fuelSafe_step. }
  match goal with |- fuelSafe (if ?b then _ else _) => destruct b end;
    [|apply fuelSafe_ret].
  apply fuelSafe_bind; [by apply Hf|intros [childResult cfb]]. apply fuelSafe_ret.
Qed.

Lemma fuelSafe_initialize_body env f desc outResult fb :
  (forall d r, noResolveTextures d -> fuelSafe (f d r newCustomFramebuffer)) ->
  forall c c',
    (if IGL_UNEXPECTED (isInitialized fb) then
       mret (Result.setResult outResult Result.RuntimeError
               "Framebuffer already initialized.", fb)
     else
       withFramebufferBindingGuard env
         ((if negb (String.eqb (FramebufferDesc.debugName desc) EmptyString)
              && DebugLabel env
           then call (ObjectLabel GL.FRAMEBUFFER
                        (frameBufferID_ (setRenderTarget desc (setInitialized true fb)))
                        (FramebufferDesc.debugName desc))
           else mret tt);;
          if hasImplicitColorAttachment (setRenderTarget desc (setInitialized true fb))
          then mret (Result.setOk outResult,
                     setRenderTarget desc (setInitialized true fb))
          else prepareResource env f outResult
                 (setRenderTarget desc (setInitialized true fb)))) c
    <> Stopped OutOfFuel c'.
Proof.
  intros Hf.
  destruct (IGL_UNEXPECTED (isInitialized fb)); [apply fuelSafe_ret|].
  apply fuelSafe_withFramebufferBindingGuard.
  apply fuelSafe_bind; [destruct (_ && _); repeat fuelSafe_step|intros _].
  destruct (hasImplicitColorAttachment _); [apply fuelSafe_ret|].
  by apply fuelSafe_prepareResource.
Qed.

(** [initialize] never runs out of fuel. *)
Lemma fuelSafe_initialize env desc outResult fb :
  fuelSafe (initialize env desc outResult fb).
Proof.
  intros c c'. unfold initialize. rewrite initializeFuel_S.
  apply fuelSafe_initialize_body. intros d r Hno c1 c1'.
  rewrite initializeFuel_S.
  destruct (IGL_UNEXPECTED (isInitialized newCustomFramebuffer)); [apply fuelSafe_ret|].
  apply fuelSafe_withFramebufferBindingGuard.
  apply fuelSafe_bind; [destruct (_ && _); repeat fuelSafe_step|intros _].
  destruct (hasImplicitColorAttachment _); [apply fuelSafe_ret|].
  intros c2 c2'.
  rewrite (prepareResource_noResolve env _ (fun _ _ _ => mret (None, newCustomFramebuffer)))
    by exact Hno.
  apply fuelSafe_prepareResource. intros ? ? _. apply fuelSafe_ret.
Qed.

(** *** Calling initialize again *)

(** C1: on an object on which [initialize] has been called (and has
    returned), every later [initialize] reports the already-initialized
    error through [outResult] (when it is not null), records no context call
    and no assertion failure, changes no binding, and leaves every member of
    the object as it was. *)
Theorem C1_initialize_twice_fails env desc0 outResult0 fb0 c0 r0 fb c1
    desc outResult c :
  initialize env desc0 outResult0 fb0 c0 = Done (r0, fb) c1 ->
  initialize env desc outResult fb c
  = Done (Result.setResult outResult Result.RuntimeError
            "Framebuffer already initialized.", fb) c /\
  (forall r, outResult = Some r ->
     Result.setResult outResult Result.RuntimeError "Framebuffer already initialized."
     = Some {| Result.code := Result.RuntimeError;
               Result.message := "Framebuffer already initialized." |}).
Proof.
  intros H. apply initializeFuel_initialized in H. split.
  - by apply initializeFuel_again.
  - by intros r ->.
Qed.

Lemma C1_witness :
  exists r0 fb c1,
    initialize releaseEnv resolveDesc0 (Some Result.ok) newCustomFramebuffer someContext
    = Done (r0, fb) c1 /\
    initialize releaseEnv mismatchedDesc (Some Result.ok) fb c1
    = Done (Some {| Result.code := Result.RuntimeError;
                    Result.message := "Framebuffer already initialized." |}, fb) c1.
Proof.
  eexists _, _, _. split; [vm_compute; reflexivity|].
  eapply (C1_initialize_twice_fails releaseEnv resolveDesc0 (Some Result.ok)
            newCustomFramebuffer someContext).
  vm_compute; reflexivity.
Defined.

(** The flag is set before anything else is done: on an object that is not
    initialized, [initialize] is the guarded block run on the object with
    the flag already set. *)
Lemma initialize_marks_first env desc outResult fb c :
  isInitialized fb = false ->
  let fb1 := setRenderTarget desc (setInitialized true fb) in
  isInitialized fb1 = true /\
  initialize env desc outResult fb c
  = withFramebufferBindingGuard env
      ((if negb (String.eqb (FramebufferDesc.debugName desc) EmptyString)
           && DebugLabel env
        then call (ObjectLabel GL.FRAMEBUFFER (frameBufferID_ fb1)
                     (FramebufferDesc.debugName desc))
        else mret tt);;
       if hasImplicitColorAttachment fb1
       then mret (Result.setOk outResult, fb1)
       else prepareResource env (initializeFuel env 1) outResult fb1) c.
Proof.
  intros H. split; [reflexivity|].
  unfold initialize. rewrite initializeFuel_S. unfold IGL_UNEXPECTED. by rewrite H.
Qed.

(** C10: when [initialize] returns an error, whichever it is (an incomplete
    framebuffer, mismatched resolve attachments), the object it leaves is
    initialized, and every later [initialize] on it fails with the
    already-initialized error without touching the object or the context: a
    failed [initialize] cannot be retried. *)
Theorem C10_failed_initialize_cannot_be_retried env desc outResult fb c r fb' c' :
  initialize env desc outResult fb c = Done (Some r, fb') c' ->
  Result.isOk r = false ->
  isInitialized fb' = true /\
  forall desc2 r2 c2,
    initialize env desc2 (Some r2) fb' c2
    = Done (Some {| Result.code := Result.RuntimeError;
                    Result.message := "Framebuffer already initialized." |}, fb') c2.
Proof.
  intros H _. apply initializeFuel_initialized in H. split; [exact H|].
  intros desc2 r2 c2. by apply initializeFuel_again.
Qed.

Lemma C10_witness :
  exists fb' c',
    initialize es2IncompleteEnv resolveDesc0 (Some Result.ok) newCustomFramebuffer
      someContext
    = Done (Some {| Result.code := Result.RuntimeError;
                    Result.message := "GL_FRAMEBUFFER_UNSUPPORTED" |}, fb') c' /\
    isInitialized fb' = true /\
    initialize es2IncompleteEnv resolveDesc0 (Some Result.ok) fb' c'
    = Done (Some {| Result.code := Result.RuntimeError;
                    Result.message := "Framebuffer already initialized." |}, fb') c'.
Proof.
  eexists _, _. split; [vm_compute; reflexivity|].
  edestruct (C10_failed_initialize_cannot_be_retried es2IncompleteEnv resolveDesc0
               (Some Result.ok) newCustomFramebuffer someContext) as [Hinit Hretry];
    [vm_compute; reflexivity|reflexivity|].
  split; [exact Hinit|]. apply Hretry.
Defined.

(** The other error C10 names: mismatched resolve attachments. *)
Example initialize_mismatched_then_retry :
  exists fb' c',
    initialize releaseEnv mismatchedDesc (Some Result.ok) newCustomFramebuffer
      someContext
    = Done (Some {| Result.code := Result.ArgumentInvalid;
                    Result.message :=
                      "If resolve texture is specified on a color attachment it must be specified on all of them" |},
            fb') c' /\
    isInitialized fb' = true /\
    initialize releaseEnv mismatchedDesc (Some Result.ok) fb' c'
    = Done (Some {| Result.code := Result.RuntimeError;
                    Result.message := "Framebuffer already initialized." |}, fb') c'.
Proof.
  eexists _, _. split; [vm_compute; reflexivity|].
  split; vm_compute; reflexivity.
Qed.

(** ** Runs that return *)

Lemma returns_ret {A} (a : A) (Q : A -> Prop) : Q a -> returns (mret a) Q.
Proof. intros H c. by exists a, c. Qed.

Lemma returns_bind {A B} (m : M A) (f : A -> M B) (Q1 : A -> Prop) (Q2 : B -> Prop) :
  returns m Q1 -> (forall a, Q1 a -> returns (f a) Q2) -> returns (m ≫= f) Q2.
Proof.
  intros Hm Hf c. destruct (Hm c) as (a & c1 & E & Ha).
  rewrite (bind_Done _ _ _ _ _ E). by apply Hf.
Qed.

Lemma returns_total {A} (m : M A) : total m -> returns m (fun _ => True).
Proof. intros H c. destruct (H c) as (a & c' & E). by exists a, c'. Qed.

Lemma returns_weaken {A} (m : M A) (Q1 Q2 : A -> Prop) :
  returns m Q1 -> (forall a, Q1 a -> Q2 a) -> returns m Q2.
Proof.
  intros H HQ c. destruct (H c) as (a & c' & E & Ha). exists a, c'. auto.
Qed.

(** A step whose value is not looked at. *)
Lemma returns_seq {A B} (m : M A) (f : A -> M B) (Q : B -> Prop) :
  total m -> (forall a, returns (f a) Q) -> returns (m ≫= f) Q.
Proof.
  intros Hm Hf. eapply returns_bind; [by apply returns_total|]. intros a _. apply Hf.
Qed.

Lemma total_foldM {A S} (l : list A) (body : S -> A -> M S) s :
  (forall s x, total (body s x)) -> total (foldM l body s).
Proof.
  intros Hb. revert s. induction l as [|x l IH]; intros s; cbn [foldM].
  - apply total_ret.
  - apply total_bind; [apply Hb|apply IH].
Qed.

Lemma total_genFramebuffers : total genFramebuffers.
Proof. intros c. by eexists _, _. Qed.

Lemma total_IGL_ASSERT_MSG_true env msg : total (IGL_ASSERT_MSG env true msg).
Proof. intros c. by eexists _, _. Qed.

Lemma total_IGL_ASSERT_MSG_release env cond msg :
  assertionsAbort env = false -> total (IGL_ASSERT_MSG env cond msg).
Proof.
  intros H c. unfold IGL_ASSERT_MSG. rewrite H. destruct cond; by eexists _, _.
Qed.

Lemma returns_withFramebufferBindingGuard {A} env (body : M A) (Q : A -> Prop) :
  returns body Q -> returns (withFramebufferBindingGuard env body) Q.
Proof.
  intros Hb. unfold withFramebufferBindingGuard.
  eapply returns_bind; [apply returns_total, total_newFramebufferBindingGuard|].
  intros g _ c. destruct (Hb c) as (a & c1 & Hrun & HQ).
  rewrite (leaving_Done _ _ _ _ _ Hrun).
  destruct (total_deleteFramebufferBindingGuard env g c1) as ([] & c2 & Hdel).
  rewrite (bind_Done _ _ _ _ _ Hdel). by eexists _, _.
Qed.

Lemma returns_checkFramebufferStatus env read :
  backendComplete env ->
  returns (checkFramebufferStatus env read) (fun r => r = Result.ok).
Proof.
  intros H c. unfold checkFramebufferStatus. run_calls. rewrite H.
  by eexists _, _.
Qed.

(** The part of [prepareResource] before the completeness check. *)
Lemma total_attachColorAttachments l params drawBuffers :
  total (foldM l
    (fun (drawBuffers : list N) (colorAttachment : N * FramebufferDesc.AttachmentDesc) =>
       match FramebufferDesc.texture colorAttachment.2 with
       | Some colorAttachmentTexture =>
           attachAsColor colorAttachmentTexture (to_uint32 colorAttachment.1) params;;
           mret (drawBuffers ++ [to_uint32 (GL.COLOR_ATTACHMENT0 + colorAttachment.1)])
       | None => mret drawBuffers
       end) drawBuffers).
Proof.
  apply total_foldM. intros s [k a]. cbn.
  destruct (FramebufferDesc.texture a); [|apply total_ret].
  apply total_bind; [apply total_call|intros _; apply total_ret].
Qed.

(** With a complete framebuffer, [prepareResource] reaches the resolve
    part: what it returns is what that part returns. *)
Lemma returns_prepareResource_complete env f outResult fb
    (Q : option Result.t * CustomFramebuffer -> Prop) :
  backendComplete env ->
  (forall id,
     let fb := setFrameBufferID id fb in
     let colorAttachments :=
       map_to_list (FramebufferDesc.colorAttachments (renderTarget_ fb)) in
     let result := Result.ok in
     let outResult := match outResult with Some _ => Some result | None => None end in
     returns
       (let '(createResolveFramebuffer, resolveColorAttachments) :=
          collectResolve colorAttachments in
        let resolveDesc :=
          withColorAttachments resolveColorAttachments FramebufferDesc.default in
        if createResolveFramebuffer &&
           negb (size resolveColorAttachments
                 =? size (FramebufferDesc.colorAttachments (renderTarget_ fb)))%nat
        then
          IGL_ASSERT_NOT_REACHED env;;
          mret (match outResult with
                | Some _ => Some argumentInvalidResult
                | None => None
                end, fb)
        else
          let depthResolve :=
            FramebufferDesc.resolveTexture (FramebufferDesc.depthAttachment (renderTarget_ fb)) in
          let stencilResolve :=
            FramebufferDesc.resolveTexture (FramebufferDesc.stencilAttachment (renderTarget_ fb)) in
          let createResolveFramebuffer :=
            if isSome depthResolve then true else createResolveFramebuffer in
          let resolveDesc :=
            if isSome depthResolve then withDepthTexture depthResolve resolveDesc
            else resolveDesc in
          let createResolveFramebuffer :=
            if isSome stencilResolve then true else createResolveFramebuffer in
          let resolveDesc :=
            if isSome stencilResolve then withStencilTexture stencilResolve resolveDesc
            else resolveDesc in
          if createResolveFramebuffer then
            '(childResult, cfb) ← f resolveDesc (Some result) newCustomFramebuffer;
            let result := default result childResult in
            mret (match outResult with Some _ => Some result | None => None end,
                  setResolveFramebuffer (Some cfb) fb)
          else mret (outResult, fb)) Q) ->
  returns (prepareResource env f outResult fb) Q.
Proof.
  intros Hcomplete Hrest. unfold prepareResource.
  eapply returns_bind; [apply returns_total, total_genFramebuffers|]. intros id _.
  cbv zeta.
  apply returns_seq; [apply total_bindFramebuffer|intros _].
  apply returns_seq; [apply total_attachColorAttachments|intros drawBuffers].
  apply returns_seq; [destruct (_ <? _)%nat; [apply total_call|apply total_ret]|intros _].
  apply returns_seq.
  { destruct (FramebufferDesc.texture _); [apply total_call|apply total_ret]. }
  intros _. apply returns_seq.
  { destruct (FramebufferDesc.texture _); [apply total_call|apply total_ret]. }
  intros _.
  eapply returns_bind; [by apply returns_checkFramebufferStatus|]. intros result ->.
  apply returns_seq; [apply total_IGL_ASSERT_MSG_true|intros _].
  cbn [Result.isOk Result.ok Result.code negb]. apply Hrest.
Qed.

(** *** Resolve attachments *)

Lemma returns_initialize_fresh env desc outResult fb
    (Q : option Result.t * CustomFramebuffer -> Prop) :
  isInitialized fb = false ->
  (let fb1 := setRenderTarget desc (setInitialized true fb) in
   returns (if hasImplicitColorAttachment fb1
            then mret (Result.setOk outResult, fb1)
            else prepareResource env (initializeFuel env 1) outResult fb1) Q) ->
  returns (initialize env desc outResult fb) Q.
Proof.
  intros Hfresh Hbody c.
  destruct (initialize_marks_first env desc outResult fb c Hfresh) as [_ ->].
  revert c. apply returns_withFramebufferBindingGuard.
  apply returns_seq; [|intros _; exact Hbody].
  destruct (_ && _); [apply total_call|apply total_ret].
Qed.

(** C2, as stated, fails: with the view's own texture at index 0 the
    framebuffer is the implicit one, and [initialize] succeeds without looking
    at the resolve textures. *)
Lemma C2_implicit_framebuffer_is_not_checked :
  mismatchedResolve mismatchedViewDesc /\
  exists r fb' c',
    initialize releaseEnv mismatchedViewDesc (Some Result.ok) newCustomFramebuffer
      someContext
    = Done (Some r, fb') c' /\
    Result.isOk r = true /\
    Result.code r <> Result.ArgumentInvalid.
Proof.
  split.
  - split.
    + exists 0, (attachment (Some (viewTexture 10)) (Some (rgbaTexture 11))).
      split; reflexivity.
    + exists 1, (attachment (Some (rgbaTexture 12)) None). split; reflexivity.
  - eexists _, _, _. split; [vm_compute; reflexivity|]. split; [reflexivity|].
    discriminate.
Qed.

(** Nor is the error ArgumentInvalid when the driver finds the framebuffer
    incomplete: the completeness check comes first. *)
Example initialize_mismatched_incomplete :
  exists fb' c',
    initialize es2IncompleteEnv mismatchedDesc (Some Result.ok) newCustomFramebuffer
      someContext
    = Done (Some {| Result.code := Result.RuntimeError;
                    Result.message := "GL_FRAMEBUFFER_UNSUPPORTED" |}, fb') c'.
Proof. eexists _, _. vm_compute. reflexivity. Qed.

(** And a build in which assertions stop the program stops at
    [IGL_ASSERT_NOT_REACHED]. *)
Example initialize_mismatched_debug :
  exists c',
    initialize debugEnv mismatchedDesc (Some Result.ok) newCustomFramebuffer someContext
    = Stopped AssertionFailure c'.
Proof. eexists. vm_compute. reflexivity. Qed.

(** C2, amended: on an object that is not yet initialized and does not wrap
    the view's implicit framebuffer, when the driver reports the framebuffer
    complete and failed assertions do not stop the program, [initialize] on
    an attachment set in which some colour attachment has a resolve texture
    and some has none fails with ArgumentInvalid, and creates no resolve
    framebuffer. *)
Theorem C2_mismatched_resolve_ArgumentInvalid env desc r0 fb c :
  isInitialized fb = false ->
  hasImplicitColorAttachment (setRenderTarget desc fb) = false ->
  backendComplete env ->
  assertionsAbort env = false ->
  mismatchedResolve desc ->
  exists fb' c',
    initialize env desc (Some r0) fb c = Done (Some argumentInvalidResult, fb') c' /\
    resolveFramebuffer fb' = resolveFramebuffer fb /\
    renderTarget_ fb' = desc.
Proof.
  intros Hfresh Himplicit Hcomplete Hrelease [(k1 & a1 & Hk1 & Ha1) (k2 & a2 & Hk2 & Ha2)].
  enough (returns (initialize env desc (Some r0) fb)
            (fun x => x.1 = Some argumentInvalidResult /\
                      resolveFramebuffer x.2 = resolveFramebuffer fb /\
                      renderTarget_ x.2 = desc)) as H.
  { destruct (H c) as ([r fb'] & c' & E & Hr & Hfb). cbn in Hr. subst r.
    by exists fb', c'. }
  apply returns_initialize_fresh; [exact Hfresh|]. cbv zeta.
  change (hasImplicitColorAttachment (setRenderTarget desc (setInitialized true fb)))
    with (hasImplicitColorAttachment (setRenderTarget desc fb)).
  rewrite Himplicit.
  apply returns_prepareResource_complete; [exact Hcomplete|]. intros id. cbv zeta.
  change (renderTarget_ (setFrameBufferID id (setRenderTarget desc (setInitialized true fb))))
    with desc.
  pose proof (collectResolve_size_lt _ _ _ Hk2 Ha2) as Hsize.
  pose proof (proj2 (collectResolve_flag
                       (map_to_list (FramebufferDesc.colorAttachments desc)))) as Hflag.
  destruct (collectResolve _) as [createResolveFramebuffer resolveColorAttachments].
  cbn in Hsize, Hflag. rewrite Hflag.
  2:{ exists (k1, a1). split; [by apply elem_of_map_to_list|done]. }
  replace (size resolveColorAttachments
           =? size (FramebufferDesc.colorAttachments desc))%nat with false
    by (symmetry; apply Nat.eqb_neq; lia).
  cbn [andb negb].
  apply returns_seq; [by apply total_IGL_ASSERT_MSG_release|intros _].
  by apply returns_ret.
Qed.

Lemma C2_witness :
  exists fb' c',
    initialize releaseEnv mismatchedDesc (Some Result.ok) newCustomFramebuffer
      someContext
    = Done (Some argumentInvalidResult, fb') c' /\
    resolveFramebuffer fb' = None /\
    renderTarget_ fb' = mismatchedDesc.
Proof.
  apply (C2_mismatched_resolve_ArgumentInvalid releaseEnv mismatchedDesc Result.ok
           newCustomFramebuffer someContext).
  - reflexivity.
  - reflexivity.
  - intros l name. reflexivity.
  - reflexivity.
  - split.
    + exists 0, (attachment (Some (rgbaTexture 10)) (Some (rgbaTexture 11))).
      split; reflexivity.
    + exists 1, (attachment (Some (rgbaTexture 12)) None). split; reflexivity.
Defined.

(** On a descriptor without resolve textures and a complete framebuffer,
    [initialize] succeeds and creates no child. *)
Lemma returns_initializeFuel_noResolve env fuel desc r0 fb :
  backendComplete env ->
  noResolveTextures desc ->
  isInitialized fb = false ->
  returns (initializeFuel env (S fuel) desc (Some r0) fb)
    (fun x => x.1 = Some Result.ok /\ renderTarget_ x.2 = desc /\
              isInitialized x.2 = true /\
              resolveFramebuffer x.2 = resolveFramebuffer fb).
Proof.
  intros Hcomplete (Hcolor & Hdepth & Hstencil) Hfresh c.
  rewrite initializeFuel_noResolve by done.
  change (initializeFuel env 1 desc (Some r0) fb c)
    with (initializeFuel env (S 0) desc (Some r0) fb c).
  rewrite initializeFuel_S. unfold IGL_UNEXPECTED. rewrite Hfresh.
  revert c. apply returns_withFramebufferBindingGuard.
  apply returns_seq; [destruct (_ && _); [apply total_call|apply total_ret]|intros _].
  destruct (hasImplicitColorAttachment _); [by apply returns_ret|].
  apply returns_prepareResource_complete; [exact Hcomplete|]. intros id. cbv zeta.
  change (renderTarget_ (setFrameBufferID id (setRenderTarget desc (setInitialized true fb))))
    with desc.
  rewrite collectResolve_none, Hdepth, Hstencil.
  - by apply returns_ret.
  - intros [k x] Hx. apply elem_of_map_to_list in Hx. eauto.
Qed.

Lemma collectResolve_singleton a0 resolveTexture :
  FramebufferDesc.resolveTexture a0 = Some resolveTexture ->
  collectResolve (map_to_list ({[ 0 := a0 ]} : gmap N FramebufferDesc.AttachmentDesc))
  = (true, {[ 0 := attachment (Some resolveTexture) None ]}).
Proof.
  intros H. rewrite map_to_list_singleton. unfold collectResolve. cbn.
  unfold collectResolveStep. cbn. rewrite H. f_equal.
Qed.

(** C3, as stated, fails: when the colour texture at index 0 is the view's
    own, [initialize] succeeds on the implicit framebuffer and constructs no
    resolve framebuffer. *)
Lemma C3_implicit_framebuffer_has_no_resolve_child :
  FramebufferDesc.colorAttachments resolveViewDesc0
  = {[ 0 := attachment (Some (viewTexture 10)) (Some (rgbaTexture 11)) ]} /\
  FramebufferDesc.resolveTexture (FramebufferDesc.depthAttachment resolveViewDesc0)
  = None /\
  exists fb' c',
    initialize releaseEnv resolveViewDesc0 (Some Result.ok) newCustomFramebuffer
      someContext
    = Done (Some Result.ok, fb') c' /\
    resolveFramebuffer fb' = None.
Proof.
  split; [reflexivity|]. split; [reflexivity|].
  eexists _, _. split; vm_compute; reflexivity.
Qed.

(** C3, amended: on an object that is not yet initialized and does not wrap
    the view's implicit framebuffer, with a driver that reports framebuffers
    complete, [initialize] on an attachment set whose only colour attachment is
    at index 0 and has a resolve texture, and whose depth attachment has none,
    succeeds and constructs the child resolve framebuffer: the child is
    initialized, its single colour attachment, at index 0, is exactly the
    resolve texture, and it has no depth attachment. *)
Theorem C3_single_resolve_creates_child env desc a0 resolveTexture r0 fb c :
  isInitialized fb = false ->
  hasImplicitColorAttachment (setRenderTarget desc fb) = false ->
  backendComplete env ->
  FramebufferDesc.colorAttachments desc = {[ 0 := a0 ]} ->
  FramebufferDesc.resolveTexture a0 = Some resolveTexture ->
  FramebufferDesc.resolveTexture (FramebufferDesc.depthAttachment desc) = None ->
  exists fb' child c',
    initialize env desc (Some r0) fb c = Done (Some Result.ok, fb') c' /\
    resolveFramebuffer fb' = Some child /\
    isInitialized child = true /\
    FramebufferDesc.colorAttachments (renderTarget_ child)
    = {[ 0 := attachment (Some resolveTexture) None ]} /\
    FramebufferDesc.depthAttachment (renderTarget_ child)
    = FramebufferDesc.noAttachment.
Proof.
  intros Hfresh Himplicit Hcomplete Hcolor Hresolve Hdepth.
  enough (returns (initialize env desc (Some r0) fb)
            (fun x => x.1 = Some Result.ok /\
               exists child, resolveFramebuffer x.2 = Some child /\
                 isInitialized child = true /\
                 FramebufferDesc.colorAttachments (renderTarget_ child)
                 = {[ 0 := attachment (Some resolveTexture) None ]} /\
                 FramebufferDesc.depthAttachment (renderTarget_ child)
                 = FramebufferDesc.noAttachment)) as H.
  { destruct (H c) as ([r fb'] & c' & E & Hr & child & Hchild). cbn in Hr. subst r.
    by exists fb', child, c'. }
  apply returns_initialize_fresh; [exact Hfresh|]. cbv zeta.
  change (hasImplicitColorAttachment (setRenderTarget desc (setInitialized true fb)))
    with (hasImplicitColorAttachment (setRenderTarget desc fb)).
  rewrite Himplicit.
  apply returns_prepareResource_complete; [exact Hcomplete|]. intros id. cbv zeta.
  change (renderTarget_ (setFrameBufferID id (setRenderTarget desc (setInitialized true fb))))
    with desc.
  rewrite Hcolor, (collectResolve_singleton a0 resolveTexture Hresolve), Hdepth.
  rewrite !map_size_singleton. cbn [Nat.eqb negb andb isSome].
  replace (if isSome _ then true else true) with true by (by destruct (isSome _)).
  set (resolveDesc := if isSome _ then withStencilTexture _ _ else _).
  assert (FramebufferDesc.colorAttachments resolveDesc
          = {[ 0 := attachment (Some resolveTexture) None ]} /\
          FramebufferDesc.depthAttachment resolveDesc = FramebufferDesc.noAttachment /\
          noResolveTextures resolveDesc) as (Hc & Hd & Hno).
  { subst resolveDesc. destruct (isSome _); (split; [reflexivity|split; [reflexivity|]]).
    - split; [|split; reflexivity]. cbn. intros k a Hk.
      apply lookup_singleton_Some in Hk as [_ <-]. reflexivity.
    - split; [|split; reflexivity]. cbn. intros k a Hk.
      apply lookup_singleton_Some in Hk as [_ <-]. reflexivity. }
  eapply returns_bind.
  { apply (returns_initializeFuel_noResolve env 0 resolveDesc Result.ok
             newCustomFramebuffer Hcomplete Hno eq_refl). }
  intros [childResult cfb] (Hr & Htarget & Hinit & _). cbn in Hr, Htarget, Hinit.
  subst childResult. apply returns_ret. split; [reflexivity|].
  exists cfb. cbn. rewrite Htarget. auto.
Qed.

Lemma C3_witness :
  exists fb' child c',
    initialize releaseEnv resolveDesc0 (Some Result.ok) newCustomFramebuffer someContext
    = Done (Some Result.ok, fb') c' /\
    resolveFramebuffer fb' = Some child /\
    isInitialized child = true /\
    FramebufferDesc.colorAttachments (renderTarget_ child)
    = {[ 0 := attachment (Some (rgbaTexture 11)) None ]} /\
    FramebufferDesc.depthAttachment (renderTarget_ child)
    = FramebufferDesc.noAttachment.
Proof.
  apply (C3_single_resolve_creates_child releaseEnv resolveDesc0
           (attachment (Some (rgbaTexture 10)) (Some (rgbaTexture 11)))
           (rgbaTexture 11) Result.ok newCustomFramebuffer someContext).
  - reflexivity.
  - reflexivity.
  - intros l name. reflexivity.
  - reflexivity.
  - reflexivity.
  - reflexivity.
Defined.

(** ** FramebufferBindingGuard *)

Lemma recordCall_bindings e c :
  renderbufferBinding (recordCall e c) = renderbufferBinding c /\
  readFramebufferBinding (recordCall e c) = readFramebufferBinding c /\
  drawFramebufferBinding (recordCall e c) = drawFramebufferBinding c.
Proof. done. Qed.

(** The constructor returns, changes no binding, and stores the renderbuffer
    binding and those framebuffer bindings whose framebuffer is complete. *)
Lemma newFramebufferBindingGuard_spec env c :
  exists g c1,
    newFramebufferBindingGuard env c = Done g c1 /\
    renderbufferBinding c1 = renderbufferBinding c /\
    readFramebufferBinding c1 = readFramebufferBinding c /\
    drawFramebufferBinding c1 = drawFramebufferBinding c /\
    currentRenderbuffer_ g = renderbufferBinding c /\
    (if ReadWriteFramebuffer env
     then currentReadFramebuffer_ g
          = (if guardReadComplete env c then readFramebufferBinding c else 0) /\
          currentDrawFramebuffer_ g
          = (if guardDrawComplete env c then drawFramebufferBinding c else 0)
     else currentFramebuffer_ g
          = (if guardDrawComplete env c then drawFramebufferBinding c else 0)).
Proof.
  unfold newFramebufferBindingGuard, guardDrawComplete, guardReadComplete.
  run_calls. cbn.
  destruct (ReadWriteFramebuffer env); cbn.
  - destruct (framebufferStatus env (calls c ++ [GetIntegerv GL.RENDERBUFFER_BINDING])
                (readFramebufferBinding c) =? GL.FRAMEBUFFER_COMPLETE) eqn:Er; cbn.
    + rewrite <- !app_assoc. cbn.
      destruct (framebufferStatus env _ (drawFramebufferBinding c)
                =? GL.FRAMEBUFFER_COMPLETE) eqn:Ed; cbn; eauto 10.
    + rewrite <- !app_assoc. cbn.
      destruct (framebufferStatus env _ (drawFramebufferBinding c)
                =? GL.FRAMEBUFFER_COMPLETE) eqn:Ed; cbn; eauto 10.
  - destruct (framebufferStatus env _ (drawFramebufferBinding c)
              =? GL.FRAMEBUFFER_COMPLETE) eqn:Ed; cbn; eauto 10.
Qed.

(** The destructor returns and binds what the guard stores. *)
Lemma deleteFramebufferBindingGuard_spec env g c :
  exists c',
    deleteFramebufferBindingGuard env g c = Done tt c' /\
    renderbufferBinding c' = currentRenderbuffer_ g /\
    (if ReadWriteFramebuffer env
     then readFramebufferBinding c' = currentReadFramebuffer_ g /\
          drawFramebufferBinding c' = currentDrawFramebuffer_ g
     else drawFramebufferBinding c' = currentFramebuffer_ g).
Proof.
  unfold deleteFramebufferBindingGuard. run_calls.
  destruct (ReadWriteFramebuffer env); cbn; eauto.
Qed.

(** C8, as stated, fails: when the framebuffer bound at construction is not
    complete the guard does not read its name, and the destructor binds
    framebuffer 0.  Here framebuffer 5 is bound, the driver reports it
    unsupported, and the guarded block does nothing: the caller finds
    framebuffer 0 bound afterwards. *)
Lemma C8_incomplete_framebuffer_is_not_restored :
  drawFramebufferBinding someContext = 5 /\
  exists c',
    withFramebufferBindingGuard es2IncompleteEnv (mret tt) someContext = Done tt c' /\
    drawFramebufferBinding c' = 0 /\
    drawFramebufferBinding c' <> drawFramebufferBinding someContext.
Proof.
  split; [reflexivity|]. eexists. split; [vm_compute; reflexivity|].
  split; [reflexivity|]. cbn. discriminate.
Qed.

(** C8, amended: however the body of a guarded block is left, by running
    to its end, by an early return (with whatever value, an error included)
    or by an exception that propagates out of it, the block is left the same
    way, and then the renderbuffer binding is the one of the time of
    construction, whatever the body bound; each framebuffer binding (read and
    draw where the backend separates them, the single one otherwise) is the
    one of the time of construction when the framebuffer bound then was
    complete, and 0 when it was not. *)
Theorem C8_guard_restores_bindings {A} env (body : M A) c x c2 :
  body (finalContext (newFramebufferBindingGuard env c)) = exit x c2 ->
  exists c',
    withFramebufferBindingGuard env body c = exit x c' /\
    renderbufferBinding c' = renderbufferBinding c /\
    (if ReadWriteFramebuffer env
     then readFramebufferBinding c'
          = (if guardReadComplete env c then readFramebufferBinding c else 0) /\
          drawFramebufferBinding c'
          = (if guardDrawComplete env c then drawFramebufferBinding c else 0)
     else drawFramebufferBinding c'
          = (if guardDrawComplete env c then drawFramebufferBinding c else 0)).
Proof.
  intros Hbody.
  destruct (newFramebufferBindingGuard_spec env c)
    as (g & c1 & Hnew & _ & _ & _ & Hrb & Hfb).
  rewrite Hnew in Hbody. cbn in Hbody.
  destruct (deleteFramebufferBindingGuard_spec env g c2) as (c' & Hdel & Hrb' & Hfb').
  exists c'. split.
  - unfold withFramebufferBindingGuard. rewrite (bind_Done _ _ _ _ _ Hnew).
    destruct x as [a|what]; cbn [exit] in *.
    + by rewrite (leaving_Done _ _ _ _ _ Hbody), (bind_Done _ _ _ _ _ Hdel).
    + by rewrite (leaving_Exception _ _ _ _ _ Hbody), (bind_Done _ _ _ _ _ Hdel).
  - split; [congruence|].
    destruct (ReadWriteFramebuffer env).
    + destruct Hfb as [<- <-]. exact Hfb'.
    + rewrite <- Hfb. exact Hfb'.
Qed.

Lemma C8_witness :
  (exists c',
     withFramebufferBindingGuard releaseEnv rebindAndFail someContext
     = Done {| Result.code := Result.RuntimeError; Result.message := "failed" |} c' /\
     renderbufferBinding c' = 7 /\
     readFramebufferBinding c' = 5 /\
     drawFramebufferBinding c' = 5) /\
  (exists c',
     withFramebufferBindingGuard releaseEnv rebindAndThrow someContext
     = Stopped (Exception "failed") c' /\
     renderbufferBinding c' = 7 /\
     readFramebufferBinding c' = 5 /\
     drawFramebufferBinding c' = 5).
Proof.
  split.
  - edestruct (C8_guard_restores_bindings releaseEnv rebindAndFail someContext
                 (Returns {| Result.code := Result.RuntimeError;
                             Result.message := "failed" |}))
      as (c' & Hrun & Hrb & Hfb).
    + vm_compute. reflexivity.
    + exists c'. split; [exact Hrun|]. split; [exact Hrb|]. exact Hfb.
  - edestruct (C8_guard_restores_bindings releaseEnv rebindAndThrow someContext
                 (Throws "failed")) as (c' & Hrun & Hrb & Hfb).
    + vm_compute. reflexivity.
    + exists c'. split; [exact Hrun|]. split; [exact Hrb|]. exact Hfb.
Defined.

(** ** The calls of a run *)

Lemma issues_ret {A} (a : A) : issues (mret a) a [].
Proof. intros c. exists c. by rewrite app_nil_r. Qed.

Lemma issues_bind {A B} (m : M A) (f : A -> M B) a b es1 es2 :
  issues m a es1 -> issues (f a) b es2 -> issues (m ≫= f) b (es1 ++ es2).
Proof.
  intros Hm Hf c. destruct (Hm c) as (c1 & E1 & H1).
  destruct (Hf c1) as (c2 & E2 & H2). exists c2.
  rewrite (bind_Done _ _ _ _ _ E1). split; [exact E2|].
  by rewrite H2, H1, app_assoc.
Qed.

Lemma issues_call e : issues (call e) tt [e].
Proof. intros c. by eexists. Qed.

Lemma issues_bindFramebuffer target fb :
  issues (bindFramebuffer target fb) tt [BindFramebuffer target fb].
Proof.
  intros c. eexists. split; [reflexivity|].
  repeat match goal with |- context [if ?b then _ else _] => destruct b end;
    reflexivity.
Qed.

Lemma issues_assert env cond msg :
  cond = true \/ assertionsAbort env = false ->
  issues (IGL_ASSERT_MSG env cond msg) tt [].
Proof.
  intros H c. unfold IGL_ASSERT_MSG.
  destruct cond; [exists c; by rewrite app_nil_r|].
  destruct H as [H|H]; [discriminate|]. rewrite H.
  eexists. split; [reflexivity|]. cbn. by rewrite app_nil_r.
Qed.

Lemma issues_vectorAt {A} (v : list A) i a :
  v !! N.to_nat i = Some a -> issues (vectorAt v i) a [].
Proof. intros H. unfold vectorAt. rewrite H. apply issues_ret. Qed.

Lemma issues_forEach {A} (l : list A) (body : A -> M unit) (g : A -> list GLCall) :
  (forall x, x ∈ l -> issues (body x) tt (g x)) ->
  issues (forEach l body) tt (l ≫= g).
Proof.
  induction l as [|x l IH]; intros H; cbn [forEach].
  - apply issues_ret.
  - change ((x :: l) ≫= g) with (g x ++ (l ≫= g)).
    eapply issues_bind; [apply H; left|].
    apply IH. intros y Hy. apply H. by right.
Qed.

Lemma issues_if {A} (b : bool) (m1 m2 : M A) a1 a2 es1 es2 :
  issues m1 a1 es1 -> issues m2 a2 es2 ->
  issues (if b then m1 else m2) (if b then a1 else a2) (if b then es1 else es2).
Proof. by destruct b. Qed.

Lemma issues_if_unit (b : bool) (m1 m2 : M unit) es1 es2 :
  issues m1 tt es1 -> issues m2 tt es2 ->
  issues (if b then m1 else m2) tt (if b then es1 else es2).
Proof. by destruct b. Qed.

Lemma issues_eq_value {A} (m : M A) a a' es :
  issues m a es -> a = a' -> issues m a' es.
Proof. by intros H <-. Qed.

Lemma issues_eq {A} (m : M A) a es es' :
  issues m a es -> es = es' -> issues m a es'.
Proof. by intros H <-. Qed.

(** ** bind *)

Lemma needsToBeReattached_true mode a :
  needsToBeReattached mode a = true <-> mode = Stereo \/ requestsNonDefault a.
Proof.
  unfold needsToBeReattached, requestsNonDefault.
  rewrite !orb_true_iff, !N.ltb_lt. destruct mode; cbn; split.
  all: intros H; repeat destruct H as [H|H]; try discriminate; try lia; auto.
  all: right; lia.
Qed.

Lemma renderPassCovers_spec rp rt :
  renderPassCovers rp rt = true <->
  forall k att tex,
    FramebufferDesc.colorAttachments rt !! k = Some att ->
    FramebufferDesc.texture att = Some tex ->
    is_Some (RenderPassDesc.colorAttachments rp !! N.to_nat k).
Proof.
  unfold renderPassCovers. rewrite forallb_forall. split.
  - intros H k att tex Hk Htex.
    specialize (H (k, att)). cbn in H. rewrite Htex in H. cbn in H.
    apply lookup_lt_is_Some, Nat.ltb_lt, H.
    apply list_elem_of_In. by apply elem_of_map_to_list.
  - intros H [k att] Hx. cbn.
    apply list_elem_of_In, elem_of_map_to_list in Hx.
    destruct (FramebufferDesc.texture att) as [tex|] eqn:E; [|done]. cbn.
    apply Nat.ltb_lt, lookup_lt_is_Some. by eapply H.
Qed.

Lemma issues_bindColorAttachment env mode rp x :
  (forall tex, FramebufferDesc.texture x.2 = Some tex ->
     is_Some (RenderPassDesc.colorAttachments rp !! N.to_nat x.1)) ->
  issues (bindColorAttachment env mode rp x) tt (bindColorCalls env mode rp x).
Proof.
  intros Hcover. unfold bindColorAttachment, bindColorCalls.
  destruct (FramebufferDesc.texture x.2) as [tex|]; [|apply issues_ret].
  destruct (Hcover tex eq_refl) as [a Ha]. rewrite Ha.
  eapply issues_bind.
  { destruct (negb (IGL_OPENGL_ES env) && SRGB env); [|apply issues_ret].
    destruct (TextureFormatProperties.isSRGB _); apply issues_call. }
  eapply issues_eq.
  - eapply issues_bind.
    { apply issues_assert. left. apply Nat.ltb_lt.
      by apply lookup_lt_Some in Ha. }
    eapply issues_bind; [by apply issues_vectorAt|].
    apply issues_if_unit; [apply issues_call|apply issues_ret].
  - reflexivity.
Qed.

Lemma colorAttachment0Pass_covered rp rt att :
  renderPassCovers rp rt = true ->
  FramebufferDesc.colorAttachments rt !! 0 = Some att ->
  isSome (FramebufferDesc.texture att) = true ->
  exists a0, RenderPassDesc.colorAttachments rp !! 0%nat = Some a0 /\
             colorAttachment0Pass rp rt = Some a0.
Proof.
  intros Hcover Hatt Htex.
  pose proof (proj1 (renderPassCovers_spec _ _) Hcover) as Hall. clear Hcover.
  rename Hall into Hcover.
  unfold colorAttachment0Pass. rewrite Hatt, Htex.
  destruct (FramebufferDesc.texture att) as [tex|] eqn:E; [|discriminate].
  destruct (Hcover 0 att tex Hatt E) as [a0 Ha0]. cbn in Ha0. eauto.
Qed.

(** [bind] returns, with [renderPass_] written, after the setup calls and
    the [clear] call. *)
Lemma issues_bind_calls env rp fb :
  isMultiview (getMode fb) = false \/ assertionsAbort env = false ->
  renderPassCovers rp (renderTarget_ fb) = true ->
  issues (bind env rp fb) (setRenderPass rp fb)
    (bindSetupCalls env rp fb ++ bindClearCall rp (renderTarget_ fb)).
Proof.
  intros Hmode Hcover. unfold bind. cbv zeta.
  change (renderTarget_ (setRenderPass rp fb)) with (renderTarget_ fb).
  change (renderPass_ (setRenderPass rp fb)) with rp.
  set (rt := renderTarget_ fb) in *.
  eapply issues_eq.
  - eapply issues_bind.
    { apply issues_assert. destruct Hmode as [H|H]; [left|by right].
      unfold getMode in H. fold rt in H. by rewrite H. }
    eapply issues_bind; [apply issues_bindFramebuffer|].
    eapply issues_bind.
    { apply (issues_forEach _ _ (bindColorCalls env (FramebufferDesc.mode rt) rp)).
      intros [k att] Hx. apply issues_bindColorAttachment. cbn. intros tex Htex.
      apply elem_of_map_to_list in Hx.
      eapply (proj1 (renderPassCovers_spec _ _) Hcover); eauto. }
    eapply issues_bind.
    { instantiate (1 := bindDepthCalls (FramebufferDesc.mode rt) rp rt).
      unfold bindDepthCalls.
      destruct (FramebufferDesc.texture (FramebufferDesc.depthAttachment rt));
        [|apply issues_ret].
      cbv zeta. destruct (needsToBeReattached _ _); [apply issues_call|apply issues_ret]. }
    eapply issues_bind.
    { instantiate (1 := match colorAttachment0Pass rp rt with
                        | Some a0 =>
                            if isClear (RenderPassDesc.loadAction (RenderPassDesc.colorBase a0))
                            then [ColorMask true true true true;
                                  ClearColor (RenderPassDesc.clearColor a0)]
                            else []
                        | None => []
                        end).
      instantiate (1 := if colorCleared rp rt then N.lor 0 GL.COLOR_BUFFER_BIT else 0).
      unfold colorCleared.
      destruct (FramebufferDesc.colorAttachments rt !! 0) as [att|] eqn:Hatt.
      2:{ unfold colorAttachment0Pass. rewrite Hatt. apply issues_ret. }
      destruct (isSome (FramebufferDesc.texture att)) eqn:Htex.
      2:{ unfold colorAttachment0Pass. rewrite Hatt, Htex. apply issues_ret. }
      destruct (colorAttachment0Pass_covered rp rt att Hcover Hatt Htex)
        as (a0 & Ha0 & ->).
      eapply issues_eq.
      - eapply issues_bind; [by apply issues_vectorAt|].
        apply issues_if; [|apply issues_ret].
        eapply issues_bind; [apply issues_call|].
        eapply issues_bind; [apply issues_call|apply issues_ret].
      - by destruct (isClear _). }
    eapply issues_bind.
    { instantiate (1 := if depthCleared rp rt
                        then [DepthMask true;
                              ClearDepthf (RenderPassDesc.clearDepth
                                             (RenderPassDesc.depthAttachment rp))]
                        else []).
      instantiate (1 := if depthCleared rp rt
                        then N.lor (if colorCleared rp rt
                                    then N.lor 0 GL.COLOR_BUFFER_BIT else 0)
                               GL.DEPTH_BUFFER_BIT
                        else if colorCleared rp rt
                             then N.lor 0 GL.COLOR_BUFFER_BIT else 0).
      unfold depthCleared.
      destruct (isSome (FramebufferDesc.texture (FramebufferDesc.depthAttachment rt)));
        [|apply issues_ret].
      cbv zeta. cbn [andb]. eapply issues_eq.
      - apply issues_if; [|apply issues_ret].
        eapply issues_bind; [apply issues_call|].
        eapply issues_bind; [apply issues_call|apply issues_ret].
      - by destruct (isClear _). }
    eapply issues_bind.
    { instantiate (1 := if isSome (FramebufferDesc.texture
                                     (FramebufferDesc.stencilAttachment rt))
                        then Enable GL.STENCIL_TEST ::
                             (if stencilCleared rp rt
                              then [StencilMask 0xFF;
                                    ClearStencil (RenderPassDesc.clearStencil
                                                    (RenderPassDesc.stencilAttachment rp))]
                              else [])
                        else []).
      instantiate (1 := bindClearMask rp rt).
      unfold bindClearMask, stencilCleared. cbv zeta.
      destruct (isSome (FramebufferDesc.texture (FramebufferDesc.stencilAttachment rt)));
        [|apply issues_ret].
      cbn [andb]. eapply issues_eq.
      - eapply issues_bind; [apply issues_call|].
        cbv zeta. apply issues_if; [|apply issues_ret].
        eapply issues_bind; [apply issues_call|].
        eapply issues_bind; [apply issues_call|apply issues_ret].
      - by destruct (isClear _). }
    eapply issues_bind.
    { instantiate (1 := bindClearCall rp rt). unfold bindClearCall.
      destruct (negb (bindClearMask rp rt =? 0)); [apply issues_call|apply issues_ret]. }
    apply issues_ret.
  - unfold bindSetupCalls, bindClearSetupCalls. fold rt. cbn [app].
    rewrite app_nil_r. f_equal. rewrite <- !app_assoc. reflexivity.
Qed.

Lemma elem_of_bindColorCalls_attach env mode rp k att tex index params :
  AttachAsColor tex index params ∈ bindColorCalls env mode rp (k, att) <->
  exists a,
    FramebufferDesc.texture att = Some tex /\
    RenderPassDesc.colorAttachments rp !! N.to_nat k = Some a /\
    index = to_uint32 k /\
    params = toAttachmentParams (RenderPassDesc.colorBase a) mode /\
    needsToBeReattached mode (RenderPassDesc.colorBase a) = true.
Proof.
  unfold bindColorCalls. cbn [fst snd].
  destruct (FramebufferDesc.texture att) as [tex'|].
  2:{ split; [intros H; by apply elem_of_nil in H|]. by intros (a & [=] & _). }
  split.
  - intros H. apply elem_of_app in H as [H|H].
    { destruct (negb _ && _); [|by apply elem_of_nil in H].
      apply list_elem_of_singleton in H. by destruct (TextureFormatProperties.isSRGB _). }
    destruct (RenderPassDesc.colorAttachments rp !! N.to_nat k) as [a|];
      [|by apply elem_of_nil in H].
    destruct (needsToBeReattached mode (RenderPassDesc.colorBase a)) eqn:E;
      [|by apply elem_of_nil in H].
    apply list_elem_of_singleton in H. injection H as -> -> ->. by exists a.
  - intros (a & [= ->] & -> & -> & -> & E). apply elem_of_app. right.
    rewrite E. by apply list_elem_of_singleton.
Qed.

Lemma elem_of_bindDepthCalls mode rp rt e :
  e ∈ bindDepthCalls mode rp rt <->
  exists tex,
    FramebufferDesc.texture (FramebufferDesc.depthAttachment rt) = Some tex /\
    e = AttachAsDepth tex
          (toAttachmentParams
             (RenderPassDesc.depthBase (RenderPassDesc.depthAttachment rp)) mode) /\
    needsToBeReattached mode
      (RenderPassDesc.depthBase (RenderPassDesc.depthAttachment rp)) = true.
Proof.
  unfold bindDepthCalls.
  destruct (FramebufferDesc.texture (FramebufferDesc.depthAttachment rt)) as [tex|].
  2:{ split; [intros H; by apply elem_of_nil in H|]. by intros (a & [=] & _). }
  cbv zeta. destruct (needsToBeReattached _ _).
  - rewrite list_elem_of_singleton. split; [intros ->; by exists tex|].
    by intros (tex' & [= <-] & -> & _).
  - split; [intros H; by apply elem_of_nil in H|]. by intros (tex' & _ & _ & [=]).
Qed.

(** The calls that prepare the clear are mask and clear-value calls. *)
Lemma elem_of_bindClearSetupCalls rp rt e :
  e ∈ bindClearSetupCalls rp rt ->
  match e with
  | ColorMask _ _ _ _ | ClearColor _ | DepthMask _ | ClearDepthf _
  | Enable _ | StencilMask _ | ClearStencil _ => True
  | _ => False
  end.
Proof.
  unfold bindClearSetupCalls. intros H.
  repeat match type of H with
         | _ ∈ _ ++ _ => apply elem_of_app in H as [H|H]
         | _ ∈ match ?x with _ => _ end => destruct x
         | _ ∈ _ :: _ => apply elem_of_cons in H as [->|H]
         | _ ∈ [] => by apply elem_of_nil in H
         end; done.
Qed.

Lemma elem_of_bindColorCalls_kind env mode rp x e :
  e ∈ bindColorCalls env mode rp x ->
  match e with
  | Enable _ | Disable _ | AttachAsColor _ _ _ => True
  | _ => False
  end.
Proof.
  unfold bindColorCalls. intros H.
  repeat match type of H with
         | _ ∈ _ ++ _ => apply elem_of_app in H as [H|H]
         | _ ∈ match ?x with _ => _ end => destruct x
         | _ ∈ [match ?x with _ => _ end] => destruct x
         | _ ∈ _ :: _ => apply elem_of_cons in H as [->|H]
         | _ ∈ [] => by apply elem_of_nil in H
         end; done.
Qed.

(** C5: when [bind] runs (the mode is not Multiview or the build passes over
    failed assertions, and the render pass has an entry for every colour
    attachment), it returns, and among the calls it makes there is a colour
    re-attachment for exactly the colour attachments with a texture for which
    the mode is Stereo or the render pass asks for a nonzero layer, face or mip
    level, with the parameters the render pass asks for; the same for the depth
    attachment; the stencil attachment is never re-attached.  An attachment
    for which none of these holds is left as [initialize] attached it. *)
Theorem C5_bind_reattaches_iff_requested env rp fb c :
  isMultiview (getMode fb) = false \/ assertionsAbort env = false ->
  renderPassCovers rp (renderTarget_ fb) = true ->
  exists c' new,
    bind env rp fb c = Done (setRenderPass rp fb) c' /\
    calls c' = calls c ++ new /\
    (forall tex index params,
       AttachAsColor tex index params ∈ new <->
       exists k att a,
         FramebufferDesc.colorAttachments (renderTarget_ fb) !! k = Some att /\
         FramebufferDesc.texture att = Some tex /\
         RenderPassDesc.colorAttachments rp !! N.to_nat k = Some a /\
         index = to_uint32 k /\
         params = toAttachmentParams (RenderPassDesc.colorBase a) (getMode fb) /\
         (getMode fb = Stereo \/ requestsNonDefault (RenderPassDesc.colorBase a))) /\
    (forall tex params,
       AttachAsDepth tex params ∈ new <->
       getDepthAttachment fb = Some tex /\
       params = toAttachmentParams
                  (RenderPassDesc.depthBase (RenderPassDesc.depthAttachment rp))
                  (getMode fb) /\
       (getMode fb = Stereo \/
        requestsNonDefault
          (RenderPassDesc.depthBase (RenderPassDesc.depthAttachment rp)))) /\
    (forall tex params, AttachAsStencil tex params ∉ new).
Proof.
  intros Hmode Hcover.
  destruct (issues_bind_calls env rp fb Hmode Hcover c) as (c' & Hrun & Hcalls).
  exists c', (bindSetupCalls env rp fb ++ bindClearCall rp (renderTarget_ fb)).
  split; [exact Hrun|]. split; [exact Hcalls|].
  unfold bindSetupCalls, bindClearCall, getMode, getDepthAttachment. cbv zeta.
  set (rt := renderTarget_ fb). set (mode := FramebufferDesc.mode rt).
  assert (forall e, e ∈ (if negb (bindClearMask rp rt =? 0)
                         then [Clear (bindClearMask rp rt)] else []) ->
                    e = Clear (bindClearMask rp rt)) as Hclear.
  { intros e H. destruct (negb _); [by apply list_elem_of_singleton in H|].
    by apply elem_of_nil in H. }
  split; [|split].
  - intros tex index params. rewrite <- !app_assoc, !elem_of_app. split.
    + intros [H|[H|[H|[H|H]]]].
      * by apply list_elem_of_singleton in H.
      * apply list_elem_of_bind in H as ([k att] & H & Hx).
        apply elem_of_map_to_list in Hx.
        apply elem_of_bindColorCalls_attach in H as (a & Htex & Ha & -> & -> & E).
        exists k, att, a. repeat (split; [done|]).
        by apply needsToBeReattached_true.
      * by apply elem_of_bindDepthCalls in H as (? & _ & [=] & _).
      * by apply elem_of_bindClearSetupCalls in H.
      * by apply Hclear in H.
    + intros (k & att & a & Hk & Htex & Ha & -> & -> & E).
      right; left. apply list_elem_of_bind. exists (k, att).
      split; [|by apply elem_of_map_to_list].
      apply elem_of_bindColorCalls_attach. exists a. repeat (split; [done|]).
      by apply needsToBeReattached_true.
  - intros tex params. rewrite <- !app_assoc, !elem_of_app. split.
    + intros [H|[H|[H|[H|H]]]].
      * by apply list_elem_of_singleton in H.
      * apply list_elem_of_bind in H as (x & H & Hx).
        by apply elem_of_bindColorCalls_kind in H.
      * apply elem_of_bindDepthCalls in H as (tex' & Htex & [= -> ->] & E).
        repeat (split; [done|]). by apply needsToBeReattached_true.
      * by apply elem_of_bindClearSetupCalls in H.
      * by apply Hclear in H.
    + intros (Htex & -> & E). right; right; left.
      apply elem_of_bindDepthCalls. exists tex. repeat (split; [done|]).
      by apply needsToBeReattached_true.
  - intros tex params H. rewrite <- !app_assoc, !elem_of_app in H.
    destruct H as [H|[H|[H|[H|H]]]].
    + by apply list_elem_of_singleton in H.
    + apply list_elem_of_bind in H as (x & H & Hx).
      by apply elem_of_bindColorCalls_kind in H.
    + by apply elem_of_bindDepthCalls in H as (? & _ & [=] & _).
    + by apply elem_of_bindClearSetupCalls in H.
    + by apply Hclear in H.
Qed.

Lemma C5_witness :
  exists c' new,
    bind releaseEnv someRenderPass someFramebuffer someContext
    = Done (setRenderPass someRenderPass someFramebuffer) c' /\
    calls c' = calls someContext ++ new /\
    AttachAsColor (rgbaTexture 12) 1
      {| Texture.face := 0; Texture.mipLevel := 0; Texture.layer := 2;
         Texture.read := false; Texture.stereo := false |} ∈ new /\
    AttachAsDepth (rgbaTexture 13)
      {| Texture.face := 0; Texture.mipLevel := 1; Texture.layer := 0;
         Texture.read := false; Texture.stereo := false |} ∈ new /\
    (forall tex params, AttachAsStencil tex params ∉ new).
Proof.
  destruct (C5_bind_reattaches_iff_requested releaseEnv someRenderPass
              someFramebuffer someContext)
    as (c' & new & Hrun & Hcalls & Hcolor & Hdepth & Hstencil).
  - left. reflexivity.
  - reflexivity.
  - exists c', new. split; [exact Hrun|]. split; [exact Hcalls|].
    split; [|split; [|exact Hstencil]].
    + apply Hcolor.
      exists 1, (attachment (Some (rgbaTexture 12)) None),
        {| RenderPassDesc.colorBase :=
             baseAttachment LoadAction_Load StoreAction_DontCare 2 0 0;
           RenderPassDesc.clearColor := black |}.
      repeat (split; [reflexivity|]). right. left. discriminate.
    + apply Hdepth. repeat (split; [reflexivity|]).
      right. right. right. discriminate.
Defined.

Lemma isClear_true a : isClear a = true <-> a = LoadAction_Clear.
Proof. by destruct a. Qed.

Lemma isStore_false a : isStore a = false <-> a <> StoreAction_Store.
Proof. by destruct a. Qed.

Lemma isSome_true {A} (o : option A) : isSome o = true <-> exists x, o = Some x.
Proof.
  destruct o as [x|]; cbn; split; try done.
  - intros _. by exists x.
  - by intros [x [=]].
Qed.

Lemma colorAttachment0Pass_Some rp rt a0 :
  colorAttachment0Pass rp rt = Some a0 <->
  exists att tex,
    FramebufferDesc.colorAttachments rt !! 0 = Some att /\
    FramebufferDesc.texture att = Some tex /\
    RenderPassDesc.colorAttachments rp !! 0%nat = Some a0.
Proof.
  unfold colorAttachment0Pass.
  destruct (FramebufferDesc.colorAttachments rt !! 0) as [att|].
  - destruct (FramebufferDesc.texture att) as [tex|] eqn:E; cbn.
    + split; [intros H; by exists att, tex|]. by intros (att' & tex' & [= <-] & _ & H).
    + split; [done|]. intros (att' & tex' & [= <-] & H & _). congruence.
  - split; [done|]. by intros (att' & tex' & [=] & _).
Qed.

Lemma colorCleared_true rp rt :
  colorCleared rp rt = true <->
  exists att tex a0,
    FramebufferDesc.colorAttachments rt !! 0 = Some att /\
    FramebufferDesc.texture att = Some tex /\
    RenderPassDesc.colorAttachments rp !! 0%nat = Some a0 /\
    RenderPassDesc.loadAction (RenderPassDesc.colorBase a0) = LoadAction_Clear.
Proof.
  unfold colorCleared. split.
  - destruct (colorAttachment0Pass rp rt) as [a0|] eqn:E; [|done].
    intros H. apply colorAttachment0Pass_Some in E as (att & tex & H1 & H2 & H3).
    exists att, tex, a0. by rewrite <- isClear_true.
  - intros (att & tex & a0 & H1 & H2 & H3 & H4).
    rewrite (proj2 (colorAttachment0Pass_Some rp rt a0)) by eauto.
    by apply isClear_true.
Qed.

Lemma depthCleared_true rp rt :
  depthCleared rp rt = true <->
  (exists tex, FramebufferDesc.texture (FramebufferDesc.depthAttachment rt) = Some tex) /\
  RenderPassDesc.loadAction
    (RenderPassDesc.depthBase (RenderPassDesc.depthAttachment rp)) = LoadAction_Clear.
Proof.
  unfold depthCleared. by rewrite andb_true_iff, isSome_true, isClear_true.
Qed.

Lemma stencilCleared_true rp rt :
  stencilCleared rp rt = true <->
  (exists tex, FramebufferDesc.texture (FramebufferDesc.stencilAttachment rt) = Some tex) /\
  RenderPassDesc.loadAction
    (RenderPassDesc.stencilBase (RenderPassDesc.stencilAttachment rp)) = LoadAction_Clear.
Proof.
  unfold stencilCleared. by rewrite andb_true_iff, isSome_true, isClear_true.
Qed.

(** The bits of the clear mask are the three decisions, one bit each. *)
Lemma bindClearMask_bits rp rt :
  (N.land (bindClearMask rp rt) GL.COLOR_BUFFER_BIT <> 0 <-> colorCleared rp rt = true) /\
  (N.land (bindClearMask rp rt) GL.DEPTH_BUFFER_BIT <> 0 <-> depthCleared rp rt = true) /\
  (N.land (bindClearMask rp rt) GL.STENCIL_BUFFER_BIT <> 0
   <-> stencilCleared rp rt = true) /\
  N.land (bindClearMask rp rt)
    (N.lor GL.COLOR_BUFFER_BIT (N.lor GL.DEPTH_BUFFER_BIT GL.STENCIL_BUFFER_BIT))
  = bindClearMask rp rt.
Proof.
  unfold bindClearMask.
  destruct (colorCleared rp rt), (depthCleared rp rt), (stencilCleared rp rt);
    vm_compute; repeat split; try done; intros H; by destruct H.
Qed.

(** C6: when [bind] runs (same conditions as for C5) it returns, and its
    calls end with one [clear] whose mask has the colour bit exactly when
    colour attachment 0 exists with a texture and the load action of the render
    pass for it is Clear, the depth bit exactly when the depth attachment
    exists and its load action is Clear, the stencil bit exactly when the
    stencil attachment exists and its load action is Clear, and no other bit;
    there is no [clear] call when the mask is 0, and none before the last
    call. *)
Theorem C6_bind_clears_iff_load_action_clear env rp fb c :
  isMultiview (getMode fb) = false \/ assertionsAbort env = false ->
  renderPassCovers rp (renderTarget_ fb) = true ->
  exists c' setup clearMask,
    bind env rp fb c = Done (setRenderPass rp fb) c' /\
    calls c' = calls c ++ setup ++ (if clearMask =? 0 then [] else [Clear clearMask]) /\
    (forall mask, Clear mask ∉ setup) /\
    (N.land clearMask GL.COLOR_BUFFER_BIT <> 0 <->
     exists att tex a0,
       FramebufferDesc.colorAttachments (renderTarget_ fb) !! 0 = Some att /\
       FramebufferDesc.texture att = Some tex /\
       RenderPassDesc.colorAttachments rp !! 0%nat = Some a0 /\
       RenderPassDesc.loadAction (RenderPassDesc.colorBase a0) = LoadAction_Clear) /\
    (N.land clearMask GL.DEPTH_BUFFER_BIT <> 0 <->
     (exists tex, getDepthAttachment fb = Some tex) /\
     RenderPassDesc.loadAction
       (RenderPassDesc.depthBase (RenderPassDesc.depthAttachment rp))
     = LoadAction_Clear) /\
    (N.land clearMask GL.STENCIL_BUFFER_BIT <> 0 <->
     (exists tex, getStencilAttachment fb = Some tex) /\
     RenderPassDesc.loadAction
       (RenderPassDesc.stencilBase (RenderPassDesc.stencilAttachment rp))
     = LoadAction_Clear) /\
    N.land clearMask
      (N.lor GL.COLOR_BUFFER_BIT (N.lor GL.DEPTH_BUFFER_BIT GL.STENCIL_BUFFER_BIT))
    = clearMask.
Proof.
  intros Hmode Hcover.
  destruct (issues_bind_calls env rp fb Hmode Hcover c) as (c' & Hrun & Hcalls).
  exists c', (bindSetupCalls env rp fb), (bindClearMask rp (renderTarget_ fb)).
  split; [exact Hrun|]. split.
  { rewrite Hcalls. unfold bindClearCall. by destruct (_ =? 0). }
  split.
  { intros mask H. unfold bindSetupCalls in H. cbv zeta in H.
    rewrite !elem_of_app in H. destruct H as [H|[H|[H|H]]].
    - by apply list_elem_of_singleton in H.
    - apply list_elem_of_bind in H as (x & H & _).
      by apply elem_of_bindColorCalls_kind in H.
    - by apply elem_of_bindDepthCalls in H as (? & _ & [=] & _).
    - by apply elem_of_bindClearSetupCalls in H. }
  destruct (bindClearMask_bits rp (renderTarget_ fb)) as (Hc & Hd & Hs & Hrest).
  unfold getDepthAttachment, getStencilAttachment.
  rewrite Hc, Hd, Hs, colorCleared_true, depthCleared_true, stencilCleared_true.
  done.
Qed.

Lemma C6_witness :
  exists c' setup clearMask,
    bind releaseEnv someRenderPass someFramebuffer someContext
    = Done (setRenderPass someRenderPass someFramebuffer) c' /\
    calls c' = calls someContext ++ setup
               ++ (if clearMask =? 0 then [] else [Clear clearMask]) /\
    N.land clearMask GL.COLOR_BUFFER_BIT <> 0 /\
    N.land clearMask GL.DEPTH_BUFFER_BIT <> 0 /\
    ~ N.land clearMask GL.STENCIL_BUFFER_BIT <> 0.
Proof.
  destruct (C6_bind_clears_iff_load_action_clear releaseEnv someRenderPass
              someFramebuffer someContext)
    as (c' & setup & clearMask & Hrun & Hcalls & _ & Hcolor & Hdepth & Hstencil & _);
    [left; reflexivity|reflexivity|].
  exists c', setup, clearMask. split; [exact Hrun|]. split; [exact Hcalls|].
  split; [|split].
  - apply Hcolor.
    exists (attachment (Some (rgbaTexture 10)) None), (rgbaTexture 10),
      {| RenderPassDesc.colorBase :=
           baseAttachment LoadAction_Clear StoreAction_Store 0 0 0;
         RenderPassDesc.clearColor := black |}.
    repeat split; reflexivity.
  - apply Hdepth. split; [by exists (rgbaTexture 13)|reflexivity].
  - intros H. apply Hstencil in H as [_ H]. discriminate H.
Defined.

(** ** unbind *)

(** What a returned [bind] leaves: the render pass is cached, and it has an
    entry 0 when colour attachment 0 exists with a texture. *)
Lemma bind_Done_cached env rp fb0 c0 fb c1 :
  bind env rp fb0 c0 = Done fb c1 ->
  fb = setRenderPass rp fb0 /\
  forall att,
    FramebufferDesc.colorAttachments (renderTarget_ fb0) !! 0 = Some att ->
    isSome (FramebufferDesc.texture att) = true ->
    is_Some (RenderPassDesc.colorAttachments rp !! 0%nat).
Proof.
  unfold bind. cbv zeta. intros H.
  change (renderTarget_ (setRenderPass rp fb0)) with (renderTarget_ fb0) in H.
  change (renderPass_ (setRenderPass rp fb0)) with rp in H.
  do 8 inv_bind H. cbv [mret M_ret] in H. injection H as <- <-.
  split; [reflexivity|]. intros att Hatt Htex.
  rewrite Hatt, Htex in Hm3. inv_bind Hm3.
  unfold vectorAt in Hm7. change (N.to_nat 0) with 0%nat in Hm7.
  destruct (RenderPassDesc.colorAttachments rp !! 0%nat) as [entry0|];
    [by eexists|].
  discriminate.
Qed.

Lemma issues_unbind env fb :
  (forall att,
     FramebufferDesc.colorAttachments (renderTarget_ fb) !! 0 = Some att ->
     isSome (FramebufferDesc.texture att) = true ->
     is_Some (RenderPassDesc.colorAttachments (renderPass_ fb) !! 0%nat)) ->
  issues (unbind env fb) tt (unbindCalls env (renderPass_ fb) (renderTarget_ fb)).
Proof.
  intros Hcover. unfold unbind, unbindCalls. cbv zeta.
  set (rt := renderTarget_ fb) in *. set (rp := renderPass_ fb) in *.
  eapply issues_eq.
  - eapply issues_bind.
    { instantiate (1 := []).
      instantiate (1 := match colorAttachment0Pass rp rt with
                        | Some a0 =>
                            if negb (isStore (RenderPassDesc.storeAction
                                                (RenderPassDesc.colorBase a0)))
                            then [GL.COLOR_ATTACHMENT0] else []
                        | None => []
                        end).
      unfold colorAttachment0Pass.
      destruct (FramebufferDesc.colorAttachments rt !! 0) as [att|] eqn:Hatt;
        [|apply issues_ret].
      destruct (isSome (FramebufferDesc.texture att)) eqn:Htex; [|apply issues_ret].
      destruct (Hcover att eq_refl Htex) as [a0 Ha0]. rewrite Ha0.
      eapply (issues_bind _ _ a0 _ [] []); [by apply issues_vectorAt|].
      destruct (negb _); apply issues_ret. }
    eapply issues_bind.
    { instantiate (1 := if isSome (FramebufferDesc.texture
                                     (FramebufferDesc.stencilAttachment rt))
                        then [Disable GL.STENCIL_TEST] else []).
      instantiate (1 := invalidateEntries rp rt).
      unfold invalidateEntries.
      destruct (isSome (FramebufferDesc.texture (FramebufferDesc.stencilAttachment rt)));
        cbn [andb].
      - eapply (issues_bind _ _ tt _ [_] []); [apply issues_call|].
        destruct (negb (isStore (RenderPassDesc.storeAction
                                   (RenderPassDesc.stencilBase _))));
          (eapply issues_eq_value; [apply issues_ret|]);
        destruct (isSome (FramebufferDesc.texture (FramebufferDesc.depthAttachment rt)));
          cbn [andb]; repeat destruct (negb _);
          rewrite ?app_nil_r, <- ?app_assoc; reflexivity.
      - eapply issues_eq_value; [apply issues_ret|].
        destruct (isSome (FramebufferDesc.texture (FramebufferDesc.depthAttachment rt)));
          cbn [andb]; repeat destruct (negb _);
          rewrite ?app_nil_r, <- ?app_assoc; reflexivity. }
    instantiate (1 := if InvalidateFramebufferFeature env
                         && (0 <? length (invalidateEntries rp rt))%nat
                      then [InvalidateFramebuffer GL.FRAMEBUFFER (invalidateEntries rp rt)]
                      else []).
    destruct (0 <? length (invalidateEntries rp rt))%nat;
      [|rewrite andb_false_r; apply issues_ret].
    rewrite andb_true_r.
    destruct (InvalidateFramebufferFeature env); [apply issues_call|apply issues_ret].
  - reflexivity.
Qed.

(** The entries are at most one of each kind, decided separately. *)
Lemma invalidateEntries_cases rp rt :
  exists color depth stencil : bool,
    invalidateEntries rp rt
    = (if color then [GL.COLOR_ATTACHMENT0] else [])
      ++ (if depth then [GL.DEPTH_ATTACHMENT] else [])
      ++ (if stencil then [GL.STENCIL_ATTACHMENT] else []) /\
    (color = true <->
     exists att tex a0,
       FramebufferDesc.colorAttachments rt !! 0 = Some att /\
       FramebufferDesc.texture att = Some tex /\
       RenderPassDesc.colorAttachments rp !! 0%nat = Some a0 /\
       RenderPassDesc.storeAction (RenderPassDesc.colorBase a0) <> StoreAction_Store) /\
    (depth = true <->
     (exists tex, FramebufferDesc.texture (FramebufferDesc.depthAttachment rt) = Some tex) /\
     RenderPassDesc.storeAction
       (RenderPassDesc.depthBase (RenderPassDesc.depthAttachment rp))
     <> StoreAction_Store) /\
    (stencil = true <->
     (exists tex, FramebufferDesc.texture (FramebufferDesc.stencilAttachment rt) = Some tex) /\
     RenderPassDesc.storeAction
       (RenderPassDesc.stencilBase (RenderPassDesc.stencilAttachment rp))
     <> StoreAction_Store).
Proof.
  exists (match colorAttachment0Pass rp rt with
          | Some a0 => negb (isStore (RenderPassDesc.storeAction
                                        (RenderPassDesc.colorBase a0)))
          | None => false
          end),
    (isSome (FramebufferDesc.texture (FramebufferDesc.depthAttachment rt))
     && negb (isStore (RenderPassDesc.storeAction
                         (RenderPassDesc.depthBase (RenderPassDesc.depthAttachment rp))))),
    (isSome (FramebufferDesc.texture (FramebufferDesc.stencilAttachment rt))
     && negb (isStore (RenderPassDesc.storeAction
                         (RenderPassDesc.stencilBase (RenderPassDesc.stencilAttachment rp))))).
  split; [|split; [|split]].
  - unfold invalidateEntries. f_equal.
    destruct (colorAttachment0Pass rp rt) as [a0|]; [|reflexivity].
    by destruct (negb _).
  - destruct (colorAttachment0Pass rp rt) as [a0|] eqn:E.
    + apply colorAttachment0Pass_Some in E as (att & tex & H1 & H2 & H3).
      rewrite negb_true_iff, isStore_false. split.
      * intros H. by exists att, tex, a0.
      * intros (att' & tex' & a0' & _ & _ & H3' & H). congruence.
    + split; [done|]. intros (att & tex & a0 & H1 & H2 & H3 & _).
      rewrite (proj2 (colorAttachment0Pass_Some rp rt a0)) in E by eauto.
      discriminate.
  - by rewrite andb_true_iff, isSome_true, negb_true_iff, isStore_false.
  - by rewrite andb_true_iff, isSome_true, negb_true_iff, isStore_false.
Qed.

Lemma invalidateEntries_shape (color depth stencil : bool) :
  let entries :=
    (if color then [GL.COLOR_ATTACHMENT0] else [])
    ++ (if depth then [GL.DEPTH_ATTACHMENT] else [])
    ++ (if stencil then [GL.STENCIL_ATTACHMENT] else []) in
  NoDup entries /\
  (forall e, e ∈ entries ->
     e = GL.COLOR_ATTACHMENT0 \/ e = GL.DEPTH_ATTACHMENT \/ e = GL.STENCIL_ATTACHMENT) /\
  (GL.COLOR_ATTACHMENT0 ∈ entries <-> color = true) /\
  (GL.DEPTH_ATTACHMENT ∈ entries <-> depth = true) /\
  (GL.STENCIL_ATTACHMENT ∈ entries <-> stencil = true).
Proof.
  destruct color, depth, stencil; cbn; split; try by apply (bool_decide_unpack _).
  all: split; [intros e; rewrite ?elem_of_cons, ?elem_of_nil; tauto|].
  all: rewrite ?elem_of_cons, ?elem_of_nil; vm_compute.
  all: repeat split; intros H; first [reflexivity|discriminate H|lia].
Qed.

(** C4: on a framebuffer that [bind] has bound, [unbind] returns; the list
    it builds has no entry twice, has the entry of colour attachment 0 (of
    the depth attachment, of the stencil attachment) exactly when that
    attachment exists with a texture and the store action of the render pass
    for it is not Store, and has no other entry; [invalidateFramebuffer] is
    called once with this list when the list is not empty and the backend has
    the invalidate capability, and is not called otherwise.  The only other
    call is the [disable] of the stencil test. *)
Theorem C4_unbind_invalidates_unless_stored env rp fb0 c0 fb c1 c :
  bind env rp fb0 c0 = Done fb c1 ->
  exists c' new entries,
    unbind env fb c = Done tt c' /\
    calls c' = calls c ++ new /\
    new = (if isSome (getStencilAttachment fb) then [Disable GL.STENCIL_TEST] else [])
          ++ (if InvalidateFramebufferFeature env && (0 <? length entries)%nat
              then [InvalidateFramebuffer GL.FRAMEBUFFER entries] else []) /\
    (InvalidateFramebufferFeature env = false ->
     forall target attachments, InvalidateFramebuffer target attachments ∉ new) /\
    NoDup entries /\
    (forall e, e ∈ entries ->
       e = GL.COLOR_ATTACHMENT0 \/ e = GL.DEPTH_ATTACHMENT \/ e = GL.STENCIL_ATTACHMENT) /\
    (GL.COLOR_ATTACHMENT0 ∈ entries <->
     exists att tex a0,
       FramebufferDesc.colorAttachments (renderTarget_ fb) !! 0 = Some att /\
       FramebufferDesc.texture att = Some tex /\
       RenderPassDesc.colorAttachments rp !! 0%nat = Some a0 /\
       RenderPassDesc.storeAction (RenderPassDesc.colorBase a0) <> StoreAction_Store) /\
    (GL.DEPTH_ATTACHMENT ∈ entries <->
     (exists tex, getDepthAttachment fb = Some tex) /\
     RenderPassDesc.storeAction
       (RenderPassDesc.depthBase (RenderPassDesc.depthAttachment rp))
     <> StoreAction_Store) /\
    (GL.STENCIL_ATTACHMENT ∈ entries <->
     (exists tex, getStencilAttachment fb = Some tex) /\
     RenderPassDesc.storeAction
       (RenderPassDesc.stencilBase (RenderPassDesc.stencilAttachment rp))
     <> StoreAction_Store).
Proof.
  intros Hbind. apply bind_Done_cached in Hbind as [-> Hcover].
  destruct (issues_unbind env (setRenderPass rp fb0) Hcover c) as (c' & Hrun & Hcalls).
  change (renderPass_ (setRenderPass rp fb0)) with rp in Hcalls.
  change (renderTarget_ (setRenderPass rp fb0)) with (renderTarget_ fb0) in *.
  unfold getDepthAttachment, getStencilAttachment.
  change (renderTarget_ (setRenderPass rp fb0)) with (renderTarget_ fb0).
  exists c', (unbindCalls env rp (renderTarget_ fb0)),
    (invalidateEntries rp (renderTarget_ fb0)).
  split; [exact Hrun|]. split; [exact Hcalls|]. split; [reflexivity|]. split.
  { intros Hfeature target attachments H. unfold unbindCalls in H.
    rewrite Hfeature in H. cbn [andb] in H. rewrite app_nil_r in H.
    destruct (isSome _); [|by apply elem_of_nil in H].
    by apply list_elem_of_singleton in H. }
  destruct (invalidateEntries_cases rp (renderTarget_ fb0))
    as (color & depth & stencil & -> & Hc & Hd & Hs).
  destruct (invalidateEntries_shape color depth stencil)
    as (Hnodup & Hkinds & Hc' & Hd' & Hs').
  rewrite <- Hc, <- Hd, <- Hs. done.
Qed.

Lemma C4_witness :
  exists c' new,
    unbind es2IncompleteEnv (setRenderPass someRenderPass someFramebuffer)
      es2ContextAfterBind = Done tt c' /\
    calls c' = calls es2ContextAfterBind ++ new /\
    (forall target attachments, InvalidateFramebuffer target attachments ∉ new).
Proof.
  destruct (C4_unbind_invalidates_unless_stored es2IncompleteEnv someRenderPass
              someFramebuffer someContext
              (setRenderPass someRenderPass someFramebuffer)
              es2ContextAfterBind es2ContextAfterBind)
    as (c' & new & entries & Hrun & Hcalls & _ & Hnone & _).
  - vm_compute. reflexivity.
  - exists c', new. split; [exact Hrun|]. split; [exact Hcalls|].
    apply Hnone. reflexivity.
Defined.

(** With the invalidate capability, for the render pass above: colour 0 is
    stored, depth is discarded, stencil is stored. *)
Example unbind_invalidates_depth_only :
  exists fb c1 c',
    bind releaseEnv someRenderPass someFramebuffer someContext = Done fb c1 /\
    unbind releaseEnv fb c1 = Done tt c' /\
    calls c' = calls c1 ++ [Disable GL.STENCIL_TEST;
                            InvalidateFramebuffer GL.FRAMEBUFFER [GL.DEPTH_ATTACHMENT]].
Proof.
  eexists _, _, _. split; [vm_compute; reflexivity|].
  split; vm_compute; reflexivity.
Qed.

(** ** Assertions on preconditions *)

Lemma logGrows_ret {A} (a : A) : logGrows (mret a).
Proof. intros c. exists []. by rewrite app_nil_r. Qed.

Lemma logGrows_stop {A} k : logGrows (@stop A k).
Proof. intros c. exists []. by rewrite app_nil_r. Qed.

Lemma logGrows_bind {A B} (m : M A) (f : A -> M B) :
  logGrows m -> (forall a, logGrows (f a)) -> logGrows (m ≫= f).
Proof.
  intros Hm Hf c. rewrite run_bind. destruct (Hm c) as [r1 H1].
  destruct (m c) as [a c1|k c1]; cbn in *.
  - destruct (Hf a c1) as [r2 H2]. exists (r1 ++ r2). by rewrite H2, H1, app_assoc.
  - by exists r1.
Qed.

Lemma logGrows_call e : logGrows (call e).
Proof. intros c. exists []. by rewrite app_nil_r. Qed.

Lemma logGrows_bindFramebuffer target fb : logGrows (bindFramebuffer target fb).
Proof.
  intros c. exists []. rewrite app_nil_r. unfold bindFramebuffer. cbn.
  by repeat match goal with |- context [if ?b then _ else _] => destruct b end.
Qed.

Lemma logGrows_IGL_ASSERT_MSG env cond msg : logGrows (IGL_ASSERT_MSG env cond msg).
Proof.
  intros c. unfold IGL_ASSERT_MSG. destruct cond; [exists []; by rewrite app_nil_r|].
  exists [msg]. by destruct (assertionsAbort env).
Qed.

Lemma logGrows_vectorAt {A} (v : list A) i : logGrows (vectorAt v i).
Proof.
  unfold vectorAt. destruct (v !! N.to_nat i); [apply logGrows_ret|apply logGrows_stop].
Qed.

Lemma logGrows_forEach {A} (l : list A) (body : A -> M unit) :
  (forall x, logGrows (body x)) -> logGrows (forEach l body).
Proof.
  intros Hb. induction l as [|x l IH]; cbn [forEach].
  - apply logGrows_ret.
  - apply logGrows_bind; [apply Hb|intros _; exact IH].
Qed.

Ltac logGrows_step :=
  first
    [ apply logGrows_ret
    | apply logGrows_call
    | apply logGrows_bindFramebuffer
    | apply logGrows_IGL_ASSERT_MSG
    | apply logGrows_vectorAt
    | apply logGrows_bind; [|intros ?]
    | match goal with
      | |- logGrows (if ?b then _ else _) => destruct b
      | |- logGrows (match ?o with _ => _ end) => destruct o
      end ].

(** [bind] is its first assertion followed by a run that only adds to the
    record of failed assertions. *)
Lemma bind_after_assertion env rp fb :
  exists rest : M CustomFramebuffer,
    logGrows rest /\
    forall c,
      bind env rp fb c
      = (IGL_ASSERT_MSG env (negb (isMultiview (getMode fb)))
           "FramebufferMode::Multiview not supported";; rest) c.
Proof.
  eexists. split; cycle 1.
  - intros c. unfold bind. cbv zeta. reflexivity.
  - unfold bindBuffer, attachAsDepth.
    apply logGrows_bind; [apply logGrows_bindFramebuffer|intros _].
    apply logGrows_bind.
    { apply logGrows_forEach. intros [k att]. unfold bindColorAttachment, IGL_ASSERT.
      cbn [fst snd]. repeat logGrows_step. }
    intros _. repeat logGrows_step.
Qed.

(** A readback from attachment 0 does read pixels. *)
Example copyBytesColorAttachment_index0 :
  exists pixels c',
    copyBytesColorAttachment releaseEnv someFramebuffer 0 [7; 7; 7; 7]
      TextureRangeDesc.default 0 someContext = Done pixels c' /\
    ReadPixels 0 0 1 1 GL.RGBA GL.UNSIGNED_BYTE ∈ calls c' /\
    renderbufferBinding c' = 7 /\ drawFramebufferBinding c' = 5.
Proof.
  eexists _, _. split; [vm_compute; reflexivity|].
  split; [|split; reflexivity].
  apply list_elem_of_In. cbn. tauto.
Qed.

(** * Further properties *)

(** ** Flags of a format and usage of a texture *)

Lemma shiftl_1_pow2 k : N.shiftl 1 k = 2 ^ k.
Proof. by rewrite N.shiftl_mul_pow2, N.mul_1_l. Qed.

(** Masking with one bit tests that bit. *)
Lemma land_bit_eqb_0 a k : (N.land a (N.shiftl 1 k) =? 0) = negb (N.testbit a k).
Proof.
  rewrite shiftl_1_pow2. destruct (N.testbit a k) eqn:E; cbn.
  - apply N.eqb_neq. intros H.
    assert (N.testbit (N.land a (2 ^ k)) k = true) as Hk.
    { by rewrite N.land_spec, E, N.pow2_bits_true. }
    rewrite H in Hk. by rewrite N.bits_0 in Hk.
  - apply N.eqb_eq, N.bits_inj_0. intros i. rewrite N.land_spec, N.pow2_bits_eqb.
    destruct (N.eqb_spec k i) as [<-|_]; [by rewrite E|apply andb_false_r].
Qed.

Lemma land_3_eqb_0 a :
  (N.land a 3 =? 0) = negb (N.testbit a 0) && negb (N.testbit a 1).
Proof.
  destruct (N.testbit a 0) eqn:E0; cbn.
  - apply N.eqb_neq. intros H.
    assert (N.testbit (N.land a 3) 0 = true) as Hk by (by rewrite N.land_spec, E0).
    rewrite H in Hk. by rewrite N.bits_0 in Hk.
  - destruct (N.testbit a 1) eqn:E1; cbn.
    + apply N.eqb_neq. intros H.
      assert (N.testbit (N.land a 3) 1 = true) as Hk by (by rewrite N.land_spec, E1).
      rewrite H in Hk. by rewrite N.bits_0 in Hk.
    + apply N.eqb_eq, N.bits_inj_0. intros i. rewrite N.land_spec.
      destruct (N.eq_dec i 0) as [->|H0]; [by rewrite E0|].
      destruct (N.eq_dec i 1) as [->|H1]; [by rewrite E1|].
      change 3 with (N.ones 2). rewrite N.ones_spec_high by lia. apply andb_false_r.
Qed.

(** X1: each predicate of a format reads its own bits of [flags] and no
    other: a format is depth-only, stencil-only, depth-and-stencil or neither,
    never two of these, whatever its Compressed, sRGB and Integer bits. *)
Theorem X1_format_flag_predicates p :
  let flags := TextureFormatProperties.flags p in
  TextureFormatProperties.isCompressed p = N.testbit flags 2 /\
  TextureFormatProperties.isSRGB p = N.testbit flags 3 /\
  isDepthOnly p = N.testbit flags 0 && negb (N.testbit flags 1) /\
  isStencilOnly p = negb (N.testbit flags 0) && N.testbit flags 1 /\
  TextureFormatProperties.isDepthOrStencil p
  = isDepthOnly p || isStencilOnly p || (N.testbit flags 0 && N.testbit flags 1) /\
  isDepthOnly p && isStencilOnly p = false.
Proof.
  cbv zeta. unfold TextureFormatProperties.isCompressed, TextureFormatProperties.isSRGB,
    isDepthOnly, isStencilOnly, TextureFormatProperties.isDepthOrStencil,
    TextureFormatProperties.Compressed, TextureFormatProperties.sRGB,
    TextureFormatProperties.Depth, TextureFormatProperties.Stencil.
  rewrite !land_bit_eqb_0, !negb_involutive.
  by destruct (N.testbit _ 0), (N.testbit _ 1).
Qed.

(** X2: a texture supports upload exactly when its usage has the Sampled or
    the Storage bit and its format has neither the Depth nor the Stencil flag;
    the Attachment bit and every other bit of the usage are immaterial, so a
    texture that is only an attachment never supports upload. *)
Theorem X2_supportsUpload_bits usage p :
  supportsUpload usage p
  = (N.testbit usage 0 || N.testbit usage 1)
    && negb (N.testbit (TextureFormatProperties.flags p) 0)
    && negb (N.testbit (TextureFormatProperties.flags p) 1) /\
  supportsUpload TextureUsageBits.Attachment p = false.
Proof.
  assert (forall u, supportsUpload u p
          = (N.testbit u 0 || N.testbit u 1)
            && negb (N.testbit (TextureFormatProperties.flags p) 0)
            && negb (N.testbit (TextureFormatProperties.flags p) 1)) as H.
  { intros u. unfold supportsUpload, TextureFormatProperties.isDepthOrStencil,
      TextureFormatProperties.Depth, TextureFormatProperties.Stencil.
    change (N.lor TextureUsageBits.Sampled TextureUsageBits.Storage) with 3.
    rewrite land_3_eqb_0, !land_bit_eqb_0, !negb_involutive.
    by destruct (N.testbit u 0), (N.testbit u 1), (N.testbit _ 0), (N.testbit _ 1). }
  split; [apply H|]. by rewrite H.
Qed.

(** ** Accessors *)

(** X4: [getColorAttachmentIndices] lists every key of the attachment map
    once, also the keys whose entry has no texture; an index at which
    [getColorAttachment] finds a texture is always listed. *)
Theorem X4_getColorAttachmentIndices fb :
  NoDup (getColorAttachmentIndices fb) /\
  (forall i, i ∈ getColorAttachmentIndices fb <->
             is_Some (FramebufferDesc.colorAttachments (renderTarget_ fb) !! i)) /\
  (forall i, is_Some (getColorAttachment fb i) -> i ∈ getColorAttachmentIndices fb) /\
  length (getColorAttachmentIndices fb)
  = size (FramebufferDesc.colorAttachments (renderTarget_ fb)).
Proof.
  unfold getColorAttachmentIndices.
  assert (forall i, i ∈ (map_to_list
                           (FramebufferDesc.colorAttachments (renderTarget_ fb))).*1 <->
                    is_Some (FramebufferDesc.colorAttachments (renderTarget_ fb) !! i)) as H.
  { intros i. rewrite list_elem_of_fmap. split.
    - intros ([k a] & -> & Hx). apply elem_of_map_to_list in Hx. by exists a.
    - intros [a Ha]. exists (i, a). split; [done|]. by apply elem_of_map_to_list. }
  split; [apply NoDup_fst_map_to_list|]. split; [exact H|]. split.
  - intros i [tex Htex]. apply H. unfold getColorAttachment in Htex.
    destruct (_ !! i); [by eexists|discriminate].
  - by rewrite length_fmap, length_map_to_list.
Qed.

(** ** The calls a run adds *)

Lemma emits_ret {A} P (a : A) : emits P (mret a).
Proof. intros c. exists []. by rewrite app_nil_r. Qed.

Lemma emits_stop {A} P k : emits P (@stop A k).
Proof. intros c. exists []. by rewrite app_nil_r. Qed.

Lemma emits_bind {A B} P (m : M A) (f : A -> M B) :
  emits P m -> (forall a, emits P (f a)) -> emits P (m ≫= f).
Proof.
  intros Hm Hf c. rewrite run_bind. destruct (Hm c) as (n1 & H1 & HP1).
  destruct (m c) as [a c1|k c1]; cbn in *.
  - destruct (Hf a c1) as (n2 & H2 & HP2). exists (n1 ++ n2).
    split; [by rewrite H2, H1, app_assoc|by apply Forall_app].
  - by exists n1.
Qed.

Lemma emits_weaken {A} (P Q : GLCall -> Prop) (m : M A) :
  (forall e, P e -> Q e) -> emits P m -> emits Q m.
Proof.
  intros HPQ Hm c. destruct (Hm c) as (new & H & HP). exists new.
  split; [done|]. eapply Forall_impl; eauto.
Qed.

Lemma emits_one {A} P (m : M A) e :
  (forall c, calls (finalContext (m c)) = calls c ++ [e]) -> P e -> emits P m.
Proof. intros H HP c. exists [e]. split; [apply H|by constructor]. Qed.

Lemma emits_call P e : P e -> emits P (call e).
Proof. by apply emits_one. Qed.

Lemma emits_getIntegerv P pname : P (GetIntegerv pname) -> emits P (getIntegerv pname).
Proof. by apply emits_one. Qed.

Lemma emits_bindFramebuffer P target fb :
  P (BindFramebuffer target fb) -> emits P (bindFramebuffer target fb).
Proof.
  apply emits_one. intros c. unfold bindFramebuffer. cbn.
  by repeat match goal with |- context [if ?b then _ else _] => destruct b end.
Qed.

Lemma emits_bindRenderbuffer P target rb :
  P (BindRenderbuffer target rb) -> emits P (bindRenderbuffer target rb).
Proof. by apply emits_one. Qed.

Lemma emits_checkFramebufferStatus P env read :
  (forall target, P (CheckFramebufferStatus target)) ->
  emits P (checkFramebufferStatus env read).
Proof. intros H. eapply emits_one; [|apply H]. intros c. reflexivity. Qed.

Lemma emits_genFramebuffers P :
  (forall n, P (GenFramebuffers n)) -> emits P genFramebuffers.
Proof. intros H c. exists [GenFramebuffers (lastFramebufferName c + 1)]. split; [done|]. by constructor. Qed.

Lemma emits_deleteFramebuffers P fb :
  P (DeleteFramebuffers fb) -> emits P (deleteFramebuffers fb).
Proof. by apply emits_one. Qed.

Lemma emits_IGL_ASSERT_MSG P env cond msg : emits P (IGL_ASSERT_MSG env cond msg).
Proof.
  intros c. exists []. rewrite app_nil_r. split; [|done].
  unfold IGL_ASSERT_MSG. by destruct cond, (assertionsAbort env).
Qed.

Lemma emits_vectorAt {A} P (v : list A) i : emits P (vectorAt v i).
Proof.
  unfold vectorAt. destruct (v !! N.to_nat i); [apply emits_ret|apply emits_stop].
Qed.

Lemma emits_forEach {A} P (l : list A) (body : A -> M unit) :
  (forall x, emits P (body x)) -> emits P (forEach l body).
Proof.
  intros Hb. induction l as [|x l IH]; cbn [forEach].
  - apply emits_ret.
  - apply emits_bind; [apply Hb|intros _; exact IH].
Qed.

Lemma emits_foldM {A S} P (l : list A) (body : S -> A -> M S) s :
  (forall s x, emits P (body s x)) -> emits P (foldM l body s).
Proof.
  intros Hb. revert s. induction l as [|x l IH]; intros s; cbn [foldM].
  - apply emits_ret.
  - apply emits_bind; [apply Hb|apply IH].
Qed.

Lemma emits_newFramebufferBindingGuard P env :
  (forall e, isBindingCall e -> P e) -> emits P (newFramebufferBindingGuard env).
Proof.
  intros HP. unfold newFramebufferBindingGuard.
  apply emits_bind; [apply emits_getIntegerv; by apply HP|intros rb].
  destruct (ReadWriteFramebuffer env).
  - apply emits_bind; [apply emits_checkFramebufferStatus; intros; by apply HP|intros r1].
    apply emits_bind.
    { destruct (Result.isOk r1); [apply emits_getIntegerv; by apply HP|apply emits_ret]. }
    intros v1.
    apply emits_bind; [apply emits_checkFramebufferStatus; intros; by apply HP|intros r2].
    apply emits_bind; [|intros; apply emits_ret].
    destruct (Result.isOk r2); [apply emits_getIntegerv; by apply HP|apply emits_ret].
  - apply emits_bind; [apply emits_checkFramebufferStatus; intros; by apply HP|intros r1].
    apply emits_bind; [|intros; apply emits_ret].
    destruct (Result.isOk r1); [apply emits_getIntegerv; by apply HP|apply emits_ret].
Qed.

Lemma emits_deleteFramebufferBindingGuard P env g :
  (forall e, isBindingCall e -> P e) -> emits P (deleteFramebufferBindingGuard env g).
Proof.
  intros HP. unfold deleteFramebufferBindingGuard.
  apply emits_bind; [|intros _; apply emits_bindRenderbuffer; by apply HP].
  destruct (ReadWriteFramebuffer env).
  - apply emits_bind; [|intros _]; apply emits_bindFramebuffer; by apply HP.
  - apply emits_bindFramebuffer; by apply HP.
Qed.

Lemma emits_leaving {A} P (body : M A) d :
  emits P body -> emits P d -> emits P (leaving body d).
Proof.
  intros Hb Hd c. destruct (Hb c) as (n1 & H1 & HP1). unfold leaving.
  destruct (body c) as [a c1|k c1]; cbn in H1.
  - destruct (emits_bind P d (fun _ => mret a) Hd (fun _ => emits_ret P a) c1)
      as (n2 & H2 & HP2).
    exists (n1 ++ n2). split; [by rewrite H2, H1, app_assoc|by apply Forall_app].
  - destruct k; try (by exists n1).
    destruct (emits_bind P d (fun _ => stop (Exception what) : M A) Hd
                (fun _ => emits_stop P (Exception what)) c1) as (n2 & H2 & HP2).
    exists (n1 ++ n2). split; [by rewrite H2, H1, app_assoc|by apply Forall_app].
Qed.

Lemma emits_withFramebufferBindingGuard {A} P env (body : M A) :
  (forall e, isBindingCall e -> P e) -> emits P body ->
  emits P (withFramebufferBindingGuard env body).
Proof.
  intros HP Hb. unfold withFramebufferBindingGuard.
  apply emits_bind; [by apply emits_newFramebufferBindingGuard|intros g].
  apply emits_leaving; [exact Hb|by apply emits_deleteFramebufferBindingGuard].
Qed.

(** ** More on initialize *)

(** Every call that is not [drawBuffers] passes the test on draw buffers. *)
Lemma initializeCall_binding e : isBindingCall e -> initializeCall e.
Proof. by destruct e. Qed.

Lemma emits_prepareResource_calls env f outResult fb :
  (forall d r cfb, emits initializeCall (f d r cfb)) ->
  emits initializeCall (prepareResource env f outResult fb).
Proof.
  intros Hf. unfold prepareResource.
  apply emits_bind; [by apply emits_genFramebuffers|intros id]. cbv zeta.
  apply emits_bind; [by apply emits_bindFramebuffer|intros _].
  apply emits_bind.
  { apply emits_foldM. intros s [k a]. cbn [fst snd].
    destruct (FramebufferDesc.texture a); [|apply emits_ret].
    apply emits_bind; [by apply emits_call|intros _; apply emits_ret]. }
  intros drawBuffers. apply emits_bind.
  { destruct (1 <? length (merge_sort N.le drawBuffers))%nat eqn:E; [|apply emits_ret].
    apply emits_call. split; [apply Sorted_merge_sort, _|by apply Nat.ltb_lt]. }
  intros _. apply emits_bind.
  { destruct (FramebufferDesc.texture _); [by apply emits_call|apply emits_ret]. }
  intros _. apply emits_bind.
  { destruct (FramebufferDesc.texture _); [by apply emits_call|apply emits_ret]. }
  intros _. apply emits_bind; [by apply emits_checkFramebufferStatus|intros result].
  apply emits_bind; [apply emits_IGL_ASSERT_MSG|intros _].
  destruct (negb (Result.isOk result)); [apply emits_ret|].
  destruct (collectResolve _) as [createResolveFramebuffer resolveColorAttachments].
  destruct (createResolveFramebuffer && _).
  { apply emits_bind; [apply emits_IGL_ASSERT_MSG|intros _; apply emits_ret]. }
  match goal with |- emits _ (if ?b then _ else _) => destruct b end; [|apply emits_ret].
  apply emits_bind; [apply Hf|intros [childResult cfb]; apply emits_ret].
Qed.

Lemma emits_initializeFuel_calls env fuel desc outResult fb :
  emits initializeCall (initializeFuel env fuel desc outResult fb).
Proof.
  revert desc outResult fb. induction fuel as [|fuel IH]; intros desc outResult fb.
  { apply emits_stop. }
  intros c. rewrite initializeFuel_S. revert c.
  destruct (IGL_UNEXPECTED (isInitialized fb)); [apply emits_ret|].
  apply emits_withFramebufferBindingGuard; [apply initializeCall_binding|].
  apply emits_bind.
  { destruct (_ && _); [by apply emits_call|apply emits_ret]. }
  intros _. destruct (hasImplicitColorAttachment _); [apply emits_ret|].
  by apply emits_prepareResource_calls.
Qed.

(** X5: whatever [initialize] is called on and however it ends (also for the
    resolve framebuffer it initializes in turn), its calls are added after
    those made before, and each is a query or a binding of the guard, the
    label, the generation of a framebuffer name, an attach call, or a
    [drawBuffers] call that passes at least two buffers, sorted in ascending
    order: it never deletes a framebuffer, clears or reads pixels. *)
Theorem X5_initialize_calls env desc outResult fb c :
  exists new,
    calls (finalContext (initialize env desc outResult fb c)) = calls c ++ new /\
    Forall initializeCall new.
Proof. apply emits_initializeFuel_calls. Qed.

Lemma startsWith_step {A B} (m : M A) (k : A -> M B) c a c1 l1 l2 :
  m c = Done a c1 -> calls c1 = calls c ++ l1 ->
  startsWith (k a) c1 l2 -> startsWith (m ≫= k) c (l1 ++ l2).
Proof.
  intros Hm Hc [rest H]. exists rest. rewrite (bind_Done _ _ _ _ _ Hm), H, Hc.
  by rewrite <- !app_assoc.
Qed.

Lemma startsWith_emits {A} (m : M A) c : emits anyCall m -> startsWith m c [].
Proof. intros H. destruct (H c) as (new & Hn & _). by exists new. Qed.

Lemma startsWith_then {A B} (m : M A) (k : A -> M B) c l :
  startsWith m c l -> (forall a, emits anyCall (k a)) -> startsWith (m ≫= k) c l.
Proof.
  intros [rest H] Hk. unfold startsWith. rewrite run_bind.
  destruct (m c) as [a c1|f c1]; cbn in *; [|by exists rest].
  destruct (Hk a c1) as (new & Hn & _). exists (rest ++ new).
  by rewrite Hn, H, <- !app_assoc.
Qed.

Lemma emits_any {A} P (m : M A) : emits P m -> emits anyCall m.
Proof. by apply emits_weaken. Qed.

(** The first loop of [prepareResource] returns the buffers of the attachments
    with a texture, after as many attach calls. *)
Lemma attachColorAttachments_run l params drawBuffers c :
  exists c',
    foldM l
      (fun (drawBuffers : list N) (colorAttachment : N * FramebufferDesc.AttachmentDesc) =>
         match FramebufferDesc.texture colorAttachment.2 with
         | Some colorAttachmentTexture =>
             attachAsColor colorAttachmentTexture (to_uint32 colorAttachment.1) params;;
             mret (drawBuffers ++ [to_uint32 (GL.COLOR_ATTACHMENT0 + colorAttachment.1)])
         | None => mret drawBuffers
         end) drawBuffers c
    = Done (drawBuffers ++ colorDrawBuffers l) c' /\
    calls c' = calls c ++ colorAttachCalls params l.
Proof.
  revert drawBuffers c. induction l as [|[k a] l IH]; intros drawBuffers c.
  { exists c. cbn. by rewrite !app_nil_r. }
  cbn [foldM fst snd]. unfold colorDrawBuffers, colorAttachCalls.
  rewrite !bind_cons. cbn [fst snd]. fold (colorDrawBuffers l) (colorAttachCalls params l).
  destruct (FramebufferDesc.texture a) as [tex|]; cbn [isSome].
  - destruct (IH (drawBuffers ++ [to_uint32 (GL.COLOR_ATTACHMENT0 + k)])
                 (recordCall (AttachAsColor tex (to_uint32 k) params) c))
      as (c' & Hrun & Hcalls).
    exists c'. split.
    + rewrite <- app_assoc in Hrun. etrans; [|exact Hrun]. reflexivity.
    + rewrite Hcalls. cbn. by rewrite <- app_assoc.
  - destruct (IH drawBuffers c) as (c' & Hrun & Hcalls).
    exists c'. split; [|exact Hcalls]. etrans; [|exact Hrun]. reflexivity.
Qed.

Ltac emits_any_step :=
  first
    [ apply emits_ret
    | apply emits_stop
    | apply emits_IGL_ASSERT_MSG
    | apply emits_call; exact I
    | apply emits_bindFramebuffer; exact I
    | apply emits_checkFramebufferStatus; intros; exact I
    | apply emits_vectorAt
    | apply emits_bind; [|intros ?]
    | match goal with
      | |- emits _ (if ?b then _ else _) => destruct b
      | |- emits _ (match ?o with _ => _ end) => destruct o
      end ].

(** [prepareResource] starts by generating a framebuffer name, binding it,
    attaching the colour textures and, for more than one, ordering the draw
    buffers. *)
Lemma prepareResource_startsWith env f outResult fb c :
  (forall d r cfb, emits anyCall (f d r cfb)) ->
  let id := lastFramebufferName c + 1 in
  let l := map_to_list (FramebufferDesc.colorAttachments (renderTarget_ fb)) in
  let bufs := merge_sort N.le (colorDrawBuffers l) in
  startsWith (prepareResource env f outResult fb) c
    ([GenFramebuffers id] ++ [BindFramebuffer GL.FRAMEBUFFER id]
     ++ colorAttachCalls
          (defaultWriteAttachmentParams (FramebufferDesc.mode (renderTarget_ fb))) l
     ++ (if (1 <? length bufs)%nat then [DrawBuffers bufs] else []) ++ []).
Proof.
  intros Hf id l bufs. unfold prepareResource.
  eapply startsWith_step; [reflexivity|reflexivity|]. cbv zeta.
  eapply startsWith_step.
  { unfold bindBuffer, bindFramebuffer. reflexivity. }
  { cbn. by repeat match goal with |- context [if ?b then _ else _] => destruct b end. }
  match goal with
  | |- startsWith (foldM ?l' ?body [] ≫= _) ?c1 _ =>
      destruct (attachColorAttachments_run l'
                  (defaultWriteAttachmentParams (FramebufferDesc.mode (renderTarget_ fb)))
                  [] c1) as (c2 & Hrun & Hcalls)
  end.
  eapply startsWith_step; [exact Hrun|exact Hcalls|]. cbn [app].
  change (renderTarget_ (setFrameBufferID (lastFramebufferName c + 1) fb))
    with (renderTarget_ fb).
  fold l. fold bufs.
  eapply startsWith_step.
  { instantiate (1 := if (1 <? length bufs)%nat
                      then recordCall (DrawBuffers bufs) c2 else c2).
    instantiate (1 := tt). by destruct (1 <? length bufs)%nat. }
  { destruct (1 <? length bufs)%nat; [reflexivity|by rewrite app_nil_r]. }
  apply startsWith_emits.
  emits_any_step; [emits_any_step; emits_any_step|].
  emits_any_step; [emits_any_step; emits_any_step|].
  emits_any_step; [emits_any_step|].
  emits_any_step; [emits_any_step|].
  destruct (negb (Result.isOk _)); [apply emits_ret|].
  destruct (collectResolve _) as [createResolveFramebuffer resolveColorAttachments].
  destruct (createResolveFramebuffer && _).
  { apply emits_bind; [apply emits_IGL_ASSERT_MSG|intros _; apply emits_ret]. }
  match goal with |- emits _ (if ?b then _ else _) => destruct b end; [|apply emits_ret].
  apply emits_bind; [apply Hf|intros [childResult cfb]; apply emits_ret].
Qed.

Lemma newFramebufferBindingGuard_calls env c :
  exists g c1 pre,
    newFramebufferBindingGuard env c = Done g c1 /\
    calls c1 = calls c ++ pre /\ Forall isBindingCall pre /\
    lastFramebufferName c1 = lastFramebufferName c.
Proof.
  destruct (total_newFramebufferBindingGuard env c) as (g & c1 & Hrun).
  destruct (emits_newFramebufferBindingGuard isBindingCall env (fun _ H => H) c)
    as (pre & Hcalls & Hpre).
  rewrite Hrun in Hcalls. exists g, c1, pre. repeat (split; [done|]).
  revert Hrun. unfold newFramebufferBindingGuard. run_calls.
  destruct (ReadWriteFramebuffer env);
    repeat (match goal with
            | |- context [if Result.isOk ?b then _ else _] => destruct (Result.isOk b)
            end); by intros [= <- <-].
Qed.

Lemma startsWith_leaving {A} (m : M A) d c l :
  startsWith m c l -> emits anyCall d -> startsWith (leaving m d) c l.
Proof.
  intros [rest H] Hd. unfold startsWith, leaving.
  destruct (m c) as [a c1|k c1]; cbn in H.
  - destruct (emits_bind anyCall d (fun _ => mret a) Hd (fun _ => emits_ret anyCall a) c1)
      as (new & Hn & _).
    exists (rest ++ new). by rewrite Hn, H, <- !app_assoc.
  - destruct k; try (by exists rest).
    destruct (emits_bind anyCall d (fun _ => stop (Exception what) : M A) Hd
                (fun _ => emits_stop anyCall (Exception what)) c1) as (new & Hn & _).
    exists (rest ++ new). by rewrite Hn, H, <- !app_assoc.
Qed.

(** X6: on an object that is not initialized and does not wrap the implicit
    framebuffer, [initialize] makes, after the calls of its binding guard and
    the label: the generation of a framebuffer name, its binding, then the
    attach calls of the colour attachments, one for each colour attachment
    that has a texture, at the attachment's index and with the default write
    parameters, in the order in which the map is iterated (the statement
    fixes which calls are made and how often, not their order among
    themselves), and then, when more than one colour attachment has a
    texture, one [drawBuffers] call whose list is sorted in ascending order
    and holds exactly the buffers [GL_COLOR_ATTACHMENT0 + index] of those
    attachments. *)
Theorem X6_initialize_attaches_then_draws env desc outResult fb c :
  isInitialized fb = false ->
  hasImplicitColorAttachment (setRenderTarget desc fb) = false ->
  exists pre id attaches bufs rest,
    calls (finalContext (initialize env desc outResult fb c))
    = calls c ++ pre
      ++ [GenFramebuffers id; BindFramebuffer GL.FRAMEBUFFER id]
      ++ attaches
      ++ (if (1 <? length bufs)%nat then [DrawBuffers bufs] else [])
      ++ rest /\
    Forall isBindingCall pre /\
    attaches ≡ₚ colorAttachCalls
                  (defaultWriteAttachmentParams (FramebufferDesc.mode desc))
                  (map_to_list (FramebufferDesc.colorAttachments desc)) /\
    Sorted N.le bufs /\
    bufs ≡ₚ colorDrawBuffers (map_to_list (FramebufferDesc.colorAttachments desc)).
Proof.
  intros Hfresh Himplicit.
  set (l := map_to_list (FramebufferDesc.colorAttachments desc)).
  set (bufs := merge_sort N.le (colorDrawBuffers l)).
  destruct (initialize_marks_first env desc outResult fb c Hfresh) as [_ ->].
  change (hasImplicitColorAttachment (setRenderTarget desc (setInitialized true fb)))
    with (hasImplicitColorAttachment (setRenderTarget desc fb)).
  rewrite Himplicit. unfold withFramebufferBindingGuard.
  destruct (newFramebufferBindingGuard_calls env c) as (g & c1 & pre1 & Hnew & Hc1 & Hpre1 & _).
  rewrite (bind_Done _ _ _ _ _ Hnew).
  set (label := if negb (String.eqb (FramebufferDesc.debugName desc) EmptyString)
                   && DebugLabel env
                then [ObjectLabel GL.FRAMEBUFFER
                        (frameBufferID_ (setRenderTarget desc (setInitialized true fb)))
                        (FramebufferDesc.debugName desc)]
                else []).
  assert (startsWith
            (leaving
               ((if negb (String.eqb (FramebufferDesc.debugName desc) EmptyString)
                    && DebugLabel env
                 then call (ObjectLabel GL.FRAMEBUFFER
                              (frameBufferID_ (setRenderTarget desc (setInitialized true fb)))
                              (FramebufferDesc.debugName desc))
                 else mret tt);;
                prepareResource env (initializeFuel env 1) outResult
                  (setRenderTarget desc (setInitialized true fb)))
               (deleteFramebufferBindingGuard env g)) c1
            (label ++
             [GenFramebuffers (lastFramebufferName c1 + 1)]
             ++ [BindFramebuffer GL.FRAMEBUFFER (lastFramebufferName c1 + 1)]
             ++ colorAttachCalls
                  (defaultWriteAttachmentParams (FramebufferDesc.mode desc)) l
             ++ (if (1 <? length bufs)%nat then [DrawBuffers bufs] else []) ++ []))
    as [rest Hrest].
  { apply startsWith_leaving.
    2:{ by apply emits_deleteFramebufferBindingGuard. }
    eapply startsWith_step.
    { instantiate (1 := if negb (String.eqb (FramebufferDesc.debugName desc) EmptyString)
                           && DebugLabel env
                        then recordCall
                               (ObjectLabel GL.FRAMEBUFFER
                                  (frameBufferID_ (setRenderTarget desc (setInitialized true fb)))
                                  (FramebufferDesc.debugName desc)) c1
                        else c1).
      instantiate (1 := tt). by destruct (_ && _). }
    { subst label. destruct (_ && _); [reflexivity|by rewrite app_nil_r]. }
    assert (lastFramebufferName
              (if negb (String.eqb (FramebufferDesc.debugName desc) EmptyString)
                  && DebugLabel env
               then recordCall
                      (ObjectLabel GL.FRAMEBUFFER
                         (frameBufferID_ (setRenderTarget desc (setInitialized true fb)))
                         (FramebufferDesc.debugName desc)) c1
               else c1) = lastFramebufferName c1) as Hlast by (by destruct (_ && _)).
    rewrite <- Hlast.
    apply (prepareResource_startsWith env (initializeFuel env 1) outResult
             (setRenderTarget desc (setInitialized true fb))).
    intros d r cfb. eapply emits_any, emits_initializeFuel_calls. }
  exists (pre1 ++ label), (lastFramebufferName c1 + 1),
    (colorAttachCalls (defaultWriteAttachmentParams (FramebufferDesc.mode desc)) l),
    bufs, rest.
  split; [|split; [|split; [|split]]].
  - rewrite Hrest, Hc1. rewrite app_nil_r. by rewrite <- !app_assoc.
  - apply Forall_app. split; [exact Hpre1|]. subst label. destruct (_ && _); by repeat constructor.
  - reflexivity.
  - apply Sorted_merge_sort, _.
  - apply merge_sort_Permutation.
Qed.

Lemma X6_witness :
  isInitialized newCustomFramebuffer = false /\
  exists pre id attaches bufs rest,
    calls (finalContext (initialize releaseEnv fourColorDesc None newCustomFramebuffer
                           someContext))
    = calls someContext ++ pre
      ++ [GenFramebuffers id; BindFramebuffer GL.FRAMEBUFFER id]
      ++ attaches
      ++ (if (1 <? length bufs)%nat then [DrawBuffers bufs] else [])
      ++ rest /\
    attaches ≡ₚ colorAttachCalls
                  (defaultWriteAttachmentParams (FramebufferDesc.mode fourColorDesc))
                  (map_to_list (FramebufferDesc.colorAttachments fourColorDesc)) /\
    Sorted N.le bufs /\
    bufs ≡ₚ colorDrawBuffers (map_to_list (FramebufferDesc.colorAttachments fourColorDesc)).
Proof.
  split; [reflexivity|].
  destruct (X6_initialize_attaches_then_draws releaseEnv fourColorDesc None
              newCustomFramebuffer someContext)
    as (pre & id & attaches & bufs & rest & H & _ & Ha & Hs & Hb);
    [reflexivity|vm_compute; reflexivity|].
  exists pre, id, attaches, bufs, rest. repeat (split; [assumption|]). assumption.
Defined.

Lemma deleteFramebufferBindingGuard_calls env g c :
  exists c1 post,
    deleteFramebufferBindingGuard env g c = Done tt c1 /\
    calls c1 = calls c ++ post /\ Forall isBindingCall post /\
    lastFramebufferName c1 = lastFramebufferName c.
Proof.
  destruct (total_deleteFramebufferBindingGuard env g c) as ([] & c1 & Hrun).
  destruct (emits_deleteFramebufferBindingGuard isBindingCall env g (fun _ H => H) c)
    as (post & Hcalls & Hpost).
  rewrite Hrun in Hcalls. exists c1, post. repeat (split; [done|]).
  revert Hrun. unfold deleteFramebufferBindingGuard. run_calls.
  destruct (ReadWriteFramebuffer env); by intros [= <-].
Qed.

(** X7: on an object that is not initialized and whose descriptor has, at
    colour index 0, a texture with implicit storage, while the object has no
    framebuffer name, [initialize] returns, whatever the driver reports about
    completeness and whatever resolve textures the descriptor names: it
    reports Ok when a result is asked for, installs the descriptor, marks the
    object initialized, generates no framebuffer name (the name stays 0),
    leaves the resolve framebuffer as it was, and makes only the calls of the
    binding guard and of the label. *)
Theorem X7_initialize_implicit_framebuffer env desc outResult fb c :
  isInitialized fb = false ->
  hasImplicitColorAttachment (setRenderTarget desc fb) = true ->
  exists fb' c' new,
    initialize env desc outResult fb c
    = Done (match outResult with Some _ => Some Result.ok | None => None end, fb') c' /\
    renderTarget_ fb' = desc /\ isInitialized fb' = true /\
    frameBufferID_ fb' = 0 /\ resolveFramebuffer fb' = resolveFramebuffer fb /\
    calls c' = calls c ++ new /\ Forall isBindingCall new /\
    lastFramebufferName c' = lastFramebufferName c.
Proof.
  intros Hfresh Himplicit.
  destruct (initialize_marks_first env desc outResult fb c Hfresh) as [_ ->].
  change (hasImplicitColorAttachment (setRenderTarget desc (setInitialized true fb)))
    with (hasImplicitColorAttachment (setRenderTarget desc fb)).
  rewrite Himplicit. unfold withFramebufferBindingGuard.
  destruct (newFramebufferBindingGuard_calls env c)
    as (g & c1 & pre & Hnew & Hc1 & Hpre & Hn1).
  rewrite (bind_Done _ _ _ _ _ Hnew).
  set (labelled := negb (String.eqb (FramebufferDesc.debugName desc) EmptyString)
                   && DebugLabel env).
  set (label := ObjectLabel GL.FRAMEBUFFER
                  (frameBufferID_ (setRenderTarget desc (setInitialized true fb)))
                  (FramebufferDesc.debugName desc)).
  destruct (deleteFramebufferBindingGuard_calls env g
              (if labelled then recordCall label c1 else c1))
    as (c2 & post & Hdel & Hc2 & Hpost & Hn2).
  exists (setRenderTarget desc (setInitialized true fb)), c2,
    (pre ++ (if labelled then [label] else []) ++ post).
  assert (frameBufferID_ fb = 0) as Hid.
  { revert Himplicit. unfold hasImplicitColorAttachment. cbn.
    destruct (frameBufferID_ fb =? 0) eqn:E; [|discriminate].
    intros _. by apply N.eqb_eq. }
  split; [|repeat split; try done].
  - erewrite leaving_Done.
    2:{ rewrite run_bind.
        assert ((if labelled then call label else mret tt) c1
                = Done tt (if labelled then recordCall label c1 else c1)) as ->
          by (by destruct labelled).
        reflexivity. }
    rewrite (bind_Done _ _ _ _ _ Hdel). by destruct outResult.
  - rewrite Hc2. destruct labelled; cbn; rewrite Hc1; by rewrite <- !app_assoc.
  - apply Forall_app. split; [done|]. apply Forall_app. split; [|done].
    destruct labelled; by repeat constructor.
  - rewrite Hn2, <- Hn1. by destruct labelled.
Qed.

Lemma X7_witness :
  isInitialized newCustomFramebuffer = false /\
  exists fb' c' new,
    initialize es2IncompleteEnv mismatchedViewDesc (Some Result.ok)
      newCustomFramebuffer someContext
    = Done (Some Result.ok, fb') c' /\
    renderTarget_ fb' = mismatchedViewDesc /\ isInitialized fb' = true /\
    frameBufferID_ fb' = 0 /\
    resolveFramebuffer fb' = resolveFramebuffer newCustomFramebuffer /\
    calls c' = calls someContext ++ new /\ Forall isBindingCall new /\
    lastFramebufferName c' = lastFramebufferName someContext.
Proof.
  split; [reflexivity|].
  apply (X7_initialize_implicit_framebuffer es2IncompleteEnv mismatchedViewDesc
           (Some Result.ok) newCustomFramebuffer someContext);
    vm_compute; reflexivity.
Defined.

(** X8: [initialize] leaves the bindings of the context as it found them,
    whatever it returns, when the framebuffers bound at the call are
    complete: the renderbuffer binding, the draw framebuffer binding and,
    where the backend has separate read and draw targets, the read
    framebuffer binding. *)
Theorem X8_initialize_keeps_bindings env desc outResult fb c r c' :
  guardDrawComplete env c = true ->
  (ReadWriteFramebuffer env = true -> guardReadComplete env c = true) ->
  initialize env desc outResult fb c = Done r c' ->
  renderbufferBinding c' = renderbufferBinding c /\
  drawFramebufferBinding c' = drawFramebufferBinding c /\
  (ReadWriteFramebuffer env = true ->
   readFramebufferBinding c' = readFramebufferBinding c).
Proof.
  intros Hdraw Hread Hrun.
  destruct (isInitialized fb) eqn:Hinit.
  { unfold initialize in Hrun. rewrite initializeFuel_again in Hrun by done.
    by simplify_eq. }
  destruct (initialize_marks_first env desc outResult fb c Hinit) as [_ E].
  rewrite E in Hrun. clear E.
  apply withFramebufferBindingGuard_Done_inv in Hrun as (g & c1 & c2 & Hnew & _ & Hdel).
  destruct (newFramebufferBindingGuard_spec env c)
    as (g' & c1' & Hnew' & _ & _ & _ & Hrb & Hfb).
  rewrite Hnew in Hnew'. simplify_eq.
  destruct (deleteFramebufferBindingGuard_spec env g' c2) as (c'' & Hdel' & Hrb' & Hfb').
  rewrite Hdel in Hdel'. simplify_eq.
  split; [congruence|]. rewrite Hdraw in Hfb.
  destruct (ReadWriteFramebuffer env).
  - rewrite Hread in Hfb by done. destruct Hfb as [Hr Hd], Hfb' as [Hr' Hd'].
    split; [congruence|]. intros _. congruence.
  - split; [congruence|discriminate].
Qed.

Lemma X8_witness :
  exists r c',
    initialize releaseEnv resolveDesc0 (Some Result.ok) newCustomFramebuffer someContext
    = Done r c' /\
    renderbufferBinding c' = 7 /\ drawFramebufferBinding c' = 5 /\
    readFramebufferBinding c' = 5.
Proof.
  assert (exists r c',
            initialize releaseEnv resolveDesc0 (Some Result.ok) newCustomFramebuffer
              someContext = Done r c') as (r & c' & Hrun)
    by (vm_compute; eauto).
  exists r, c'. split; [exact Hrun|].
  destruct (X8_initialize_keeps_bindings releaseEnv resolveDesc0 (Some Result.ok)
              newCustomFramebuffer someContext r c') as (Hrb & Hd & Hr);
    [reflexivity|reflexivity|exact Hrun|].
  split; [exact Hrb|]. split; [exact Hd|]. by apply Hr.
Defined.

(** *** The resolve framebuffer *)

Lemma foldl_step_lookup_keep l acc k x :
  acc.2 !! k = Some x -> (foldl collectResolveStep acc l).2 !! k = Some x.
Proof.
  revert acc. induction l as [|y l IH]; intros acc Hk; [exact Hk|].
  cbn [foldl]. apply IH. unfold collectResolveStep.
  destruct (FramebufferDesc.resolveTexture y.2) as [t|]; [|exact Hk].
  cbn. unfold emplace. destruct (acc.2 !! y.1) eqn:E; [exact Hk|].
  rewrite lookup_insert_ne; [exact Hk|]. intros Heq. rewrite Heq in E. congruence.
Qed.

Lemma foldl_step_lookup_inv l acc k x :
  (foldl collectResolveStep acc l).2 !! k = Some x ->
  acc.2 !! k = Some x \/
  exists a t, (k, a) ∈ l /\ FramebufferDesc.resolveTexture a = Some t /\
              x = {| FramebufferDesc.texture := Some t;
                     FramebufferDesc.resolveTexture := None |}.
Proof.
  revert acc. induction l as [|y l IH]; intros acc Hk; [by left|].
  cbn [foldl] in Hk. apply IH in Hk as [Hk|(a & t & Ha & Ht & ->)].
  - unfold collectResolveStep in Hk.
    destruct (FramebufferDesc.resolveTexture y.2) as [t|] eqn:E; [|by left].
    apply lookup_emplace in Hk as [Hk|[-> ->]]; [by left|].
    right. exists y.2, t. split; [|done]. destruct y. by left.
  - right. exists a, t. split; [by right|done].
Qed.

Lemma foldl_step_lookup l acc k a t :
  NoDup l.*1 -> (k, a) ∈ l -> FramebufferDesc.resolveTexture a = Some t ->
  acc.2 !! k = None ->
  (foldl collectResolveStep acc l).2 !! k
  = Some {| FramebufferDesc.texture := Some t; FramebufferDesc.resolveTexture := None |}.
Proof.
  revert acc. induction l as [|y l IH]; intros acc Hnd Hin Ht Hacc.
  { by apply elem_of_nil in Hin. }
  cbn [foldl]. rewrite fmap_cons in Hnd. apply NoDup_cons in Hnd as [Hy Hnd].
  apply elem_of_cons in Hin as [<-|Hin].
  - apply foldl_step_lookup_keep. unfold collectResolveStep. cbn. rewrite Ht. cbn.
    unfold emplace. rewrite Hacc. by rewrite lookup_insert_eq.
  - apply IH; [done..|].
    assert (y.1 <> k) as Hne.
    { intros <-. apply Hy. apply list_elem_of_fmap. by exists (y.1, a). }
    unfold collectResolveStep.
    destruct (FramebufferDesc.resolveTexture y.2); [|done]. cbn.
    unfold emplace. destruct (acc.2 !! y.1); [done|]. by rewrite lookup_insert_ne.
Qed.

(** The texture of the resolve descriptor at an index is the resolve texture
    of the attachment at that index. *)
Lemma collectResolve_lookup (m : gmap N FramebufferDesc.AttachmentDesc) k :
  match (collectResolve (map_to_list m)).2 !! k with
  | Some x => FramebufferDesc.texture x
  | None => None
  end
  = match m !! k with
    | Some a => FramebufferDesc.resolveTexture a
    | None => None
    end.
Proof.
  rewrite collectResolve_foldl.
  destruct (m !! k) as [a|] eqn:Hm; [destruct (FramebufferDesc.resolveTexture a) as [t|] eqn:Ht|].
  - rewrite (foldl_step_lookup _ _ k a t); [done|apply NoDup_fst_map_to_list| |done|done].
    by apply elem_of_map_to_list.
  - destruct ((foldl collectResolveStep (false, ∅) (map_to_list m)).2 !! k)
      as [x|] eqn:Hx; [|done].
    apply foldl_step_lookup_inv in Hx as [Hx|(a' & t & Ha & Ht' & ->)]; [done|].
    apply elem_of_map_to_list in Ha. congruence.
  - destruct ((foldl collectResolveStep (false, ∅) (map_to_list m)).2 !! k)
      as [x|] eqn:Hx; [|done].
    apply foldl_step_lookup_inv in Hx as [Hx|(a' & t & Ha & Ht' & ->)]; [done|].
    apply elem_of_map_to_list in Ha. congruence.
Qed.

(** When [prepareResource] returns, the resolve framebuffer is the one of
    before or the object [initializeChild] returned for the resolve
    descriptor. *)
Lemma prepareResource_child env f outResult fb c r fb' c' :
  prepareResource env f outResult fb c = Done (r, fb') c' ->
  resolveFramebuffer fb' = resolveFramebuffer fb \/
  exists d result c1 childResult cfb c2,
    f d (Some result) newCustomFramebuffer c1 = Done (childResult, cfb) c2 /\
    resolveFramebuffer fb' = Some cfb /\
    FramebufferDesc.colorAttachments d
    = (collectResolve
         (map_to_list (FramebufferDesc.colorAttachments (renderTarget_ fb)))).2 /\
    FramebufferDesc.depthAttachment d
    = attachment
        (FramebufferDesc.resolveTexture (FramebufferDesc.depthAttachment (renderTarget_ fb)))
        None /\
    FramebufferDesc.stencilAttachment d
    = attachment
        (FramebufferDesc.resolveTexture (FramebufferDesc.stencilAttachment (renderTarget_ fb)))
        None /\
    FramebufferDesc.mode d = Mono /\
    ((collectResolve
        (map_to_list (FramebufferDesc.colorAttachments (renderTarget_ fb)))).1 = true ->
     size (collectResolve
             (map_to_list (FramebufferDesc.colorAttachments (renderTarget_ fb)))).2
     = size (FramebufferDesc.colorAttachments (renderTarget_ fb))).
Proof.
  unfold prepareResource. intros H.
  do 8 inv_bind H.
  destruct (negb (Result.isOk a5)).
  { cbv [mret M_ret] in H. simplify_eq. by left. }
  change (renderTarget_ (setFrameBufferID a fb)) with (renderTarget_ fb) in H.
  destruct (collectResolve _) as [createResolveFramebuffer resolveColorAttachments] eqn:Ecr.
  destruct (createResolveFramebuffer && _) eqn:Esize.
  { inv_bind H. cbv [mret M_ret] in H. simplify_eq. by left. }
  match type of H with (if ?b then _ else _) _ = _ => destruct b eqn:Ecreate end.
  2:{ cbv [mret M_ret] in H. simplify_eq. by left. }
  inv_bind H. destruct a7 as [childResult cfb]. cbv [mret M_ret] in H. simplify_eq.
  right. eexists _, _, _, _, _, _. split; [exact Hm7|]. split; [reflexivity|].
  cbn [fst snd].
  destruct (FramebufferDesc.resolveTexture
              (FramebufferDesc.depthAttachment (renderTarget_ fb))) as [td|];
    destruct (FramebufferDesc.resolveTexture
                (FramebufferDesc.stencilAttachment (renderTarget_ fb))) as [ts|];
    cbn; (repeat split; try reflexivity);
    intros ->; cbn in Esize; apply negb_false_iff, Nat.eqb_eq in Esize; exact Esize.
Qed.

(** What [initialize] returns on a fresh object, as far as the members
    go. *)
Lemma initializeFuel_fresh_inv env fuel desc outResult fb c r fb' c' :
  isInitialized fb = false ->
  initializeFuel env (S fuel) desc outResult fb c = Done (r, fb') c' ->
  renderTarget_ fb' = desc /\ isInitialized fb' = true /\
  (hasImplicitColorAttachment (setRenderTarget desc fb) = true /\
   fb' = setRenderTarget desc (setInitialized true fb) \/
   hasImplicitColorAttachment (setRenderTarget desc fb) = false /\
   exists c1 c2,
     lastFramebufferName c1 = lastFramebufferName c /\
     prepareResource env (initializeFuel env fuel) outResult
       (setRenderTarget desc (setInitialized true fb)) c1 = Done (r, fb') c2).
Proof.
  intros Hfresh H. rewrite initializeFuel_S in H. unfold IGL_UNEXPECTED in H.
  rewrite Hfresh in H.
  apply withFramebufferBindingGuard_Done_inv in H as (g & c1 & c2 & Hnew & H & Hdel).
  destruct (newFramebufferBindingGuard_calls env c) as (g' & c1' & pre & Hnew' & _ & _ & Hn).
  rewrite Hnew in Hnew'. simplify_eq.
  inv_bind H.
  change (hasImplicitColorAttachment (setRenderTarget desc (setInitialized true fb)))
    with (hasImplicitColorAttachment (setRenderTarget desc fb)) in H.
  destruct (hasImplicitColorAttachment (setRenderTarget desc fb)) eqn:Himplicit.
  { cbv [mret M_ret] in H. simplify_eq. auto. }
  pose proof (prepareResource_members _ _ _ _ _ _ _ _ H) as (Hi & Ht & _).
  split; [by rewrite Ht|]. split; [unfold isInitialized; by rewrite Hi|].
  right. split; [done|]. exists c0, c2. split; [|exact H].
  rewrite <- Hn. revert Hm. destruct (_ && _); run_calls; by intros [= <- <-].
Qed.

(** X9: when [initialize], on an object that is not initialized and has no
    resolve framebuffer, returns and leaves a resolve framebuffer, that
    framebuffer is initialized, has no resolve framebuffer of its own, is in
    Mono mode, and its attachments are the resolve textures of the
    descriptor: at every colour index its texture is the resolve texture of
    the attachment at that index, its depth and stencil textures are the
    depth and stencil resolve textures, and none of its attachments has a
    resolve texture.  Moreover the colour attachments of the descriptor have
    a resolve texture either all or none. *)
Theorem X9_resolve_framebuffer_mirrors_resolve_textures
    env desc outResult fb c r fb' child c' :
  isInitialized fb = false ->
  resolveFramebuffer fb = None ->
  initialize env desc outResult fb c = Done (r, fb') c' ->
  resolveFramebuffer fb' = Some child ->
  isInitialized child = true /\
  resolveFramebuffer child = None /\
  getMode child = Mono /\
  (forall k, getColorAttachment child k = getResolveColorAttachment fb' k) /\
  getDepthAttachment child = getResolveDepthAttachment fb' /\
  getStencilAttachment child
  = FramebufferDesc.resolveTexture (FramebufferDesc.stencilAttachment desc) /\
  (forall k, getResolveColorAttachment child k = None) /\
  getResolveDepthAttachment child = None /\
  ((exists k, is_Some (getResolveColorAttachment fb' k)) ->
   forall k a, FramebufferDesc.colorAttachments desc !! k = Some a ->
               is_Some (FramebufferDesc.resolveTexture a)).
Proof.
  intros Hfresh Hnone Hrun Hchild.
  apply (initializeFuel_fresh_inv _ _ _ _ _ _ _ _ _ Hfresh) in Hrun
    as (Htarget & _ & [[_ ->]|(_ & c1 & c2 & _ & Hrun)]).
  { cbn in Hchild. congruence. }
  apply prepareResource_child in Hrun as [Hsame|Hrun].
  { cbn in Hsame. congruence. }
  destruct Hrun as (d & result & c3 & childResult & cfb & c4 & Hcfb & Hres & Hcolor
                      & Hdepth & Hstencil & Hmode & Hsize).
  assert (cfb = child) as -> by congruence. clear Hres.
  change (renderTarget_ (setRenderTarget desc (setInitialized true fb))) with desc in *.
  apply initializeFuel_fresh_inv in Hcfb as (Hd & Hinit & Hcase); [|reflexivity].
  assert (resolveFramebuffer child = None) as Hgrand.
  { destruct Hcase as [[_ ->]|(_ & c5 & c6 & _ & Hp)]; [done|].
    apply prepareResource_child in Hp as [Hsame|Hp]; [done|].
    destruct Hp as (? & ? & ? & ? & ? & ? & Hstop & _). discriminate Hstop. }
  unfold getColorAttachment, getResolveColorAttachment, getDepthAttachment,
    getResolveDepthAttachment, getStencilAttachment, getMode.
  rewrite Hd, Htarget, Hcolor, Hdepth, Hstencil, Hmode.
  split; [done|]. split; [done|]. split; [done|].
  split; [intros k; apply collectResolve_lookup|].
  split; [done|]. split; [done|].
  split.
  { intros k. destruct (_ !! k) as [x|] eqn:Hx; [|done].
    by apply collectResolve_values in Hx. }
  split; [done|].
  intros (k0 & t0 & Hk0) k a Hk.
  destruct (FramebufferDesc.resolveTexture a) as [t|] eqn:Ht; [by eexists|].
  exfalso.
  pose proof (collectResolve_size_lt _ k a Hk Ht) as Hlt.
  rewrite Hsize in Hlt; [lia|].
  apply collectResolve_flag.
  destruct (FramebufferDesc.colorAttachments desc !! k0) as [a0|] eqn:Ha0; [|done].
  exists (k0, a0). split; [by apply elem_of_map_to_list|]. cbn. by rewrite Hk0.
Qed.

Lemma X9_witness :
  exists r fb' child c',
    initialize releaseEnv resolveDesc0 (Some Result.ok) newCustomFramebuffer someContext
    = Done (r, fb') c' /\
    resolveFramebuffer fb' = Some child /\
    isInitialized child = true /\
    getColorAttachment child 0 = getResolveColorAttachment fb' 0.
Proof.
  assert (exists r fb' child c',
            initialize releaseEnv resolveDesc0 (Some Result.ok) newCustomFramebuffer
              someContext = Done (r, fb') c' /\
            resolveFramebuffer fb' = Some child)
    as (r & fb' & child & c' & Hrun & Hchild).
  { eexists _, _, _, _. split; vm_compute; reflexivity. }
  destruct (X9_resolve_framebuffer_mirrors_resolve_textures releaseEnv resolveDesc0
              (Some Result.ok) newCustomFramebuffer someContext r fb' child c')
    as (Hinit & _ & _ & Hcolor & _); [reflexivity|reflexivity|exact Hrun|exact Hchild|].
  exists r, fb', child, c'. repeat (split; [assumption|]). apply Hcolor.
Defined.

(** *** The result pointer *)

Lemma sameEffects_bind {A} (m : M A)
    (k1 k2 : A -> M (option Result.t * CustomFramebuffer)) c :
  (forall a c1, sameEffects (k1 a c1) (k2 a c1)) ->
  sameEffects ((m ≫= k1) c) ((m ≫= k2) c).
Proof. intros H. rewrite !run_bind. destruct (m c); cbn; [apply H|done]. Qed.

Lemma sameEffects_ret r1 r2 fb c :
  sameEffects ((mret (r1, fb) : M _) c) ((mret (r2, fb) : M _) c).
Proof. done. Qed.

Lemma sameEffects_leaving (m1 m2 : M (option Result.t * CustomFramebuffer)) (d : M unit) c :
  sameEffects (m1 c) (m2 c) ->
  sameEffects (leaving m1 d c) (leaving m2 d c).
Proof.
  unfold leaving.
  destruct (m1 c) as [[r1 fb1] c1|k1 c1], (m2 c) as [[r2 fb2] c2|k2 c2];
    cbn; try done.
  - intros [-> ->]. rewrite !run_bind. by destruct (d c2).
  - intros [-> ->]. destruct k2; try done. rewrite !run_bind. by destruct (d c2).
Qed.

Lemma prepareResource_sameEffects env f o1 o2 fb c :
  sameEffects (prepareResource env f o1 fb c) (prepareResource env f o2 fb c).
Proof.
  unfold prepareResource.
  do 8 (apply sameEffects_bind; intros ? ?).
  destruct (negb (Result.isOk _)); [apply sameEffects_ret|].
  destruct (collectResolve _) as [createResolveFramebuffer resolveColorAttachments].
  destruct (createResolveFramebuffer && _).
  { apply sameEffects_bind. intros ? ?. apply sameEffects_ret. }
  match goal with |- sameEffects ((if ?b then _ else _) _) _ => destruct b end;
    [|apply sameEffects_ret].
  apply sameEffects_bind. intros [childResult cfb] ?. apply sameEffects_ret.
Qed.

(** X10: the result pointer of [initialize] carries the report and nothing
    else: with a null pointer and with a pointer to any result, whatever that
    result holds, [initialize] ends the same way, with the same object and
    the same context (the same calls, bindings and failed assertions). *)
Theorem X10_initialize_result_pointer env desc r0 fb c :
  sameEffects (initialize env desc (Some r0) fb c) (initialize env desc None fb c).
Proof.
  unfold initialize. rewrite !initializeFuel_S.
  destruct (IGL_UNEXPECTED (isInitialized fb)); [done|].
  unfold withFramebufferBindingGuard.
  apply sameEffects_bind. intros g c1.
  apply (sameEffects_leaving _ _ (deleteFramebufferBindingGuard env g)).
  apply sameEffects_bind. intros [] c2.
  destruct (hasImplicitColorAttachment _); [done|].
  apply prepareResource_sameEffects.
Qed.

(** *** The destructor *)

Lemma prepareResource_name env f outResult fb c r fb' c' :
  prepareResource env f outResult fb c = Done (r, fb') c' ->
  frameBufferID_ fb' = lastFramebufferName c + 1.
Proof.
  unfold prepareResource. intros H.
  inv_bind H. revert Hm. run_calls. intros [= <- <-].
  do 7 inv_bind H.
  destruct (negb (Result.isOk a4)).
  { cbv [mret M_ret] in H. by simplify_eq. }
  destruct (collectResolve _) as [createResolveFramebuffer resolveColorAttachments].
  destruct (createResolveFramebuffer && _).
  { inv_bind H. cbv [mret M_ret] in H. by simplify_eq. }
  match type of H with (if ?b then _ else _) _ = _ => destruct b end.
  - inv_bind H. destruct a6 as [childResult cfb].
    cbv [mret M_ret] in H. by simplify_eq.
  - cbv [mret M_ret] in H. by simplify_eq.
Qed.

Lemma emits_Done {A} P (m : M A) c a c' :
  emits P m -> m c = Done a c' ->
  exists new, calls c' = calls c ++ new /\ Forall P new.
Proof. intros Hm Hrun. destruct (Hm c) as (new & H & HP). rewrite Hrun in H. eauto. Qed.

Lemma generatedNames_app l1 l2 :
  generatedNames (l1 ++ l2) = generatedNames l1 ++ generatedNames l2.
Proof. unfold generatedNames. apply bind_app. Qed.

Lemma generatedNames_notGen l : Forall notGenFramebuffers l -> generatedNames l = [].
Proof.
  induction 1 as [|e l He _ IH]; [reflexivity|].
  change (e :: l) with ([e] ++ l). rewrite generatedNames_app, IH.
  by destruct e.
Qed.

Lemma notGenFramebuffers_binding e : isBindingCall e -> notGenFramebuffers e.
Proof. by destruct e. Qed.

(** The names generated during [prepareResource] are those the object holds
    afterwards, with its resolve framebuffer. *)
Lemma prepareResource_owned env f outResult fb c r fb' c' :
  (forall d x c1 y cfb c2,
     f d x newCustomFramebuffer c1 = Done (y, cfb) c2 ->
     exists new, calls c2 = calls c1 ++ new /\ generatedNames new = ownedNames cfb) ->
  resolveFramebuffer fb = None ->
  prepareResource env f outResult fb c = Done (r, fb') c' ->
  exists new, calls c' = calls c ++ new /\ generatedNames new = ownedNames fb'.
Proof.
  intros Hf Hnone. unfold prepareResource. intros H.
  inv_bind H. revert Hm. run_calls. intros [= <- <-].
  set (id := lastFramebufferName c + 1) in *.
  assert (ownedNames (setFrameBufferID id fb) = [id]) as Hid.
  { destruct fb as [i rt ini rp child]. cbn in Hnone. subst child. cbn.
    replace (id =? 0) with false by (symmetry; apply N.eqb_neq; subst id; lia).
    reflexivity. }
  inv_bind H. apply (emits_Done notGenFramebuffers) in Hm as (n0 & Hc0 & Hn0);
    [|by apply emits_bindFramebuffer].
  inv_bind H. apply (emits_Done notGenFramebuffers) in Hm as (n1 & Hc1 & Hn1).
  2:{ apply emits_foldM. intros s [k att]. cbn [fst snd].
      destruct (FramebufferDesc.texture att); [|apply emits_ret].
      apply emits_bind; [by apply emits_call|intros _; apply emits_ret]. }
  inv_bind H. apply (emits_Done notGenFramebuffers) in Hm as (n2 & Hc2 & Hn2).
  2:{ destruct (_ <? _)%nat; [by apply emits_call|apply emits_ret]. }
  inv_bind H. apply (emits_Done notGenFramebuffers) in Hm as (n3 & Hc3 & Hn3).
  2:{ destruct (FramebufferDesc.texture _); [by apply emits_call|apply emits_ret]. }
  inv_bind H. apply (emits_Done notGenFramebuffers) in Hm as (n4 & Hc4 & Hn4).
  2:{ destruct (FramebufferDesc.texture _); [by apply emits_call|apply emits_ret]. }
  inv_bind H. apply (emits_Done notGenFramebuffers) in Hm as (n5 & Hc5 & Hn5);
    [|by apply emits_checkFramebufferStatus].
  inv_bind H. apply (emits_Done notGenFramebuffers) in Hm as (n6 & Hc6 & Hn6);
    [|apply emits_IGL_ASSERT_MSG].
  assert (exists mid, calls c6 = calls c ++ [GenFramebuffers id] ++ mid /\
                      generatedNames mid = []) as (mid & Hmid & Hgen).
  { exists (n0 ++ n1 ++ n2 ++ n3 ++ n4 ++ n5 ++ n6). split.
    - rewrite Hc6, Hc5, Hc4, Hc3, Hc2, Hc1, Hc0. cbn. by rewrite <- !app_assoc.
    - apply generatedNames_notGen. by repeat (apply Forall_app; split). }
  assert (exists new,
            calls c6 = calls c ++ new /\
            generatedNames new = ownedNames (setFrameBufferID id fb)) as Hplain.
  { exists ([GenFramebuffers id] ++ mid). split; [exact Hmid|].
    by rewrite generatedNames_app, Hgen, Hid. }
  destruct (negb (Result.isOk a4)).
  { cbv [mret M_ret] in H. by simplify_eq. }
  destruct (collectResolve _) as [createResolveFramebuffer resolveColorAttachments].
  destruct (createResolveFramebuffer && _).
  { inv_bind H. apply (emits_Done notGenFramebuffers) in Hm as (n7 & Hc7 & Hn7);
      [|apply emits_IGL_ASSERT_MSG].
    cbv [mret M_ret] in H. simplify_eq.
    exists ([GenFramebuffers id] ++ mid ++ n7). split.
    - rewrite Hc7, Hmid. by rewrite <- !app_assoc.
    - rewrite !generatedNames_app, Hgen, (generatedNames_notGen n7 Hn7), Hid. reflexivity. }
  match type of H with (if ?b then _ else _) _ = _ => destruct b end.
  2:{ cbv [mret M_ret] in H. by simplify_eq. }
  inv_bind H. destruct a6 as [childResult cfb].
  apply Hf in Hm as (childNew & Hchild & Hnames).
  cbv [mret M_ret] in H. simplify_eq.
  exists ([GenFramebuffers id] ++ mid ++ childNew). split.
  - rewrite Hchild, Hmid. by rewrite <- !app_assoc.
  - rewrite !generatedNames_app, Hgen, Hnames.
    destruct fb as [i rt ini rp child]. cbn.
    replace (id =? 0) with false by (symmetry; apply N.eqb_neq; subst id; lia).
    reflexivity.
Qed.

Lemma initializeFuel_owned env fuel desc outResult fb c r fb' c' :
  isInitialized fb = false ->
  resolveFramebuffer fb = None ->
  initializeFuel env fuel desc outResult fb c = Done (r, fb') c' ->
  exists new, calls c' = calls c ++ new /\ generatedNames new = ownedNames fb'.
Proof.
  revert desc outResult fb c r fb' c'.
  induction fuel as [|fuel IH]; intros desc outResult fb c r fb' c' Hfresh Hnone H;
    [discriminate|].
  rewrite initializeFuel_S in H. unfold IGL_UNEXPECTED in H. rewrite Hfresh in H.
  apply withFramebufferBindingGuard_Done_inv in H as (g & c1 & c2 & Hnew & H & Hdel).
  apply (emits_Done notGenFramebuffers) in Hnew as (pre & Hc1 & Hpre);
    [|apply emits_newFramebufferBindingGuard, notGenFramebuffers_binding].
  apply (emits_Done notGenFramebuffers) in Hdel as (post & Hc' & Hpost);
    [|apply emits_deleteFramebufferBindingGuard, notGenFramebuffers_binding].
  inv_bind H. apply (emits_Done notGenFramebuffers) in Hm as (label & Hc0 & Hlabel).
  2:{ destruct (_ && _); [by apply emits_call|apply emits_ret]. }
  assert (exists body, calls c2 = calls c0 ++ body /\
                       generatedNames body = ownedNames fb') as (body & Hbody & Hnames).
  { destruct (hasImplicitColorAttachment _) eqn:Himplicit.
    - cbv [mret M_ret] in H. simplify_eq. exists []. split; [by rewrite app_nil_r|].
      revert Himplicit. unfold hasImplicitColorAttachment.
      destruct fb as [i rt ini rp child]. cbn in *. subst child.
      destruct (i =? 0); [reflexivity|discriminate].
    - eapply prepareResource_owned in H; [exact H| |].
      + intros d x c3 y cfb c4 Hchild. by apply IH in Hchild.
      + by destruct fb. }
  exists (pre ++ label ++ body ++ post). split.
  - rewrite Hc', Hbody, Hc0, Hc1. by rewrite <- !app_assoc.
  - rewrite !generatedNames_app, (generatedNames_notGen pre Hpre),
      (generatedNames_notGen label Hlabel), (generatedNames_notGen post Hpost), Hnames.
    by rewrite app_nil_r.
Qed.

(** The destruction runs to its end, and its calls are the deletions of the
    names the object and the resolve framebuffers below it hold. *)
Lemma destroyCustomFramebuffer_run fb c :
  exists c',
    destroyCustomFramebuffer fb c = Done tt c' /\
    calls c' = calls c ++ (DeleteFramebuffers <$> ownedNames fb).
Proof.
  revert fb c. fix destroyCustomFramebuffer_run 1.
  intros [id rt ini rp [cfb|]] c; cbn [destroyCustomFramebuffer ownedNames].
  - rewrite run_bind. unfold deleteCustomFramebuffer. cbn [frameBufferID_].
    destruct (id =? 0); cbn -[destroyCustomFramebuffer ownedNames].
    + apply destroyCustomFramebuffer_run.
    + destruct (destroyCustomFramebuffer_run cfb
                  (finalContext (deleteFramebuffers id c))) as (c' & Hrun & Hcalls).
      exists c'. split; [exact Hrun|]. rewrite Hcalls. cbn. by rewrite <- app_assoc.
  - rewrite run_bind. unfold deleteCustomFramebuffer. cbn [frameBufferID_].
    destruct (id =? 0); cbn; eexists; (split; [reflexivity|]); cbn;
      by rewrite ?app_nil_r.
Qed.

(** X11: the framebuffer names [initialize] generates are the ones the
    destruction of the object gives back.  Whatever [initialize] reports on an
    object that was not initialized and had no resolve framebuffer, success
    or error, the destruction of the object it leaves (the only owner of its
    resolve framebuffer) runs the destructor of the object and then the one
    of its resolve framebuffer, and their calls are exactly the
    [deleteFramebuffers] of the names generated during the call, each once
    and in the order of their generation: the object's own and, where a
    resolve framebuffer was created, the one of the resolve framebuffer; the
    destructors make no call at all when no name was generated, as for the
    implicit framebuffer. *)
Theorem X11_destruction_deletes_generated_names
    env desc outResult fb c r fb' c' c2 :
  isInitialized fb = false ->
  resolveFramebuffer fb = None ->
  initialize env desc outResult fb c = Done (r, fb') c' ->
  exists new c3,
    calls c' = calls c ++ new /\
    destroyCustomFramebuffer fb' c2 = Done tt c3 /\
    calls c3 = calls c2 ++ (DeleteFramebuffers <$> generatedNames new).
Proof.
  intros Hfresh Hnone Hrun.
  apply initializeFuel_owned in Hrun as (new & Hnew & Hnames); [|done..].
  destruct (destroyCustomFramebuffer_run fb' c2) as (c3 & Hdestroy & Hcalls).
  exists new, c3. by rewrite Hnames.
Qed.

Lemma X11_witness :
  exists r fb' c' new c3,
    initialize releaseEnv resolveDesc0 (Some Result.ok) newCustomFramebuffer someContext
    = Done (r, fb') c' /\
    calls c' = calls someContext ++ new /\
    generatedNames new = [6; 7] /\
    destroyCustomFramebuffer fb' c' = Done tt c3 /\
    calls c3 = calls c' ++ [DeleteFramebuffers 6; DeleteFramebuffers 7].
Proof.
  assert (exists r fb' c',
            initialize releaseEnv resolveDesc0 (Some Result.ok) newCustomFramebuffer
              someContext = Done (r, fb') c' /\
            generatedNames (calls c') = [6; 7])
    as (r & fb' & c' & Hrun & Hgen).
  { eexists _, _, _. split; vm_compute; reflexivity. }
  destruct (X11_destruction_deletes_generated_names releaseEnv resolveDesc0
              (Some Result.ok) newCustomFramebuffer someContext r fb' c' c')
    as (new & c3 & Hnew & Hdestroy & Hcalls); [reflexivity|reflexivity|exact Hrun|].
  rewrite Hnew in Hgen. cbn [calls someContext app] in Hgen.
  exists r, fb', c', new, c3. rewrite Hgen in Hcalls. by repeat split.
Defined.

(** ** updateDrawable *)

Lemma run_bindX {A B} (m : MX A) (f : A -> MX B) log c :
  (m ≫= f) log c
  = match m log c with
    | Done (a, log') c' => f a log' c'
    | Stopped k c' => Stopped k c'
    end.
Proof. reflexivity. Qed.

Lemma yieldsX_ret {A} (a : A) (Q : A -> list TextureCall -> Prop) :
  Q a [] -> yieldsX (mret a) Q.
Proof. intros H log c. exists a, [], c. by rewrite app_nil_r. Qed.

Lemma yieldsX_bind {A B} (m : MX A) (f : A -> MX B) Q1 (Q : B -> list TextureCall -> Prop) :
  yieldsX m Q1 ->
  (forall a l1, Q1 a l1 -> yieldsX (f a) (fun b l2 => Q b (l1 ++ l2))) ->
  yieldsX (m ≫= f) Q.
Proof.
  intros Hm Hf log c. destruct (Hm log c) as (a & new1 & c1 & Hrun & HQ1).
  destruct (Hf a _ HQ1 (log ++ new1) c1) as (b & new2 & c2 & Hrun2 & HQ).
  exists b, (new1 ++ new2), c2. rewrite run_bindX, Hrun, Hrun2.
  split; [by rewrite app_assoc|by rewrite fmap_app].
Qed.

Lemma yieldsX_liftM {A} (m : M A) : total m -> yieldsX (liftM m) (fun _ l => l = []).
Proof.
  intros Hm log c. destruct (Hm c) as (a & c' & Hrun). exists a, [], c'.
  unfold liftM. by rewrite Hrun, app_nil_r.
Qed.

Lemma yieldsX_textureCall e : yieldsX (textureCall e) (fun _ l => l = [e]).
Proof. intros log c. by eexists tt, [_], c. Qed.

Lemma yieldsX_weaken {A} (m : MX A) (Q1 Q2 : A -> list TextureCall -> Prop) :
  yieldsX m Q1 -> (forall a l, Q1 a l -> Q2 a l) -> yieldsX m Q2.
Proof.
  intros Hm H log c. destruct (Hm log c) as (a & new & c' & Hrun & HQ). eauto 10.
Qed.

Lemma stopsX_bind_l {A B} (m : MX A) (f : A -> MX B) k : stopsX m k -> stopsX (m ≫= f) k.
Proof. intros Hm log c. destruct (Hm log c) as (c' & Hrun). rewrite run_bindX, Hrun. eauto. Qed.

Lemma stopsX_bind_r {A B} (m : MX A) (f : A -> MX B) Q k :
  yieldsX m Q -> (forall a, stopsX (f a) k) -> stopsX (m ≫= f) k.
Proof.
  intros Hm Hf log c. destruct (Hm log c) as (a & new & c1 & Hrun & _).
  rewrite run_bindX, Hrun. apply Hf.
Qed.

Lemma yieldsX_ret_bind {A B} (a : A) (f : A -> MX B) Q :
  yieldsX (f a) Q -> yieldsX (mret a ≫= f) Q.
Proof. intros H log c. exact (H log c). Qed.

Lemma differ_false p q : differ p q = false <-> p = q.
Proof. unfold differ. by rewrite negb_false_iff, bool_decide_eq_true. Qed.

Lemma differ_true p q : differ p q = true <-> p <> q.
Proof. unfold differ. by rewrite negb_true_iff, bool_decide_eq_false. Qed.

Lemma total_bindBuffer fb : total (bindBuffer fb).
Proof. apply total_bindFramebuffer. Qed.

(** Unless it is asked to clear the depth texture of an object without
    colour attachment 0, [updateDrawableInternal] returns. *)
Lemma updateDrawableInternal_yields env s updateDepth fb :
  (updateDepth = true -> depth s = None -> is_Some (getDepthAttachment fb) ->
   is_Some (getColorAttachment fb 0)) ->
  yieldsX (updateDrawableInternal env s updateDepth fb)
    (fun fb' l => fb' = updatedDepth s updateDepth fb /\ l = detachCalls s updateDepth fb).
Proof.
  intros Hsafe. unfold updateDrawableInternal, updatedDepth, updatedColor, detachCalls.
  assert (updateDepth && differ (if updateDepth then getDepthAttachment fb else None) (depth s)
          = updateDepth && differ (getDepthAttachment fb) (depth s)) as ->
    by (by destruct updateDepth).
  destruct (differ (getColorAttachment fb 0) (color s)) eqn:Ec;
    destruct (updateDepth && differ (getDepthAttachment fb) (depth s)) eqn:Ed;
    cbn [orb andb].
  4:{ apply yieldsX_ret. split; [done|]. by destruct (getColorAttachment fb 0). }
  all: eapply yieldsX_bind;
    [apply yieldsX_liftM, total_newFramebufferBindingGuard|intros g ? ->].
  all: eapply yieldsX_bind; [apply yieldsX_liftM, total_bindBuffer|intros _ ? ->].
  all: cbn [app].
  - eapply yieldsX_bind.
    { instantiate (1 := fun fb' l =>
        fb' = match color s with
              | Some newColor => setColorAttachment0Texture (Some newColor) fb
              | None => eraseColorAttachment0 fb
              end /\
        l = match getColorAttachment fb 0 with
            | Some old => if negb (isSome (color s)) then [DetachAsColor old 0 false] else []
            | None => []
            end).
      destruct (color s) as [newColor|] eqn:Hcolor.
      - eapply yieldsX_bind; [apply yieldsX_liftM; intros c; by eexists _, _|intros _ ? ->].
        apply yieldsX_ret. split; [done|]. by destruct (getColorAttachment fb 0).
      - apply differ_true in Ec. destruct (getColorAttachment fb 0) as [old|]; [|done].
        cbn [deref]. apply yieldsX_ret_bind.
        eapply yieldsX_bind; [apply yieldsX_textureCall|intros _ ? ->].
        by apply yieldsX_ret. }
    intros fb1 l1 [-> ->]. eapply yieldsX_bind.
    { instantiate (1 := fun fb' l =>
        fb' = setDepthAttachmentTexture (depth s)
                match color s with
                | Some newColor => setColorAttachment0Texture (Some newColor) fb
                | None => eraseColorAttachment0 fb
                end /\
        l = match getColorAttachment fb 0 with
            | Some old => if negb (isSome (depth s)) then [DetachAsDepth old false] else []
            | None => []
            end).
      destruct (depth s) as [newDepth|] eqn:Hdepth.
      - eapply yieldsX_bind; [apply yieldsX_liftM; intros c; by eexists _, _|intros _ ? ->].
        apply yieldsX_ret. split; [done|]. by destruct (getColorAttachment fb 0).
      - apply andb_true_iff in Ed as [-> Ed]. apply differ_true in Ed.
        destruct Hsafe as [old Hold]; [done|done|by destruct (getDepthAttachment fb)|].
        rewrite Hold. cbn [deref].
        apply yieldsX_ret_bind.
        eapply yieldsX_bind; [apply yieldsX_textureCall|intros _ ? ->].
        by apply yieldsX_ret. }
    intros fb2 l2 [-> ->].
    eapply yieldsX_bind;
      [apply yieldsX_liftM, total_deleteFramebufferBindingGuard|intros _ ? ->].
    apply yieldsX_ret. split; [done|]. rewrite app_nil_r.
    by destruct (getColorAttachment fb 0).
  - eapply yieldsX_bind.
    { instantiate (1 := fun fb' l =>
        fb' = match color s with
              | Some newColor => setColorAttachment0Texture (Some newColor) fb
              | None => eraseColorAttachment0 fb
              end /\
        l = match getColorAttachment fb 0 with
            | Some old => if negb (isSome (color s)) then [DetachAsColor old 0 false] else []
            | None => []
            end).
      destruct (color s) as [newColor|] eqn:Hcolor.
      - eapply yieldsX_bind; [apply yieldsX_liftM; intros c; by eexists _, _|intros _ ? ->].
        apply yieldsX_ret. split; [done|]. by destruct (getColorAttachment fb 0).
      - apply differ_true in Ec. destruct (getColorAttachment fb 0) as [old|]; [|done].
        cbn [deref]. apply yieldsX_ret_bind.
        eapply yieldsX_bind; [apply yieldsX_textureCall|intros _ ? ->].
        by apply yieldsX_ret. }
    intros fb1 l1 [-> ->].
    apply yieldsX_ret_bind.
    eapply yieldsX_bind;
      [apply yieldsX_liftM, total_deleteFramebufferBindingGuard|intros _ ? ->].
    apply yieldsX_ret. split; [done|]. rewrite !app_nil_r.
    destruct (getColorAttachment fb 0); [by rewrite app_nil_r|done].
  - apply yieldsX_ret_bind.
    eapply yieldsX_bind.
    { instantiate (1 := fun fb' l =>
        fb' = setDepthAttachmentTexture (depth s) fb /\
        l = match getColorAttachment fb 0 with
            | Some old => if negb (isSome (depth s)) then [DetachAsDepth old false] else []
            | None => []
            end).
      destruct (depth s) as [newDepth|] eqn:Hdepth.
      - eapply yieldsX_bind; [apply yieldsX_liftM; intros c; by eexists _, _|intros _ ? ->].
        apply yieldsX_ret. split; [done|]. by destruct (getColorAttachment fb 0).
      - apply andb_true_iff in Ed as [-> Ed]. apply differ_true in Ed.
        destruct Hsafe as [old Hold]; [done|done|by destruct (getDepthAttachment fb)|].
        rewrite Hold. cbn [deref].
        apply yieldsX_ret_bind.
        eapply yieldsX_bind; [apply yieldsX_textureCall|intros _ ? ->].
        by apply yieldsX_ret. }
    intros fb2 l2 [-> ->].
    eapply yieldsX_bind;
      [apply yieldsX_liftM, total_deleteFramebufferBindingGuard|intros _ ? ->].
    apply yieldsX_ret. split; [done|]. rewrite app_nil_r.
    by destruct (getColorAttachment fb 0).
Qed.

Lemma updatedColor_members s fb :
  getColorAttachment (updatedColor s fb) 0 = color s /\
  (forall k, k <> 0 ->
     FramebufferDesc.colorAttachments (renderTarget_ (updatedColor s fb)) !! k
     = FramebufferDesc.colorAttachments (renderTarget_ fb) !! k) /\
  FramebufferDesc.depthAttachment (renderTarget_ (updatedColor s fb))
  = FramebufferDesc.depthAttachment (renderTarget_ fb) /\
  FramebufferDesc.stencilAttachment (renderTarget_ (updatedColor s fb))
  = FramebufferDesc.stencilAttachment (renderTarget_ fb) /\
  FramebufferDesc.mode (renderTarget_ (updatedColor s fb))
  = FramebufferDesc.mode (renderTarget_ fb) /\
  frameBufferID_ (updatedColor s fb) = frameBufferID_ fb /\
  resolveFramebuffer (updatedColor s fb) = resolveFramebuffer fb /\
  (is_Some (color s) ->
   getResolveColorAttachment (updatedColor s fb) 0 = getResolveColorAttachment fb 0) /\
  (color s = None -> is_Some (getColorAttachment fb 0) ->
   FramebufferDesc.colorAttachments (renderTarget_ (updatedColor s fb)) !! 0 = None).
Proof.
  unfold updatedColor.
  destruct (differ (getColorAttachment fb 0) (color s)) eqn:Ed.
  2:{ apply differ_false in Ed. repeat split; try done.
      intros Hnone [t Ht]. congruence. }
  destruct (color s) as [newColor|].
  - unfold getColorAttachment, getResolveColorAttachment, setColorAttachment0Texture. cbn.
    rewrite lookup_insert_eq.
    repeat split; try done;
      first [intros k Hk; by rewrite lookup_insert_ne
            |intros _; by destruct (FramebufferDesc.colorAttachments (renderTarget_ fb) !! 0)].
  - unfold getColorAttachment, getResolveColorAttachment, eraseColorAttachment0. cbn.
    rewrite lookup_delete_eq.
    repeat split; try done;
      first [intros k Hk; by rewrite lookup_delete_ne|by intros [? ?]].
Qed.

(** X12: [updateDrawable] with one texture always returns, also for a null
    texture.  Afterwards colour attachment 0 of the object is the texture
    given (none for a null texture); the other colour attachments, the depth
    and stencil attachments, the mode, the framebuffer name and the resolve
    framebuffer are as before; the resolve texture at index 0 is kept when a
    texture is given, and the whole entry is erased when a present texture
    is replaced by null.  A second call with the same texture changes nothing
    and makes no call. *)
Theorem X12_updateDrawable_replaces_color_attachment env texture fb log c :
  exists fb' log' c',
    updateDrawable env texture fb log c = Done (fb', log') c' /\
    getColorAttachment fb' 0 = texture /\
    (forall k, k <> 0 ->
       FramebufferDesc.colorAttachments (renderTarget_ fb') !! k
       = FramebufferDesc.colorAttachments (renderTarget_ fb) !! k) /\
    FramebufferDesc.depthAttachment (renderTarget_ fb')
    = FramebufferDesc.depthAttachment (renderTarget_ fb) /\
    FramebufferDesc.stencilAttachment (renderTarget_ fb')
    = FramebufferDesc.stencilAttachment (renderTarget_ fb) /\
    FramebufferDesc.mode (renderTarget_ fb') = FramebufferDesc.mode (renderTarget_ fb) /\
    frameBufferID_ fb' = frameBufferID_ fb /\
    resolveFramebuffer fb' = resolveFramebuffer fb /\
    (is_Some texture ->
     getResolveColorAttachment fb' 0 = getResolveColorAttachment fb 0) /\
    (texture = None -> is_Some (getColorAttachment fb 0) ->
     FramebufferDesc.colorAttachments (renderTarget_ fb') !! 0 = None) /\
    updateDrawable env texture fb' log' c' = Done (fb', log') c'.
Proof.
  destruct (updateDrawableInternal_yields env {| color := texture; depth := None |}
              false fb) with (log := log) (c := c)
    as (fb' & new & c' & Hrun & -> & _); [done|].
  exists (updatedColor {| color := texture; depth := None |} fb), (log ++ new), c'.
  split; [exact Hrun|].
  pose proof (updatedColor_members {| color := texture; depth := None |} fb)
    as (H0 & Hk & Hd & Hs & Hm & Hid & Hr & Hres & Herase).
  repeat (split; [assumption|]).
  unfold updateDrawable, updateDrawableInternal. cbn [color depth andb] in *.
  rewrite H0. replace (differ texture texture) with false
    by (symmetry; by apply differ_false).
  reflexivity.
Qed.

(** X13: [updateDrawable] with the textures of a surface returns, unless it
    is asked to clear the depth texture of an object that has one and has no
    colour attachment 0.  Afterwards colour attachment 0 and the depth
    attachment of the object are the textures of the surface; the depth
    resolve texture, the stencil attachment, the other colour attachments,
    the mode and the framebuffer name are as before; a second call with the
    same surface changes nothing and makes no call. *)
Theorem X13_updateDrawable_surface_replaces_attachments env s fb log c :
  (depth s = None -> is_Some (getDepthAttachment fb) ->
   is_Some (getColorAttachment fb 0)) ->
  exists fb' log' c',
    updateDrawableSurface env s fb log c = Done (fb', log') c' /\
    getColorAttachment fb' 0 = color s /\
    getDepthAttachment fb' = depth s /\
    getResolveDepthAttachment fb' = getResolveDepthAttachment fb /\
    (forall k, k <> 0 ->
       FramebufferDesc.colorAttachments (renderTarget_ fb') !! k
       = FramebufferDesc.colorAttachments (renderTarget_ fb) !! k) /\
    FramebufferDesc.stencilAttachment (renderTarget_ fb')
    = FramebufferDesc.stencilAttachment (renderTarget_ fb) /\
    FramebufferDesc.mode (renderTarget_ fb') = FramebufferDesc.mode (renderTarget_ fb) /\
    frameBufferID_ fb' = frameBufferID_ fb /\
    updateDrawableSurface env s fb' log' c' = Done (fb', log') c'.
Proof.
  intros Hsafe.
  destruct (updateDrawableInternal_yields env s true fb) with (log := log) (c := c)
    as (fb' & new & c' & Hrun & -> & _); [by intros _|].
  exists (updatedDepth s true fb), (log ++ new), c'.
  split; [exact Hrun|].
  pose proof (updatedColor_members s fb)
    as (H0 & Hk & Hd & Hs & Hm & Hid & Hr & Hres & Herase).
  assert (getColorAttachment (updatedDepth s true fb) 0 = color s /\
          getDepthAttachment (updatedDepth s true fb) = depth s) as [Hc' Hd'].
  { unfold updatedDepth. cbn [andb].
    destruct (differ (getDepthAttachment fb) (depth s)) eqn:Ed.
    - split; [exact H0|reflexivity].
    - apply differ_false in Ed. split; [exact H0|].
      unfold getDepthAttachment in *. by rewrite Hd. }
  split; [exact Hc'|]. split; [exact Hd'|].
  assert (forall P : CustomFramebuffer -> Prop,
            P (updatedColor s fb) ->
            P (setDepthAttachmentTexture (depth s) (updatedColor s fb)) ->
            P (updatedDepth s true fb)) as Hcase.
  { intros P H1 H2. unfold updatedDepth. by destruct (_ && _). }
  split; [apply Hcase; unfold getResolveDepthAttachment; cbn; by rewrite Hd|].
  split; [apply Hcase; exact Hk|].
  split; [apply Hcase; exact Hs|].
  split; [apply Hcase; exact Hm|].
  split; [apply Hcase; exact Hid|].
  unfold updateDrawableSurface, updateDrawableInternal. rewrite Hc', Hd'.
  replace (differ (color s) (color s)) with false by (symmetry; by apply differ_false).
  replace (differ (depth s) (depth s)) with false by (symmetry; by apply differ_false).
  reflexivity.
Qed.

Lemma X13_witness :
  exists fb' log' c',
    updateDrawableSurface releaseEnv someSurface someFramebuffer [] someContext
    = Done (fb', log') c' /\
    getColorAttachment fb' 0 = Some (rgbaTexture 20) /\
    getDepthAttachment fb' = Some (rgbaTexture 21).
Proof.
  destruct (X13_updateDrawable_surface_replaces_attachments releaseEnv someSurface
              someFramebuffer [] someContext)
    as (fb' & log' & c' & Hrun & Hcolor & Hdepth & _); [discriminate|].
  exists fb', log', c'. split; [exact Hrun|]. split; [exact Hcolor|exact Hdepth].
Defined.

(** X14: when [updateDrawable] with the textures of a surface is asked to
    clear the depth texture (the surface has none, the object has one), it
    does not look at the depth texture: it dereferences colour attachment 0 as
    it was at the call.  With no colour attachment 0 that is a null
    dereference, also when the surface brings a colour texture; with one, the
    run returns and [detachAsDepth] is called on that colour texture, after
    [detachAsColor] on the same texture when the colour is cleared too. *)
Theorem X14_updateDrawable_depth_clear_uses_color_attachment env s fb log c :
  is_Some (getDepthAttachment fb) ->
  depth s = None ->
  match getColorAttachment fb 0 with
  | None =>
      exists c', updateDrawableSurface env s fb log c = Stopped UndefinedBehaviour c'
  | Some old =>
      exists fb' new c',
        updateDrawableSurface env s fb log c = Done (fb', log ++ new) c' /\
        new.*2 = (if differ (Some old) (color s) && negb (isSome (color s))
                  then [DetachAsColor old 0 false] else [])
                 ++ [DetachAsDepth old false]
  end.
Proof.
  intros [d Hd] Hs.
  destruct (getColorAttachment fb 0) as [old|] eqn:Hold.
  - destruct (updateDrawableInternal_yields env s true fb) with (log := log) (c := c)
      as (fb' & new & c' & Hrun & _ & Hnew).
    { intros _ _ _. rewrite Hold. by eexists. }
    exists fb', new, c'. split; [exact Hrun|]. rewrite Hnew.
    unfold detachCalls. rewrite Hold, Hd, Hs. reflexivity.
  - unfold updateDrawableSurface, updateDrawableInternal. rewrite Hold, Hd, Hs.
    cbn [andb]. change (differ (Some d) None) with true. rewrite orb_true_r.
    eapply stopsX_bind_r;
      [apply yieldsX_liftM, total_newFramebufferBindingGuard|intros g].
    eapply stopsX_bind_r; [apply yieldsX_liftM, total_bindBuffer|intros _].
    eapply stopsX_bind_r.
    { instantiate (1 := fun _ _ => True).
      destruct (differ None (color s)) eqn:Ec; [|by apply yieldsX_ret].
      destruct (color s) as [newColor|]; [|done].
      eapply yieldsX_bind; [apply yieldsX_liftM; intros c0; by eexists _, _|intros _ ? _].
      by apply yieldsX_ret. }
    intros fb1. apply stopsX_bind_l, stopsX_bind_l.
    intros log0 c0. by exists c0.
Qed.

Lemma X14_witness :
  exists c',
    updateDrawableSurface releaseEnv {| color := Some (rgbaTexture 20); depth := None |}
      depthOnlyFramebuffer [] someContext
    = Stopped UndefinedBehaviour c'.
Proof.
  apply (X14_updateDrawable_depth_clear_uses_color_attachment releaseEnv
           {| color := Some (rgbaTexture 20); depth := None |}
           depthOnlyFramebuffer [] someContext); [by eexists|reflexivity].
Defined.

(** ** Reattachment *)

(** X15: [bind] skips the reattachment of a texture exactly when the
    attachment parameters the render pass asks for are the default write
    parameters, those [initialize] and [updateDrawable] attach with, and the
    framebuffer is not in Stereo mode. *)
Theorem X15_reattachment_skipped_iff_default_params mode a :
  needsToBeReattached mode a = false <->
  toAttachmentParams a mode = defaultWriteAttachmentParams mode /\ mode <> Stereo.
Proof.
  unfold needsToBeReattached, toAttachmentParams, defaultWriteAttachmentParams.
  rewrite !orb_false_iff, !N.ltb_ge. split.
  - intros [[[Hs Hl] Hf] Hm]. split.
    + f_equal; lia.
    + intros ->. discriminate Hs.
  - intros [[= Hf Hm Hl] Hs]. repeat split; try lia.
    destruct mode; done.
Qed.

(** ** CurrentFramebuffer *)

Lemma currentClearMask_bits rp a0 :
  (N.land (currentClearMask rp a0) GL.COLOR_BUFFER_BIT <> 0 <->
   RenderPassDesc.loadAction (RenderPassDesc.colorBase a0) <> LoadAction_Load) /\
  (N.land (currentClearMask rp a0) GL.DEPTH_BUFFER_BIT <> 0 <->
   RenderPassDesc.loadAction (RenderPassDesc.depthBase (RenderPassDesc.depthAttachment rp))
   <> LoadAction_Load) /\
  (N.land (currentClearMask rp a0) GL.STENCIL_BUFFER_BIT <> 0 <->
   RenderPassDesc.loadAction
     (RenderPassDesc.stencilBase (RenderPassDesc.stencilAttachment rp))
   <> LoadAction_Load) /\
  N.land (currentClearMask rp a0)
    (N.lor GL.COLOR_BUFFER_BIT (N.lor GL.DEPTH_BUFFER_BIT GL.STENCIL_BUFFER_BIT))
  = currentClearMask rp a0.
Proof.
  unfold currentClearMask.
  destruct (RenderPassDesc.loadAction (RenderPassDesc.colorBase a0)),
    (RenderPassDesc.loadAction (RenderPassDesc.depthBase (RenderPassDesc.depthAttachment rp))),
    (RenderPassDesc.loadAction
       (RenderPassDesc.stencilBase (RenderPassDesc.stencilAttachment rp)));
    vm_compute; repeat split; try done; intros H; by destruct H.
Qed.

Lemma currentBind_run env rp fb a0 c :
  RenderPassDesc.colorAttachments rp !! 0%nat = Some a0 ->
  exists c',
    currentBind env rp fb c = Done tt c' /\
    calls c' = calls c ++ [BindFramebuffer GL.FRAMEBUFFER (currentFrameBufferID_ fb)]
               ++ currentBindSetupCalls env rp fb a0
               ++ (if currentClearMask rp a0 =? 0 then []
                   else [Clear (currentClearMask rp a0)]) /\
    drawFramebufferBinding c' = currentFrameBufferID_ fb /\
    assertionFailures c' = assertionFailures c.
Proof.
  intros Ha0. unfold currentBind, currentGetResolveColorAttachment, vectorAt,
    currentBindSetupCalls, currentClearMask.
  change (N.to_nat 0) with 0%nat. rewrite Ha0. run_calls. cbn.
  destruct (IGL_OPENGL_ES env), (SRGB env),
    (TextureFormatProperties.isSRGB (Texture.properties (colorAttachment_ fb))),
    (RenderPassDesc.loadAction (RenderPassDesc.colorBase a0)),
    (RenderPassDesc.loadAction (RenderPassDesc.depthBase (RenderPassDesc.depthAttachment rp))),
    (RenderPassDesc.loadAction
       (RenderPassDesc.stencilBase (RenderPassDesc.stencilAttachment rp)));
    cbn; eexists; (split; [reflexivity|]); cbn; rewrite <- ?app_assoc; done.
Qed.

(** X16: [CurrentFramebuffer::bind] binds the framebuffer that was current
    at construction and then clears every buffer whose load action is not
    Load, DontCare included: its calls end with one [clear] whose mask has the
    colour, depth and stencil bit exactly for those buffers and no other bit,
    there is no [clear] when the three load actions are Load, and none
    before the last call.  The first colour attachment of the render pass is
    read whatever the framebuffer is: with a render pass that has none the
    access is outside the vector. *)
Theorem X16_currentBind_clears_unless_load env rp fb c :
  match RenderPassDesc.colorAttachments rp !! 0%nat with
  | Some a0 =>
      exists c' setup clearMask,
        currentBind env rp fb c = Done tt c' /\
        calls c' = calls c ++ [BindFramebuffer GL.FRAMEBUFFER (currentFrameBufferID_ fb)]
                   ++ setup ++ (if clearMask =? 0 then [] else [Clear clearMask]) /\
        (forall mask, Clear mask ∉ setup) /\
        (N.land clearMask GL.COLOR_BUFFER_BIT <> 0 <->
         RenderPassDesc.loadAction (RenderPassDesc.colorBase a0) <> LoadAction_Load) /\
        (N.land clearMask GL.DEPTH_BUFFER_BIT <> 0 <->
         RenderPassDesc.loadAction
           (RenderPassDesc.depthBase (RenderPassDesc.depthAttachment rp))
         <> LoadAction_Load) /\
        (N.land clearMask GL.STENCIL_BUFFER_BIT <> 0 <->
         RenderPassDesc.loadAction
           (RenderPassDesc.stencilBase (RenderPassDesc.stencilAttachment rp))
         <> LoadAction_Load) /\
        N.land clearMask
          (N.lor GL.COLOR_BUFFER_BIT (N.lor GL.DEPTH_BUFFER_BIT GL.STENCIL_BUFFER_BIT))
        = clearMask
  | None =>
      exists c', currentBind env rp fb c = Stopped UndefinedBehaviour c'
  end.
Proof.
  destruct (RenderPassDesc.colorAttachments rp !! 0%nat) as [a0|] eqn:Ha0.
  - destruct (currentBind_run env rp fb a0 c Ha0) as (c' & Hrun & Hcalls & _).
    exists c', (currentBindSetupCalls env rp fb a0), (currentClearMask rp a0).
    split; [exact Hrun|]. split; [exact Hcalls|]. split.
    { intros mask H. unfold currentBindSetupCalls in H.
      repeat match goal with
             | H : _ ∈ _ ++ _ |- _ => apply elem_of_app in H as [H|H]
             | H : _ ∈ (if ?b then _ else _) |- _ => destruct b
             | H : _ ∈ _ :: _ |- _ => apply elem_of_cons in H as [H|H]
             | H : _ = (if ?b then _ else _) |- _ => destruct b
             | H : Clear _ = _ |- _ => discriminate H
             | H : _ ∈ [] |- _ => by apply elem_of_nil in H
             end. }
    apply currentClearMask_bits.
  - unfold currentBind, currentGetResolveColorAttachment, vectorAt.
    change (N.to_nat 0) with 0%nat. rewrite Ha0. run_calls. cbn.
    destruct (IGL_OPENGL_ES env), (SRGB env),
      (TextureFormatProperties.isSRGB (Texture.properties (colorAttachment_ fb)));
      cbn; by eexists.
Qed.

(** ** copyTextureColorAttachment *)

(** X17: [copyTextureColorAttachment] at index 0 of an object that has
    colour attachment 0, inside a binding guard, binds the object's
    framebuffer for reading (to the read target where the backend has one,
    to the single target otherwise), then binds the destination texture and
    copies into it: always into level 0 of the 2D target at offset (0, 0),
    from the rectangle of the range truncated to 32 bits, whatever mip level,
    layer and face the range names.  The two texture calls are made right
    after the binding, before the guard restores.  A null destination is
    dereferenced. *)
Theorem X17_copyTextureColorAttachment_copies env fb colorTexture destTexture range log c :
  getColorAttachment fb 0 = Some colorTexture ->
  match destTexture with
  | Some dest =>
      exists c' pre post,
        let n := (length (calls c) + length pre + 1)%nat in
        copyTextureColorAttachment env fb 0 (Some dest) range log c
        = Done (tt, log ++ [(n, BindTexture dest);
                            (n, CopyTexSubImage2D GL_TEXTURE_2D 0 0 0
                                  (to_uint32 (TextureRangeDesc.x range))
                                  (to_uint32 (TextureRangeDesc.y range))
                                  (to_uint32 (TextureRangeDesc.width range))
                                  (to_uint32 (TextureRangeDesc.height range)))]) c' /\
        calls c' = calls c ++ pre
                   ++ [BindFramebuffer
                         (if ReadWriteFramebuffer env then GL.READ_FRAMEBUFFER
                          else GL.FRAMEBUFFER) (frameBufferID_ fb)]
                   ++ post /\
        Forall isBindingCall pre /\ Forall isBindingCall post
  | None =>
      exists c',
        copyTextureColorAttachment env fb 0 None range log c
        = Stopped UndefinedBehaviour c'
  end.
Proof.
  intros Hcolor.
  destruct (newFramebufferBindingGuard_calls env c)
    as (g & c1 & pre & Hnew & Hc1 & Hpre & _).
  set (target := if ReadWriteFramebuffer env then GL.READ_FRAMEBUFFER else GL.FRAMEBUFFER).
  assert (exists c2, bindBufferForRead env fb c1 = Done tt c2 /\
                     calls c2 = calls c1 ++ [BindFramebuffer target (frameBufferID_ fb)])
    as (c2 & Hbind & Hc2).
  { unfold bindBufferForRead, bindBuffer. subst target. run_calls.
    destruct (ReadWriteFramebuffer env); by eexists. }
  destruct destTexture as [dest|].
  2:{ unfold copyTextureColorAttachment. rewrite Hcolor. cbn [N.eqb negb isSome orb].
      rewrite run_bindX. unfold liftM at 1. rewrite Hnew.
      rewrite run_bindX. unfold liftM at 1. rewrite Hbind. by eexists. }
  destruct (deleteFramebufferBindingGuard_calls env g c2)
    as (c3 & post & Hdel & Hc3 & Hpost & _).
  exists c3, pre, post. cbv zeta.
  unfold copyTextureColorAttachment. rewrite Hcolor. cbn [N.eqb negb isSome orb].
  rewrite run_bindX. unfold liftM at 1. rewrite Hnew.
  rewrite run_bindX. unfold liftM at 1. rewrite Hbind.
  cbn [deref].
  cbv [textureCall mbind MX_bind mret MX_ret liftM]. rewrite Hdel. split.
  - rewrite <- app_assoc. cbn [app]. rewrite Hc2, Hc1, !length_app. reflexivity.
  - split; [|done]. rewrite Hc3, Hc2, Hc1. by rewrite <- !app_assoc.
Qed.

Lemma X17_witness :
  exists c' pre post,
    copyTextureColorAttachment releaseEnv someFramebuffer 0 (Some (rgbaTexture 30))
      TextureRangeDesc.default [] someContext
    = Done (tt, [((length pre + 1)%nat, BindTexture (rgbaTexture 30));
                 ((length pre + 1)%nat, CopyTexSubImage2D GL_TEXTURE_2D 0 0 0 0 0 1 1)]) c' /\
    calls c' = pre ++ [BindFramebuffer GL.READ_FRAMEBUFFER 6] ++ post.
Proof.
  destruct (X17_copyTextureColorAttachment_copies releaseEnv someFramebuffer
              (rgbaTexture 10) (Some (rgbaTexture 30))
              TextureRangeDesc.default [] someContext)
    as (c' & pre & post & Hrun & Hcalls & _); [reflexivity|].
  exists c', pre, post. split; [exact Hrun|exact Hcalls].
Defined.

(** ** getViewport *)

(** X18: the viewport follows the drawable.  After [updateDrawable] with a
    texture, [getViewport] is the rectangle at the origin with the size of
    that texture; after [updateDrawable] with a null texture it falls back to
    the size of the depth texture; with neither it fails its assertion and, in
    a build that goes on, is the empty rectangle.  It makes no context
    call. *)
Theorem X18_viewport_follows_drawable env getSize texture fb log c fb' log' c' c2 :
  updateDrawable env texture fb log c = Done (fb', log') c' ->
  getViewport env getSize fb' c2
  = match texture, getDepthAttachment fb with
    | Some t, _ =>
        Done {| viewportX := 0; viewportY := 0;
                viewportWidth := (getSize t).1; viewportHeight := (getSize t).2 |} c2
    | None, Some d =>
        Done {| viewportX := 0; viewportY := 0;
                viewportWidth := (getSize d).1; viewportHeight := (getSize d).2 |} c2
    | None, None =>
        let c3 := recordAssertion
                    "No color/depth attachments in CustomFrameBuffer at index 0" c2 in
        if assertionsAbort env then Stopped AssertionFailure c3
        else Done {| viewportX := 0; viewportY := 0;
                     viewportWidth := 0; viewportHeight := 0 |} c3
    end.
Proof.
  intros Hrun.
  destruct (updateDrawableInternal_yields env {| color := texture; depth := None |}
              false fb) with (log := log) (c := c)
    as (fb'' & new & c'' & Hrun' & -> & _); [done|].
  unfold updateDrawable in Hrun. rewrite Hrun' in Hrun. injection Hrun as <- _ _.
  pose proof (updatedColor_members {| color := texture; depth := None |} fb)
    as (H0 & _ & Hd & _).
  unfold getViewport, getDepthAttachment.
  change (updatedDepth {| color := texture; depth := None |} false fb)
    with (updatedColor {| color := texture; depth := None |} fb).
  rewrite H0, Hd. cbn [color].
  destruct texture as [t|]; [done|]. cbn [isSome].
  destruct (FramebufferDesc.texture (FramebufferDesc.depthAttachment (renderTarget_ fb)));
    [done|].
  unfold IGL_ASSERT_MSG. rewrite run_bind. by destruct (assertionsAbort env).
Qed.

Lemma X18_witness :
  exists fb' log' c',
    updateDrawable releaseEnv None someFramebuffer [] someContext = Done (fb', log') c' /\
    getViewport releaseEnv (fun t => (Texture.name t, 2 * Texture.name t)) fb' c'
    = Done {| viewportX := 0; viewportY := 0;
              viewportWidth := 13; viewportHeight := 26 |} c'.
Proof.
  assert (exists fb' log' c',
            updateDrawable releaseEnv None someFramebuffer [] someContext
            = Done (fb', log') c') as (fb' & log' & c' & Hrun)
    by (vm_compute; eauto).
  exists fb', log', c'. split; [exact Hrun|].
  exact (X18_viewport_follows_drawable releaseEnv
           (fun t => (Texture.name t, 2 * Texture.name t)) None someFramebuffer
           [] someContext fb' log' c' c' Hrun).
Defined.

(** ** Faults of initialize *)

Lemma assertsOnly_total {A} env (m : M A) : total m -> assertsOnly env m.
Proof. intros H c k c' E. destruct (H c) as (a & c1 & E'). congruence. Qed.

Lemma assertsOnly_bind {A B} env (m : M A) (f : A -> M B) :
  assertsOnly env m -> (forall a, assertsOnly env (f a)) -> assertsOnly env (m ≫= f).
Proof.
  intros Hm Hf c k c'. rewrite run_bind.
  destruct (m c) as [a c1|k1 c1] eqn:E; [apply Hf|].
  intros [= -> ->]. by apply Hm in E.
Qed.

Lemma assertsOnly_ret {A} env (a : A) : assertsOnly env (mret a).
Proof. apply assertsOnly_total, total_ret. Qed.

Lemma assertsOnly_IGL_ASSERT_MSG env cond msg : assertsOnly env (IGL_ASSERT_MSG env cond msg).
Proof.
  intros c k c'. unfold IGL_ASSERT_MSG.
  destruct cond; [discriminate|]. destruct (assertionsAbort env); [|discriminate].
  by intros [= <- _].
Qed.

Lemma assertsOnly_foldM {A S} env (l : list A) (body : S -> A -> M S) s :
  (forall s x, assertsOnly env (body s x)) -> assertsOnly env (foldM l body s).
Proof.
  intros Hb. revert s. induction l as [|x l IH]; intros s; cbn [foldM].
  - apply assertsOnly_ret.
  - apply assertsOnly_bind; [apply Hb|apply IH].
Qed.

Lemma assertsOnly_leaving {A} env (body : M A) d :
  assertsOnly env body -> total d -> assertsOnly env (leaving body d).
Proof.
  intros Hb Hd c k c'. unfold leaving.
  destruct (body c) as [a c1|k1 c1] eqn:E.
  - destruct (Hd c1) as ([] & c2 & Hrun). by rewrite (bind_Done _ _ _ _ _ Hrun).
  - destruct (Hb _ _ _ E) as [-> Habort]. by intros [= <- _].
Qed.

Lemma assertsOnly_withFramebufferBindingGuard {A} env (body : M A) :
  assertsOnly env body -> assertsOnly env (withFramebufferBindingGuard env body).
Proof.
  intros Hb. unfold withFramebufferBindingGuard.
  apply assertsOnly_bind;
    [apply assertsOnly_total, total_newFramebufferBindingGuard|intros g].
  apply assertsOnly_leaving; [exact Hb|apply total_deleteFramebufferBindingGuard].
Qed.

Ltac assertsOnly_step :=
  first
    [ apply assertsOnly_ret
    | apply assertsOnly_IGL_ASSERT_MSG
    | apply assertsOnly_total, total_call
    | apply assertsOnly_total, total_checkFramebufferStatus
    | apply assertsOnly_total, total_bindFramebuffer
    | apply assertsOnly_bind; [|intros ?] ].

Lemma assertsOnly_prepareResource env f outResult fb :
  (forall d r, noResolveTextures d -> assertsOnly env (f d r newCustomFramebuffer)) ->
  assertsOnly env (prepareResource env f outResult fb).
Proof.
  intros Hf. unfold prepareResource.
  apply assertsOnly_bind; [by apply assertsOnly_total; intros c; eexists _, _|intros id].
  cbv zeta. apply assertsOnly_bind; [apply assertsOnly_total, total_bindFramebuffer|intros _].
  apply assertsOnly_bind.
  { apply assertsOnly_foldM. intros s [k a]. cbn.
    destruct (FramebufferDesc.texture a); repeat assertsOnly_step. }
  intros drawBuffers.
  apply assertsOnly_bind; [destruct (_ <? _)%nat; repeat assertsOnly_step|intros _].
  apply assertsOnly_bind.
  { destruct (FramebufferDesc.texture _); repeat assertsOnly_step. }
  intros _. apply assertsOnly_bind.
  { destruct (FramebufferDesc.texture _); repeat assertsOnly_step. }
  intros _. apply assertsOnly_bind; [repeat assertsOnly_step|intros result].
  apply assertsOnly_bind; [repeat assertsOnly_step|intros _].
  destruct (negb (Result.isOk result)); [apply assertsOnly_ret|].
  pose proof (noResolveTextures_resolveDesc
    (map_to_list (FramebufferDesc.colorAttachments (renderTarget_ (setFrameBufferID id fb))))
    (FramebufferDesc.resolveTexture
       (FramebufferDesc.depthAttachment (renderTarget_ (setFrameBufferID id fb))))
    (FramebufferDesc.resolveTexture
       (FramebufferDesc.stencilAttachment (renderTarget_ (setFrameBufferID id fb)))))
    as Hno.
  destruct (collectResolve _) as [createResolveFramebuffer resolveColorAttachments].
  destruct (createResolveFramebuffer && _).
  { unfold IGL_ASSERT_NOT_REACHED. repeat assertsOnly_step. }
  match goal with |- assertsOnly _ (if ?b then _ else _) => destruct b end;
    [|apply assertsOnly_ret].
  apply assertsOnly_bind; [by apply Hf|intros [childResult cfb]]. apply assertsOnly_ret.
Qed.

Lemma assertsOnly_initialize env desc outResult fb :
  assertsOnly env (initialize env desc outResult fb).
Proof.
  intros c. unfold initialize. rewrite initializeFuel_S. revert c.
  destruct (IGL_UNEXPECTED (isInitialized fb)); [apply assertsOnly_ret|].
  apply assertsOnly_withFramebufferBindingGuard.
  apply assertsOnly_bind; [destruct (_ && _); repeat assertsOnly_step|intros _].
  destruct (hasImplicitColorAttachment _); [apply assertsOnly_ret|].
  apply assertsOnly_prepareResource. intros d r Hno c1.
  rewrite initializeFuel_S. revert c1.
  destruct (IGL_UNEXPECTED (isInitialized newCustomFramebuffer)); [apply assertsOnly_ret|].
  apply assertsOnly_withFramebufferBindingGuard.
  apply assertsOnly_bind; [destruct (_ && _); repeat assertsOnly_step|intros _].
  destruct (hasImplicitColorAttachment _); [apply assertsOnly_ret|].
  intros c2.
  rewrite (prepareResource_noResolve env _ (fun _ _ _ => mret (None, newCustomFramebuffer)))
    by exact Hno.
  revert c2. apply assertsOnly_prepareResource. intros ? ? _. apply assertsOnly_ret.
Qed.

Lemma prepareResource_result env f outResult fb c r fb' c' :
  prepareResource env f outResult fb c = Done (r, fb') c' ->
  (is_Some outResult <-> is_Some r).
Proof.
  unfold prepareResource. intros H.
  do 8 inv_bind H.
  destruct (negb (Result.isOk a5)).
  { cbv [mret M_ret] in H. simplify_eq. by destruct outResult. }
  destruct (collectResolve _) as [createResolveFramebuffer resolveColorAttachments].
  destruct (createResolveFramebuffer && _).
  { inv_bind H. cbv [mret M_ret] in H. simplify_eq. by destruct outResult. }
  match type of H with (if ?b then _ else _) _ = _ => destruct b end.
  - inv_bind H. destruct a7 as [childResult cfb].
    cbv [mret M_ret] in H. simplify_eq. by destruct outResult.
  - cbv [mret M_ret] in H. simplify_eq. by destruct outResult.
Qed.

Lemma initialize_result env desc outResult fb c r fb' c' :
  initialize env desc outResult fb c = Done (r, fb') c' ->
  (is_Some outResult <-> is_Some r).
Proof.
  unfold initialize. rewrite initializeFuel_S.
  destruct (IGL_UNEXPECTED (isInitialized fb)).
  { cbv [mret M_ret]. intros [= <- _ _]. by destruct outResult. }
  intros H. apply withFramebufferBindingGuard_Done_inv in H as (g & c1 & c2 & _ & H & _).
  inv_bind H. destruct (hasImplicitColorAttachment _).
  { cbv [mret M_ret] in H. simplify_eq. by destruct outResult. }
  by apply prepareResource_result in H.
Qed.

(** X19: [initialize] always comes to an end without a fault of its own,
    whatever descriptor, object and driver it is given: it reads no attachment
    that is not there, and its recursion on the resolve framebuffer is one
    level deep.  In a build where failed assertions do not stop the program it
    returns, with a result whenever one is asked for; otherwise it returns or
    stops at a failed assertion. *)
Theorem X19_initialize_returns env desc outResult fb c :
  (assertionsAbort env = false ->
   exists r fb' c',
     initialize env desc outResult fb c = Done (r, fb') c' /\
     (is_Some outResult <-> is_Some r)) /\
  (forall k c', initialize env desc outResult fb c = Stopped k c' ->
                k = AssertionFailure /\ assertionsAbort env = true).
Proof.
  split; [|apply assertsOnly_initialize].
  intros Hrelease.
  destruct (initialize env desc outResult fb c) as [[r fb'] c'|k c'] eqn:Hrun.
  2:{ apply assertsOnly_initialize in Hrun as [_ Habort]. congruence. }
  exists r, fb', c'. split; [reflexivity|].
  by apply initialize_result in Hrun.
Qed.

Lemma X19_witness :
  exists r fb' c',
    initialize releaseEnv mismatchedDesc (Some Result.ok) newCustomFramebuffer someContext
    = Done (r, fb') c' /\ is_Some r.
Proof.
  destruct (proj1 (X19_initialize_returns releaseEnv mismatchedDesc (Some Result.ok)
                     newCustomFramebuffer someContext) eq_refl)
    as (r & fb' & c' & Hrun & Hr).
  exists r, fb', c'. split; [exact Hrun|]. apply Hr. by eexists.
Defined.

(** ** copyBytesColorAttachment *)

Lemma assert_release env cond msg c :
  assertionsAbort env = false ->
  exists c', IGL_ASSERT_MSG env cond msg c = Done tt c' /\
             calls c' = calls c /\ lastFramebufferName c' = lastFramebufferName c.
Proof.
  intros Hrelease. unfold IGL_ASSERT_MSG. rewrite Hrelease.
  destruct cond; by eexists.
Qed.

Lemma call_run e c :
  exists c', call e c = Done tt c' /\ calls c' = calls c ++ [e].
Proof. by eexists. Qed.

Lemma initialize_release_run env desc r0 c :
  assertionsAbort env = false ->
  exists r extra c' new,
    initialize env desc (Some r0) newCustomFramebuffer c = Done (Some r, extra) c' /\
    calls c' = calls c ++ new /\ Forall initializeCall new /\
    frameBufferID_ extra
    = (if hasImplicitColorAttachment (setRenderTarget desc newCustomFramebuffer) then 0
       else lastFramebufferName c + 1).
Proof.
  intros Hrelease.
  destruct (initialize env desc (Some r0) newCustomFramebuffer c)
    as [[r extra] c'|k c'] eqn:Hrun.
  2:{ apply assertsOnly_initialize in Hrun as [_ Habort]. congruence. }
  destruct (proj1 (initialize_result _ _ _ _ _ _ _ _ Hrun)) as [r' ->]; [by eexists|].
  destruct (emits_initializeFuel_calls env 2 desc (Some r0) newCustomFramebuffer c)
    as (new & Hnew & Hcalls).
  fold (initialize env desc (Some r0) newCustomFramebuffer c) in Hnew.
  rewrite Hrun in Hnew. cbn in Hnew.
  exists r', extra, c', new. split; [done|]. split; [done|]. split; [done|].
  apply initializeFuel_fresh_inv in Hrun
    as (_ & _ & [[-> ->]|(-> & c0 & c1 & Hn & Hrun)]); [done| |reflexivity].
  apply prepareResource_name in Hrun. by rewrite Hrun, Hn.
Qed.

(** X20: in a build where failed assertions do not stop the program,
    [copyBytesColorAttachment] at index 0 of an object that has colour
    attachment 0 returns.  Inside a binding guard it initializes a temporary
    framebuffer on the texture, binds it for reading, attaches the texture
    for reading at the face, mip level and layer of the range, checks the
    status, sets the pack alignment for the row length (the one given or,
    for 0, the one of the range), flushes and reads the rectangle of the
    range once: as RGBA unsigned bytes, or as RGBA_INTEGER unsigned ints for
    the RGBA_UInt32 format where the device has integer textures; without
    them nothing is read and the buffer is returned as it was.  It then
    checks for errors, and before the guard restores the bindings the
    temporary framebuffer is deleted (a texture with implicit storage has
    none: framebuffer 0 is bound and nothing is deleted). *)
Theorem X20_copyBytesColorAttachment_reads
    env fb colorTexture pixelBytes range bytesPerRow c :
  assertionsAbort env = false ->
  getColorAttachment fb 0 = Some colorTexture ->
  let id := if Texture.isImplicitStorage colorTexture then 0
            else lastFramebufferName c + 1 in
  let target := if ReadWriteFramebuffer env then GL.READ_FRAMEBUFFER
                else GL.FRAMEBUFFER in
  let rowBytes := if bytesPerRow =? 0
                  then TextureFormatProperties.getBytesPerRowRange
                         (Texture.properties colorTexture) range
                  else bytesPerRow in
  let integer := Texture.getFormat colorTexture =? RGBA_UInt32 in
  exists bytes c' setup restore,
    copyBytesColorAttachment env fb 0 pixelBytes range bytesPerRow c = Done bytes c' /\
    calls c'
    = calls c ++ setup
      ++ [BindFramebuffer target id;
          AttachAsColor colorTexture 0
            {| Texture.face := to_uint32 (TextureRangeDesc.face range);
               Texture.mipLevel := to_uint32 (TextureRangeDesc.mipLevel range);
               Texture.layer := to_uint32 (TextureRangeDesc.layer range);
               Texture.read := true; Texture.stereo := false |};
          CheckFramebufferStatus target;
          PixelStorei GL.PACK_ALIGNMENT
            (getAlignment env colorTexture rowBytes (TextureRangeDesc.mipLevel range));
          Flush]
      ++ (if integer && negb (TextureInteger env) then []
          else [ReadPixels (to_uint32 (TextureRangeDesc.x range))
                  (to_uint32 (TextureRangeDesc.y range))
                  (to_uint32 (TextureRangeDesc.width range))
                  (to_uint32 (TextureRangeDesc.height range))
                  (if integer then GL.RGBA_INTEGER else GL.RGBA)
                  (if integer then GL.UNSIGNED_INT else GL.UNSIGNED_BYTE)])
      ++ [CheckForErrors; GetLastError]
      ++ (if Texture.isImplicitStorage colorTexture then []
          else [DeleteFramebuffers id])
      ++ restore /\
    Forall initializeCall setup /\ Forall isBindingCall restore /\
    (integer && negb (TextureInteger env) = true -> bytes = pixelBytes) /\
    (integer && negb (TextureInteger env) = false ->
     exists before, bytes = readPixelsData env (calls c ++ before)).
Proof.
  intros Hrelease Hcolor id target rowBytes integer.
  set (desc := withColorAttachments
                 {[ 0 := {| FramebufferDesc.texture := Some colorTexture;
                            FramebufferDesc.resolveTexture := None |} ]}
                 FramebufferDesc.default).
  destruct (assert_release env (TextureRangeDesc.numFaces range =? 1)
              "range.numFaces MUST be 1" c Hrelease) as (ca & Ha & Hca & Hna).
  destruct (assert_release env (TextureRangeDesc.numLayers range =? 1)
              "range.numLayers MUST be 1" ca Hrelease) as (cb & Hb & Hcb & Hnb).
  destruct (assert_release env (TextureRangeDesc.numMipLevels range =? 1)
              "range.numMipLevels MUST be 1" cb Hrelease) as (cc & Hc & Hcc & Hnc).
  destruct (newFramebufferBindingGuard_calls env cc)
    as (g & c1 & pre & Hnew & Hc1 & Hpre & Hn1).
  destruct (initialize_release_run env desc Result.ok c1 Hrelease)
    as (ret & extra & c2 & init & Hinit & Hc2 & Hinitcalls & Hid).
  assert (hasImplicitColorAttachment (setRenderTarget desc newCustomFramebuffer)
          = Texture.isImplicitStorage colorTexture) as Himplicit.
  { unfold hasImplicitColorAttachment. cbn. by rewrite lookup_singleton_eq. }
  rewrite Himplicit, Hn1, Hnc, Hnb, Hna in Hid. fold id in Hid.
  destruct (assert_release env (Result.isOk ret) (Result.message ret) c2 Hrelease)
    as (c3 & Hok & Hc3 & _).
  assert (exists c4, bindBufferForRead env extra c3 = Done tt c4 /\
                     calls c4 = calls c3 ++ [BindFramebuffer target id])
    as (c4 & Hbind & Hc4).
  { unfold bindBufferForRead, bindBuffer. subst target. rewrite Hid. run_calls.
    destruct (ReadWriteFramebuffer env); by eexists. }
  assert (exists c5,
            toReadAttachmentParams env range Mono c4
            = Done {| Texture.face := to_uint32 (TextureRangeDesc.face range);
                      Texture.mipLevel := to_uint32 (TextureRangeDesc.mipLevel range);
                      Texture.layer := to_uint32 (TextureRangeDesc.layer range);
                      Texture.read := true; Texture.stereo := false |} c5 /\
            calls c5 = calls c4) as (c5 & Hparams & Hc5).
  { unfold toReadAttachmentParams.
    destruct (assert_release env (TextureRangeDesc.numLayers range =? 1)
                "range.numLayers must be 1." c4 Hrelease) as (x1 & H1 & Hx1 & _).
    destruct (assert_release env (TextureRangeDesc.numMipLevels range =? 1)
                "range.numMipLevels must be 1." x1 Hrelease) as (x2 & H2 & Hx2 & _).
    destruct (assert_release env (TextureRangeDesc.numFaces range =? 1)
                "range.numFaces must be 1." x2 Hrelease) as (x3 & H3 & Hx3 & _).
    exists x3. rewrite (bind_Done _ _ _ _ _ H1), (bind_Done _ _ _ _ _ H2),
      (bind_Done _ _ _ _ _ H3). split; [reflexivity|congruence]. }
  destruct (call_run (AttachAsColor colorTexture 0
              {| Texture.face := to_uint32 (TextureRangeDesc.face range);
                 Texture.mipLevel := to_uint32 (TextureRangeDesc.mipLevel range);
                 Texture.layer := to_uint32 (TextureRangeDesc.layer range);
                 Texture.read := true; Texture.stereo := false |}) c5)
    as (c6 & Hattach & Hc6).
  assert (exists status c7, checkFramebufferStatus env true c6 = Done status c7 /\
                            calls c7 = calls c6 ++ [CheckFramebufferStatus target])
    as (status & c7 & Hstatus & Hc7).
  { unfold checkFramebufferStatus. subst target. run_calls.
    destruct (ReadWriteFramebuffer env); by eexists _, _. }
  destruct (call_run (PixelStorei GL.PACK_ALIGNMENT
              (getAlignment env colorTexture rowBytes (TextureRangeDesc.mipLevel range))) c7)
    as (c8 & Hstore & Hc8).
  destruct (call_run Flush c8) as (c9 & Hflush & Hc9).
  set (readCalls := if integer && negb (TextureInteger env) then []
                    else [ReadPixels (to_uint32 (TextureRangeDesc.x range))
                            (to_uint32 (TextureRangeDesc.y range))
                            (to_uint32 (TextureRangeDesc.width range))
                            (to_uint32 (TextureRangeDesc.height range))
                            (if integer then GL.RGBA_INTEGER else GL.RGBA)
                            (if integer then GL.UNSIGNED_INT else GL.UNSIGNED_BYTE)]).
  assert (exists bytes c10,
            (if integer then
               if TextureInteger env then
                 readPixels env (to_uint32 (TextureRangeDesc.x range))
                   (to_uint32 (TextureRangeDesc.y range))
                   (to_uint32 (TextureRangeDesc.width range))
                   (to_uint32 (TextureRangeDesc.height range))
                   GL.RGBA_INTEGER GL.UNSIGNED_INT
               else IGL_ASSERT_NOT_IMPLEMENTED env;; mret pixelBytes
             else
               readPixels env (to_uint32 (TextureRangeDesc.x range))
                 (to_uint32 (TextureRangeDesc.y range))
                 (to_uint32 (TextureRangeDesc.width range))
                 (to_uint32 (TextureRangeDesc.height range))
                 GL.RGBA GL.UNSIGNED_BYTE) c9 = Done bytes c10 /\
            calls c10 = calls c9 ++ readCalls /\
            (integer && negb (TextureInteger env) = true -> bytes = pixelBytes) /\
            (integer && negb (TextureInteger env) = false ->
             bytes = readPixelsData env (calls c9)))
    as (bytes & c10 & Hread & Hc10 & Hkept & Hdata).
  { subst readCalls. destruct integer, (TextureInteger env); cbn [andb negb].
    - eexists _, _. split; [reflexivity|]. by repeat split.
    - destruct (assert_release env false "Code NOT implemented" c9 Hrelease)
        as (x & Hx & Hcx & _).
      exists pixelBytes, x. unfold IGL_ASSERT_NOT_IMPLEMENTED.
      rewrite (bind_Done _ _ _ _ _ Hx). split; [reflexivity|].
      rewrite app_nil_r. by repeat split.
    - eexists _, _. split; [reflexivity|]. by repeat split.
    - eexists _, _. split; [reflexivity|]. by repeat split. }
  destruct (call_run CheckForErrors c10) as (c11 & Hcheck & Hc11).
  assert (exists error c12, getLastError env c11 = Done error c12 /\
                            calls c12 = calls c11 ++ [GetLastError])
    as (error & c12 & Herror & Hc12) by (by eexists _, _).
  destruct (assert_release env (Result.isOk error) (Result.message error) c12 Hrelease)
    as (c13 & Hassert & Hc13 & _).
  assert (exists c14, deleteCustomFramebuffer extra c13 = Done tt c14 /\
                      calls c14 = calls c13 ++
                        (if Texture.isImplicitStorage colorTexture then []
                         else [DeleteFramebuffers id]))
    as (c14 & Hdelete & Hc14).
  { unfold deleteCustomFramebuffer. rewrite Hid. subst id.
    destruct (Texture.isImplicitStorage colorTexture).
    - cbn. eexists. split; [reflexivity|]. by rewrite app_nil_r.
    - replace (lastFramebufferName c + 1 =? 0) with false
        by (symmetry; apply N.eqb_neq; lia).
      cbn. by eexists. }
  destruct (deleteFramebufferBindingGuard_calls env g c14)
    as (c15 & post & Hdel & Hc15 & Hpost & _).
  exists bytes, c15, (pre ++ init), post.
  split.
  { unfold copyBytesColorAttachment. cbn [N.eqb negb]. rewrite Hcolor.
    rewrite (bind_Done _ _ _ _ _ Ha), (bind_Done _ _ _ _ _ Hb), (bind_Done _ _ _ _ _ Hc),
      (bind_Done _ _ _ _ _ Hnew).
    fold desc. rewrite (bind_Done _ _ _ _ _ Hinit). cbn [default].
    rewrite (bind_Done _ _ _ _ _ Hok), (bind_Done _ _ _ _ _ Hbind),
      (bind_Done _ _ _ _ _ Hparams).
    unfold attachAsColor. rewrite (bind_Done _ _ _ _ _ Hattach),
      (bind_Done _ _ _ _ _ Hstatus).
    fold rowBytes. rewrite (bind_Done _ _ _ _ _ Hstore), (bind_Done _ _ _ _ _ Hflush).
    fold integer. rewrite (bind_Done _ _ _ _ _ Hread), (bind_Done _ _ _ _ _ Hcheck),
      (bind_Done _ _ _ _ _ Herror), (bind_Done _ _ _ _ _ Hassert),
      (bind_Done _ _ _ _ _ Hdelete), (bind_Done _ _ _ _ _ Hdel).
    reflexivity. }
  split.
  { rewrite Hc15, Hc14, Hc13, Hc12, Hc11, Hc10, Hc9, Hc8, Hc7, Hc6, Hc5, Hc4, Hc3,
      Hc2, Hc1, Hcc, Hcb, Hca.
    rewrite <- !app_assoc. reflexivity. }
  split.
  { apply Forall_app. split; [|done].
    eapply Forall_impl; [exact Hpre|]. intros e. by destruct e. }
  split; [done|]. split; [done|].
  intros Hint. rewrite (Hdata Hint), Hc9, Hc8, Hc7, Hc6, Hc5, Hc4, Hc3, Hc2, Hc1,
    Hcc, Hcb, Hca.
  rewrite <- !app_assoc. by eexists.
Qed.

Lemma X20_witness :
  exists bytes c' setup restore,
    copyBytesColorAttachment releaseEnv someFramebuffer 0 [1; 2; 3]
      TextureRangeDesc.default 0 someContext = Done bytes c' /\
    calls c'
    = setup
      ++ [BindFramebuffer GL.READ_FRAMEBUFFER 6;
          AttachAsColor (rgbaTexture 10) 0
            {| Texture.face := 0; Texture.mipLevel := 0; Texture.layer := 0;
               Texture.read := true; Texture.stereo := false |};
          CheckFramebufferStatus GL.READ_FRAMEBUFFER;
          PixelStorei GL.PACK_ALIGNMENT 4;
          Flush]
      ++ [ReadPixels 0 0 1 1 GL.RGBA GL.UNSIGNED_BYTE]
      ++ [CheckForErrors; GetLastError]
      ++ [DeleteFramebuffers 6]
      ++ restore.
Proof.
  destruct (X20_copyBytesColorAttachment_reads releaseEnv someFramebuffer
              (rgbaTexture 10) [1; 2; 3] TextureRangeDesc.default 0 someContext)
    as (bytes & c' & setup & restore & Hrun & Hcalls & _); [reflexivity|reflexivity|].
  exists bytes, c', setup, restore. split; [exact Hrun|exact Hcalls].
Defined.

(** ** Copies that are not supported *)

(** X3: the copies the backend does not support fail an assertion and do
    nothing else: they make no context call and no texture call, and the
    caller's buffer is returned as it was; in a build where failed assertions
    stop the program the run stops there.  These are
    [copyTextureColorAttachment] at a nonzero index or at an index without
    colour attachment, [copyBytesColorAttachment] at index 0 of an object
    without colour attachment 0 (after its three assertions on the range,
    which hold for a range of one face, one layer and one mip level), and
    [copyBytesDepthAttachment] and [copyBytesStencilAttachment] always. *)
Theorem X3_unsupported_copies_only_assert env :
  (forall fb index destTexture range log c,
     index <> 0 \/ getColorAttachment fb index = None ->
     copyTextureColorAttachment env fb index destTexture range log c
     = asserted env (tt, log) "Invalid index: %d" c) /\
  (forall fb pixelBytes range bytesPerRow c,
     getColorAttachment fb 0 = None ->
     TextureRangeDesc.numFaces range = 1 ->
     TextureRangeDesc.numLayers range = 1 ->
     TextureRangeDesc.numMipLevels range = 1 ->
     copyBytesColorAttachment env fb 0 pixelBytes range bytesPerRow c
     = asserted env pixelBytes "Code NOT implemented" c) /\
  (forall pixelBytes range bytesPerRow c,
     copyBytesDepthAttachment env pixelBytes range bytesPerRow c
     = asserted env pixelBytes "Code NOT implemented" c /\
     copyBytesStencilAttachment env pixelBytes range bytesPerRow c
     = asserted env pixelBytes "Code NOT implemented" c) /\
  (forall A (a : A) msg c,
     calls (finalContext (asserted env a msg c)) = calls c /\
     assertionFailures (finalContext (asserted env a msg c))
     = assertionFailures c ++ [msg]).
Proof.
  unfold asserted. split; [|split; [|split]].
  - intros fb index destTexture range log c Hbad.
    unfold copyTextureColorAttachment.
    assert (negb (index =? 0) || negb (isSome (getColorAttachment fb index)) = true) as ->.
    { destruct Hbad as [Hindex| ->]; [|by rewrite orb_true_r].
      apply N.eqb_neq in Hindex. by rewrite Hindex. }
    rewrite run_bindX. unfold liftM, IGL_ASSERT_MSG.
    by destruct (assertionsAbort env).
  - intros fb pixelBytes range bytesPerRow c Hnone Hfaces Hlayers Hmips.
    unfold copyBytesColorAttachment. rewrite Hnone, Hfaces, Hlayers, Hmips.
    cbn [N.eqb Pos.eqb negb]. unfold IGL_ASSERT_NOT_IMPLEMENTED, IGL_ASSERT_MSG.
    rewrite !run_bind. by destruct (assertionsAbort env).
  - intros pixelBytes range bytesPerRow c.
    unfold copyBytesDepthAttachment, copyBytesStencilAttachment,
      IGL_ASSERT_NOT_IMPLEMENTED, IGL_ASSERT_MSG.
    rewrite !run_bind. by destruct (assertionsAbort env).
  - intros A a msg c. by destruct (assertionsAbort env).
Qed.

Lemma X3_witness :
  copyTextureColorAttachment debugEnv someFramebuffer 2 (Some (rgbaTexture 30))
    TextureRangeDesc.default [] someContext
  = Stopped AssertionFailure (recordAssertion "Invalid index: %d" someContext) /\
  copyBytesColorAttachment releaseEnv depthOnlyFramebuffer 0 [1; 2; 3]
    TextureRangeDesc.default 0 someContext
  = Done [1; 2; 3] (recordAssertion "Code NOT implemented" someContext).
Proof.
  split.
  - apply (proj1 (X3_unsupported_copies_only_assert debugEnv)). by left.
  - apply (proj1 (proj2 (X3_unsupported_copies_only_assert releaseEnv)));
      reflexivity.
Defined.

(** ** A render pass that does not cover the framebuffer *)

Lemma forEach_stops {A} (l : list A) (body : A -> M unit) k :
  (forall x c, x ∈ l ->
     (exists c', body x c = Done tt c') \/ (exists c', body x c = Stopped k c')) ->
  (exists x, x ∈ l /\ forall c, exists c', body x c = Stopped k c') ->
  forall c, exists c', forEach l body c = Stopped k c'.
Proof.
  induction l as [|y l IH]; intros Hall (x & Hx & Hstop) c.
  { by apply elem_of_nil in Hx. }
  cbn [forEach]. rewrite run_bind.
  destruct (Hall y c) as [[c' Hy]|[c' Hy]]; [by left| |]; rewrite Hy; cbn; [|by eexists].
  apply IH.
  - intros z c0 Hz. apply Hall. by right.
  - apply elem_of_cons in Hx as [->|Hx]; [|by exists x].
    destruct (Hstop c) as [c'' Hc'']. congruence.
Qed.

Lemma bindColorAttachment_cases env mode rp x c :
  let k := if assertionsAbort env then AssertionFailure else UndefinedBehaviour in
  (exists c', bindColorAttachment env mode rp x c = Done tt c') \/
  (exists c', bindColorAttachment env mode rp x c = Stopped k c').
Proof.
  cbv zeta. unfold bindColorAttachment.
  destruct (FramebufferDesc.texture x.2) as [tex|]; [|left; by eexists].
  run_calls. cbv [IGL_ASSERT IGL_ASSERT_MSG vectorAt mret M_ret stop].
  destruct (N.to_nat x.1 <? length (RenderPassDesc.colorAttachments rp))%nat eqn:E.
  - apply Nat.ltb_lt, lookup_lt_is_Some_2 in E as [a Ha]. rewrite Ha.
    left. destruct (_ && _); [destruct (TextureFormatProperties.isSRGB _)|];
      destruct (needsToBeReattached _ _); by eexists.
  - apply Nat.ltb_ge, lookup_ge_None_2 in E. rewrite E.
    right. destruct (_ && _); [destruct (TextureFormatProperties.isSRGB _)|];
      destruct (assertionsAbort env); by eexists.
Qed.

Lemma bindColorAttachment_uncovered env mode rp k att tex c :
  FramebufferDesc.texture att = Some tex ->
  (length (RenderPassDesc.colorAttachments rp) <= N.to_nat k)%nat ->
  exists c',
    bindColorAttachment env mode rp (k, att) c
    = Stopped (if assertionsAbort env then AssertionFailure else UndefinedBehaviour) c'.
Proof.
  intros Htex Hlen. unfold bindColorAttachment. cbn [fst snd]. rewrite Htex.
  run_calls. cbv [IGL_ASSERT IGL_ASSERT_MSG vectorAt mret M_ret stop].
  replace (N.to_nat k <? length (RenderPassDesc.colorAttachments rp))%nat with false
    by (symmetry; by apply Nat.ltb_ge).
  rewrite (lookup_ge_None_2 _ _ Hlen).
  destruct (_ && _); [destruct (TextureFormatProperties.isSRGB _)|];
    destruct (assertionsAbort env); by eexists.
Qed.

Lemma stopped_bind_l {A B} (m : M A) (f : A -> M B) c k :
  (exists c', m c = Stopped k c') -> exists c', (m ≫= f) c = Stopped k c'.
Proof. intros [c' H]. rewrite run_bind, H. by eexists. Qed.

Lemma stopped_bind_r {A B} (m : M A) (f : A -> M B) c a c1 k :
  m c = Done a c1 -> (exists c', f a c1 = Stopped k c') ->
  exists c', (m ≫= f) c = Stopped k c'.
Proof. intros Hm [c' H]. rewrite (bind_Done _ _ _ _ _ Hm), H. by eexists. Qed.

(** X21: [bind] with a render pass that has no colour attachment for an
    index at which the framebuffer has a texture never returns: in a build
    where failed assertions stop the program it stops at a failed assertion,
    and otherwise it goes on to read the render pass outside its vector of
    colour attachments. *)
Theorem X21_bind_render_pass_too_short env rp fb k att tex c :
  FramebufferDesc.colorAttachments (renderTarget_ fb) !! k = Some att ->
  FramebufferDesc.texture att = Some tex ->
  (length (RenderPassDesc.colorAttachments rp) <= N.to_nat k)%nat ->
  exists c',
    bind env rp fb c
    = Stopped (if assertionsAbort env then AssertionFailure else UndefinedBehaviour) c'.
Proof.
  intros Hk Htex Hlen. unfold bind. cbv zeta.
  change (renderTarget_ (setRenderPass rp fb)) with (renderTarget_ fb).
  assert (forall c0 (rest : M CustomFramebuffer), exists c',
            (bindBuffer (setRenderPass rp fb);;
             forEach (map_to_list (FramebufferDesc.colorAttachments (renderTarget_ fb)))
               (bindColorAttachment env (FramebufferDesc.mode (renderTarget_ fb)) rp);;
             rest) c0
            = Stopped (if assertionsAbort env then AssertionFailure
                       else UndefinedBehaviour) c') as Hloop.
  { intros c0 rest. eapply stopped_bind_r; [reflexivity|].
    apply stopped_bind_l, forEach_stops.
    - intros x c1 _. apply bindColorAttachment_cases.
    - exists (k, att). split; [by apply elem_of_map_to_list|].
      intros c1. by apply bindColorAttachment_uncovered with (tex := tex). }
  unfold IGL_ASSERT_MSG at 1.
  destruct (negb (isMultiview (FramebufferDesc.mode (renderTarget_ fb)))).
  { eapply stopped_bind_r; [reflexivity|]. apply Hloop. }
  destruct (assertionsAbort env) eqn:Habort.
  - apply stopped_bind_l. by eexists.
  - eapply stopped_bind_r; [reflexivity|]. apply Hloop.
Qed.

Lemma X21_witness :
  exists c',
    bind releaseEnv RenderPassDesc.default someFramebuffer someContext
    = Stopped UndefinedBehaviour c'.
Proof.
  apply (X21_bind_render_pass_too_short releaseEnv RenderPassDesc.default
           someFramebuffer 0 (attachment (Some (rgbaTexture 10)) None)
           (rgbaTexture 10) someContext); [reflexivity|reflexivity|].
  cbn. lia.
Defined.

(** X22: [unbind] relies on the render pass cached by [bind].  On an object
    that [initialize] has just set up, with a texture at colour index 0, and
    that has not been bound yet, the cached render pass is the default one,
    without colour attachments, and [unbind] reads its first colour
    attachment outside the vector. *)
Theorem X22_unbind_before_bind env desc outResult c r fb c1 att tex c2 :
  initialize env desc outResult newCustomFramebuffer c = Done (r, fb) c1 ->
  FramebufferDesc.colorAttachments desc !! 0 = Some att ->
  FramebufferDesc.texture att = Some tex ->
  exists c3, unbind env fb c2 = Stopped UndefinedBehaviour c3.
Proof.
  intros Hrun Hk Htex.
  apply initializeFuel_fresh_inv in Hrun as (Htarget & _ & Hcase); [|reflexivity].
  assert (renderPass_ fb = RenderPassDesc.default) as Hpass.
  { destruct Hcase as [[_ ->]|(_ & c3 & c4 & _ & Hprepare)]; [reflexivity|].
    by apply prepareResource_members in Hprepare as (_ & _ & ->). }
  unfold unbind. cbv zeta. rewrite Htarget, Hk, Htex, Hpass. cbn [isSome].
  apply stopped_bind_l, stopped_bind_l. by eexists.
Qed.

Lemma X22_witness :
  exists r fb c1 c3,
    initialize releaseEnv fullDesc None newCustomFramebuffer someContext = Done (r, fb) c1 /\
    unbind releaseEnv fb c1 = Stopped UndefinedBehaviour c3.
Proof.
  assert (exists r fb c1,
            initialize releaseEnv fullDesc None newCustomFramebuffer someContext
            = Done (r, fb) c1) as (r & fb & c1 & Hrun)
    by (vm_compute; eauto).
  destruct (X22_unbind_before_bind releaseEnv fullDesc None someContext r fb c1
              (attachment (Some (rgbaTexture 10)) None) (rgbaTexture 10) c1 Hrun)
    as [c3 Hstop]; [reflexivity|reflexivity|].
  exists r, fb, c1, c3. split; [exact Hrun|exact Hstop].
Defined.

(** ** Failed assertions, with and without a stop *)

(** C7, as stated, fails: the assertions are fatal only in a build where a
    failed assertion stops the program.  In a build where it does not, [bind]
    on a Multiview framebuffer records the failure and goes on: it returns,
    after binding the framebuffer and clearing; and [copyBytesColorAttachment]
    with index 1 records the failure and returns. *)
Lemma C7_assertions_are_not_fatal_in_every_build :
  getMode multiviewFramebuffer = Multiview /\
  (exists fb c',
     bind releaseEnv someRenderPass multiviewFramebuffer someContext = Done fb c' /\
     assertionFailures c' = ["FramebufferMode::Multiview not supported"] /\
     BindFramebuffer GL.FRAMEBUFFER 6 ∈ calls c' /\
     Clear (N.lor GL.COLOR_BUFFER_BIT GL.DEPTH_BUFFER_BIT) ∈ calls c') /\
  copyBytesColorAttachment releaseEnv someFramebuffer 1 [7; 7; 7; 7]
    TextureRangeDesc.default 0 someContext
  = Done [7; 7; 7; 7] (recordAssertion "Invalid index: %d" someContext).
Proof.
  split; [reflexivity|]. split; [|reflexivity].
  eexists _, _. split; [vm_compute; reflexivity|]. split; [reflexivity|].
  split; apply list_elem_of_In; vm_compute; tauto.
Qed.

Lemma emits_bindColorAttachment env mode rp x :
  emits anyCall (bindColorAttachment env mode rp x).
Proof.
  unfold bindColorAttachment, IGL_ASSERT, attachAsColor.
  destruct (FramebufferDesc.texture x.2); repeat emits_any_step.
Qed.

(** Where the failed assertion does not stop the program, [bind] on a
    Multiview framebuffer goes on with the binding of the framebuffer. *)
Lemma bind_multiview_continues env rp fb c :
  getMode fb = Multiview -> assertionsAbort env = false ->
  startsWith (bind env rp fb) c [BindFramebuffer GL.FRAMEBUFFER (frameBufferID_ fb)].
Proof.
  intros Hmode Hrelease. unfold bind. cbv zeta.
  change (renderTarget_ (setRenderPass rp fb)) with (renderTarget_ fb).
  unfold getMode in Hmode. rewrite Hmode. cbn [isMultiview negb].
  change [BindFramebuffer GL.FRAMEBUFFER (frameBufferID_ fb)]
    with ([] ++ [BindFramebuffer GL.FRAMEBUFFER (frameBufferID_ fb)] ++ []).
  eapply startsWith_step.
  { unfold IGL_ASSERT_MSG. rewrite Hrelease. reflexivity. }
  { cbn. by rewrite app_nil_r. }
  eapply startsWith_step; [reflexivity|reflexivity|].
  apply startsWith_emits. unfold attachAsDepth.
  apply emits_bind; [apply emits_forEach; intros x; apply emits_bindColorAttachment|].
  intros _. repeat emits_any_step.
Qed.

(** C7, amended: [bind] on a Multiview framebuffer fails its assertion before
    any context call: the failure is recorded first; in a build where failed
    assertions stop the program the run stops there, and in a build where
    they do not [bind] goes on with the binding of the framebuffer; [bind]
    has no error result to return.  [copyBytesColorAttachment] with a nonzero
    index fails its assertion and does nothing else: no context call is made,
    so no pixel is read, and the caller's buffer is as it was; in a build
    where failed assertions stop the program the run stops there, and
    otherwise it returns. *)
Theorem C7_precondition_violations_assert env :
  (forall rp fb c,
     getMode fb = Multiview ->
     (exists rest,
        assertionFailures (finalContext (bind env rp fb c))
        = assertionFailures c ++ "FramebufferMode::Multiview not supported" :: rest) /\
     (assertionsAbort env = true ->
      bind env rp fb c
      = Stopped AssertionFailure
          (recordAssertion "FramebufferMode::Multiview not supported" c)) /\
     (assertionsAbort env = false ->
      exists rest,
        calls (finalContext (bind env rp fb c))
        = calls c ++ BindFramebuffer GL.FRAMEBUFFER (frameBufferID_ fb) :: rest)) /\
  (forall fb index pixelBytes range bytesPerRow c,
     index <> 0 ->
     let o := copyBytesColorAttachment env fb index pixelBytes range bytesPerRow c in
     finalContext o = recordAssertion "Invalid index: %d" c /\
     calls (finalContext o) = calls c /\
     o = (if assertionsAbort env
          then Stopped AssertionFailure (recordAssertion "Invalid index: %d" c)
          else Done pixelBytes (recordAssertion "Invalid index: %d" c))).
Proof.
  split.
  - intros rp fb c Hmode. split; [|split].
    + destruct (bind_after_assertion env rp fb) as (rest & Hrest & Hbind).
      rewrite Hbind, Hmode, run_bind. unfold IGL_ASSERT_MSG. cbn [isMultiview negb].
      destruct (assertionsAbort env); [by exists []|].
      destruct (Hrest (recordAssertion
        "FramebufferMode::Multiview not supported" c)) as [r Hr].
      exists r. rewrite Hr. cbn. by rewrite <- app_assoc.
    + intros Habort.
      destruct (bind_after_assertion env rp fb) as (rest & Hrest & Hbind).
      rewrite Hbind, Hmode, run_bind. unfold IGL_ASSERT_MSG. cbn [isMultiview negb].
      by rewrite Habort.
    + intros Hrelease.
      destruct (bind_multiview_continues env rp fb c Hmode Hrelease) as [rest Hrest].
      by exists rest.
  - intros fb index pixelBytes range bytesPerRow c Hindex o. subst o.
    unfold copyBytesColorAttachment.
    destruct (N.eqb_spec index 0) as [->|_]; [done|]. cbn [negb].
    rewrite run_bind. unfold IGL_ASSERT_MSG.
    destruct (assertionsAbort env); cbn; done.
Qed.

Lemma C7_witness :
  bind debugEnv someRenderPass multiviewFramebuffer someContext
  = Stopped AssertionFailure
      (recordAssertion "FramebufferMode::Multiview not supported" someContext) /\
  (exists rest,
     calls (finalContext (bind releaseEnv someRenderPass multiviewFramebuffer someContext))
     = calls someContext ++ BindFramebuffer GL.FRAMEBUFFER 6 :: rest) /\
  copyBytesColorAttachment debugEnv someFramebuffer 1 [7; 7; 7; 7]
    TextureRangeDesc.default 0 someContext
  = Stopped AssertionFailure (recordAssertion "Invalid index: %d" someContext) /\
  copyBytesColorAttachment releaseEnv someFramebuffer 1 [7; 7; 7; 7]
    TextureRangeDesc.default 0 someContext
  = Done [7; 7; 7; 7] (recordAssertion "Invalid index: %d" someContext).
Proof.
  destruct (C7_precondition_violations_assert debugEnv) as [Hbind Hcopy].
  destruct (C7_precondition_violations_assert releaseEnv) as [Hbind' Hcopy'].
  split; [|split; [|split]].
  - apply (Hbind someRenderPass multiviewFramebuffer someContext); reflexivity.
  - apply (Hbind' someRenderPass multiviewFramebuffer someContext); reflexivity.
  - apply (Hcopy someFramebuffer 1 [7; 7; 7; 7] TextureRangeDesc.default 0 someContext).
    discriminate.
  - apply (Hcopy' someFramebuffer 1 [7; 7; 7; 7] TextureRangeDesc.default 0 someContext).
    discriminate.
Defined.
